(** * Competency Matrix API: a shallow embedding of [main.py]

    The service ingests three loosely typed JSON payloads (matrix,
    standards, definitions) into three collections of a document store and
    joins them again at query time.  The embedding follows [main.py]
    function by function:

    - Python values that travel through the handlers are [json] values;
    - the three collections are lists of documents in insertion order;
    - handlers run in a state-and-exception monad [M], so that a request
      that raises half way keeps the writes it already made;
    - the string builtins used by the code ([split], [join], [strip],
      [lower], [replace], [title], [str]) are modelled on ASCII text.

    Scope of the model: JSON numbers are integers (no floating point), and
    characters outside ASCII are carried through the string builtins
    unchanged. *)

From Stdlib Require Import String Ascii List ZArith Bool Lia DecimalString.
Import ListNotations.

Local Open Scope string_scope.
Local Open Scope list_scope.

(** ** Python string builtins *)

Module PyStr.

(** [str.isspace] on one ASCII character: TAB, LF, VT, FF, CR, the four
    separators FS, GS, RS, US, and the space. *)
Definition is_space (c : ascii) : bool :=
  let n := nat_of_ascii c in
  ((9 <=? n) && (n <=? 13) || (28 <=? n) && (n <=? 31) || (n =? 32))%nat.

Definition is_upper (c : ascii) : bool :=
  let n := nat_of_ascii c in ((65 <=? n) && (n <=? 90))%nat.

Definition is_lower (c : ascii) : bool :=
  let n := nat_of_ascii c in ((97 <=? n) && (n <=? 122))%nat.

Definition to_lower (c : ascii) : ascii :=
  if is_upper c then ascii_of_nat (nat_of_ascii c + 32) else c.

Definition to_upper (c : ascii) : ascii :=
  if is_lower c then ascii_of_nat (nat_of_ascii c - 32) else c.

Fixpoint map_chars (f : ascii -> ascii) (s : string) : string :=
  match s with
  | EmptyString => EmptyString
  | String c s' => String (f c) (map_chars f s')
  end.

(** [s.lower()] *)
Definition lower (s : string) : string := map_chars to_lower s.

(** [s.replace(old, new)] for one-character [old] and [new], the only
    way the code calls it ([replace("_", " ")]). *)
Definition replace (old new : ascii) (s : string) : string :=
  map_chars (fun c => if Ascii.eqb c old then new else c) s.

(** [s.title()]: a cased character is upper-cased when the character
    before it is not cased, and lower-cased when it is. *)
Fixpoint title_from (previous_is_cased : bool) (s : string) : string :=
  match s with
  | EmptyString => EmptyString
  | String c s' =>
      if is_lower c || is_upper c
      then String (if previous_is_cased then to_lower c else to_upper c)
                  (title_from true s')
      else String c (title_from false s')
  end.

Definition title (s : string) : string := title_from false s.

(** [s.split()] with no argument: the maximal runs of non-whitespace
    characters, in order.  [scan s] reads [s] from the right and returns
    the run that starts at the first character of [s] (empty when [s]
    starts with whitespace or is empty) and the words after it. *)
Definition push_word (w : string) (ws : list string) : list string :=
  match w with
  | EmptyString => ws
  | _ => w :: ws
  end.

Fixpoint scan (s : string) : string * list string :=
  match s with
  | EmptyString => (EmptyString, [])
  | String c s' =>
      let (w, ws) := scan s' in
      if is_space c then (EmptyString, push_word w ws) else (String c w, ws)
  end.

Definition split (s : string) : list string :=
  let (w, ws) := scan s in push_word w ws.

(** [sep.join(ws)] *)
Definition join (sep : string) (ws : list string) : string :=
  String.concat sep ws.

Fixpoint lstrip (s : string) : string :=
  match s with
  | EmptyString => EmptyString
  | String c s' => if is_space c then lstrip s' else s
  end.

Fixpoint rstrip (s : string) : string :=
  match s with
  | EmptyString => EmptyString
  | String c s' =>
      match rstrip s' with
      | EmptyString => if is_space c then EmptyString else String c EmptyString
      | r => String c r
      end
  end.

(** [s.strip()] *)
Definition strip (s : string) : string := rstrip (lstrip s).

(** [repr(s)] of a string: single quotes unless the text has a single
    quote and no double quote; backslash, the chosen quote and control
    characters are escaped. *)
Fixpoint contains (c : ascii) (s : string) : bool :=
  match s with
  | EmptyString => false
  | String d s' => Ascii.eqb c d || contains c s'
  end.

Definition hex_digit (n : nat) : ascii :=
  if (n <? 10)%nat then ascii_of_nat (48 + n) else ascii_of_nat (87 + n).

Definition escape_char (quote c : ascii) : string :=
  let n := nat_of_ascii c in
  if Ascii.eqb c quote || Ascii.eqb c "\"%char
  then String "\"%char (String c EmptyString)
  else if (n =? 9)%nat then "\t"
  else if (n =? 10)%nat then "\n"
  else if (n =? 13)%nat then "\r"
  else if (n <? 32)%nat || (n =? 127)%nat
  then String "\"%char (String "x"%char
         (String (hex_digit (n / 16)) (String (hex_digit (n mod 16)) EmptyString)))
  else String c EmptyString.

Fixpoint escape (quote : ascii) (s : string) : string :=
  match s with
  | EmptyString => EmptyString
  | String c s' => (escape_char quote c ++ escape quote s')%string
  end.

Definition double_quote : ascii := ascii_of_nat 34.
Definition single_quote : ascii := ascii_of_nat 39.

Definition repr (s : string) : string :=
  let quote :=
    if contains single_quote s && negb (contains double_quote s)
    then double_quote else single_quote in
  String quote (escape quote s ++ String quote EmptyString)%string.

(** [str(n)] of an integer: its decimal digits, with a leading minus
    sign when negative. *)
Definition of_Z (z : Z) : string := NilZero.string_of_int (Z.to_int z).

End PyStr.

(** ** JSON values, as the handlers receive and store them *)

Unset Elimination Schemes.
Inductive json : Type :=
| JNull
| JBool (b : bool)
| JInt (z : Z)
| JStr (s : string)
| JList (l : list json)
| JDict (d : list (string * json)).
Set Elimination Schemes.

(** A JSON object: its fields in insertion order. *)
Definition dict : Type := list (string * json).

(** The exceptions a handler can end with.  [HTTPException] is raised by
    the code itself; [AttributeError] and [TypeError] are raised by the
    interpreter when a method is missing on a value, a value is not
    iterable or a dictionary key is not hashable. *)
Inductive exn : Type :=
| HTTPException (status_code : Z) (detail : string)
| AttributeError
| TypeError.

(** Pure computations that may raise. *)
Definition E (A : Type) : Type := (exn + A)%type.

Definition ebind {A B : Type} (m : E A) (k : A -> E B) : E B :=
  match m with
  | inl e => inl e
  | inr a => k a
  end.

Declare Scope exn_scope.
Delimit Scope exn_scope with exn.
Notation "x <- m ;; k" := (ebind m (fun x => k))
  (at level 61, m at next level, right associativity) : exn_scope.

Module Py.

(** Truth value of a Python object, as [if], [or] and [not] see it. *)
Definition truthy (j : json) : bool :=
  match j with
  | JNull => false
  | JBool b => b
  | JInt z => negb (z =? 0)%Z
  | JStr s => negb (s =? EmptyString)%string
  | JList l => match l with [] => false | _ => true end
  | JDict d => match d with [] => false | _ => true end
  end.

(** [a or b] (both operands here are free of effects). *)
Definition or (a b : json) : json := if truthy a then a else b.

Fixpoint dict_get (d : dict) (k : string) : option json :=
  match d with
  | [] => None
  | (k', v) :: d' => if (k' =? k)%string then Some v else dict_get d' k
  end.

(** [d.get(k, default)] and [d.get(k)] on a dictionary. *)
Definition get_default (d : dict) (k : string) (default : json) : json :=
  match dict_get d k with
  | Some v => v
  | None => default
  end.

Definition get (d : dict) (k : string) : json := get_default d k JNull.

(** The attribute lookup [x.get] (or [x.items]): only dictionaries have
    it among JSON values. *)
Definition as_dict (x : json) : E dict :=
  match x with
  | JDict d => inr d
  | _ => inl AttributeError
  end.

(** [repr(x)] and [str(x)]. *)
Fixpoint repr (x : json) : string :=
  match x with
  | JNull => "None"
  | JBool true => "True"
  | JBool false => "False"
  | JInt z => PyStr.of_Z z
  | JStr s => PyStr.repr s
  | JList l => ("[" ++ PyStr.join ", " (map repr l) ++ "]")%string
  | JDict d =>
      ("{" ++ PyStr.join ", "
                (map (fun kv => PyStr.repr (fst kv) ++ ": " ++ repr (snd kv)) d)
           ++ "}")%string
  end.

Definition str (x : json) : string :=
  match x with
  | JStr s => s
  | _ => repr x
  end.

Fixpoint chars (s : string) : list json :=
  match s with
  | EmptyString => []
  | String c s' => JStr (String c EmptyString) :: chars s'
  end.

(** The values a [for] loop over [x] visits. *)
Definition iter (x : json) : E (list json) :=
  match x with
  | JList l => inr l
  | JStr s => inr (chars s)
  | JDict d => inr (map (fun kv => JStr (fst kv)) d)
  | _ => inl TypeError
  end.

(** Keys of an in-memory dictionary: lists and dictionaries are not
    hashable; [True == 1] and [False == 0] as keys. *)
Definition hashable (k : json) : bool :=
  match k with
  | JList _ | JDict _ => false
  | _ => true
  end.

Definition key_eqb (a b : json) : bool :=
  match a, b with
  | JNull, JNull => true
  | JStr x, JStr y => (x =? y)%string
  | JBool x, JBool y => Bool.eqb x y
  | JInt x, JInt y => (x =? y)%Z
  | JBool x, JInt y | JInt y, JBool x => ((if x then 1 else 0) =? y)%Z
  | _, _ => false
  end.

(** An in-memory dictionary whose keys are arbitrary hashable values
    ([defs_map] in the query). *)
Definition pydict : Type := list (json * dict).

Fixpoint pydict_set (m : pydict) (k : json) (v : dict) : pydict :=
  match m with
  | [] => [(k, v)]
  | (k', v') :: m' =>
      if key_eqb k' k then (k', v) :: m' else (k', v') :: pydict_set m' k v
  end.

Fixpoint pydict_get (m : pydict) (k : json) (default : dict) : dict :=
  match m with
  | [] => default
  | (k', v) :: m' => if key_eqb k' k then v else pydict_get m' k default
  end.

(** [m.get(key)] where [m] is a JSON value and [key] any value: the
    method must exist, the key must be hashable, and only a string can
    equal a key of a JSON object. *)
Definition lookup (m key : json) : E json :=
  match m with
  | JDict d =>
      if hashable key
      then inr (match key with JStr k => get d k | _ => JNull end)
      else inl TypeError
  | _ => inl AttributeError
  end.

End Py.

(** ** The document store *)

(** The three collections the handlers use. *)
Inductive collection : Type :=
| MATRIX_COL      (* "competencymatrixentry" *)
| STANDARDS_COL   (* "competencystandard" *)
| DEFS_COL.       (* "competencydefinition" *)

(** The state of the store: the documents of each collection, oldest
    first. *)
Record store : Type := mkStore {
  matrix_docs : list dict;
  standards_docs : list dict;
  defs_docs : list dict
}.

Definition empty_store : store := mkStore [] [] [].

Definition docs_of (s : store) (c : collection) : list dict :=
  match c with
  | MATRIX_COL => matrix_docs s
  | STANDARDS_COL => standards_docs s
  | DEFS_COL => defs_docs s
  end.

Definition with_docs (s : store) (c : collection) (l : list dict) : store :=
  match c with
  | MATRIX_COL => mkStore l (standards_docs s) (defs_docs s)
  | STANDARDS_COL => mkStore (matrix_docs s) l (defs_docs s)
  | DEFS_COL => mkStore (matrix_docs s) (standards_docs s) l
  end.

(** Collection by collection, the documents of [a] followed by those of
    [b]. *)
Definition store_app (a b : store) : store :=
  mkStore (matrix_docs a ++ matrix_docs b)
          (standards_docs a ++ standards_docs b)
          (defs_docs a ++ defs_docs b).

(** The module-level name [db]: [None] when the store was not initialised
    at start-up, a handle on the store otherwise. *)
Inductive Database : Type := Handle.

(** Handlers read and write the store and may raise; the store a handler
    leaves behind is kept when it raises. *)
Definition M (A : Type) : Type := store -> E A * store.

Definition ret {A : Type} (a : A) : M A := fun s => (inr a, s).

Definition raise {A : Type} (e : exn) : M A := fun s => (inl e, s).

Definition bind {A B : Type} (m : M A) (k : A -> M B) : M B :=
  fun s =>
    match m s with
    | (inl e, s') => (inl e, s')
    | (inr a, s') => k a s'
    end.

Definition lift {A : Type} (m : E A) : M A := fun s => (m, s).

Declare Scope handler_scope.
Delimit Scope handler_scope with handler.
Notation "x <- m ;; k" := (bind m (fun x => k))
  (at level 61, m at next level, right associativity) : handler_scope.
Notation "m ;; k" := (bind m (fun _ => k))
  (at level 61, right associativity) : handler_scope.

(** [for x in l: body(x)] *)
Fixpoint for_each {A : Type} (l : list A) (body : A -> M unit) : M unit :=
  match l with
  | [] => ret tt
  | x :: l' => bind (body x) (fun _ => for_each l' body)
  end.

(** Modelled from the spec: [create_document] of the [database] module,
    which is not among the sources; the store collaborator's
    insert-one-document.  The document is added to the collection, after
    the documents already there. *)
Definition create_document (collection_name : collection) (data : dict) : M unit :=
  fun s => (inr tt, with_docs s collection_name (docs_of s collection_name ++ [data])).

(** Modelled from the spec: the store collaborator's
    delete-many-matching-filter, called with the empty filter, which every
    document matches. *)
Definition delete_many (c : collection) : M unit :=
  fun s => (inr tt, with_docs s c []).

(** Modelled from the spec: the store collaborator's filters.  A filter
    lists fields with the string each must be equal to. *)
Definition matches (filter : list (string * string)) (doc : dict) : bool :=
  forallb (fun cond =>
             match Py.dict_get doc (fst cond) with
             | Some (JStr v) => (v =? snd cond)%string
             | _ => false
             end) filter.

(** Modelled from the spec: find-one-matching-filter, the oldest matching
    document or [None]; and find-many with the empty filter, all
    documents of the collection. *)
Definition find_one (c : collection) (filter : list (string * string))
  : M (option dict) :=
  fun s => (inr (List.find (matches filter) (docs_of s c)), s).

Definition find_all (c : collection) : M (list dict) :=
  fun s => (inr (docs_of s c), s).

(** ** Helpers of [main.py] *)

Definition _clear_collections : M unit :=
  (delete_many MATRIX_COL ;;
   delete_many STANDARDS_COL ;;
   delete_many DEFS_COL)%handler.

Definition _normalize_title (title : string) : string :=
  PyStr.strip (PyStr.join " " (PyStr.split title)).

(** [_normalize_title(x)] on a value that need not be a string: the call
    [x.split()] raises when it is not. *)
Definition normalize_title_of (x : json) : E string :=
  match x with
  | JStr title => inr (_normalize_title title)
  | _ => inl AttributeError
  end.

(** ** [POST /api/ingest] *)

Record IngestPayload : Type := mkIngestPayload {
  matrix : json;
  standards : json;
  definitions : json;
  replace : bool
}.

(** The block under [# Insert matrix]. *)
Definition ingest_matrix (matrix : json) : M unit :=
  match matrix with
  | JDict items =>
      for_each items (fun item =>
        let title := fst item in
        let comps := snd item in
        create_document MATRIX_COL
          [("job_title", JStr (_normalize_title title));
           ("competencies", match comps with JList _ => comps | _ => JList [] end)])
  | JList entries =>
      for_each entries (fun entry =>
        (e <- lift (Py.as_dict entry) ;;
         title <- lift (normalize_title_of
                          (Py.or (Py.or (Py.get e "job_title") (Py.get e "title"))
                                 (JStr EmptyString))) ;;
         let comps := Py.or (Py.or (Py.get e "competencies") (Py.get e "skills"))
                            (JList []) in
         if Py.truthy (JStr title)
         then create_document MATRIX_COL
                [("job_title", JStr title); ("competencies", comps)]
         else ret tt)%handler)
  | _ => ret tt
  end.

(** The block under [# Insert standards]. *)
Definition ingest_standards (standards : json) : M unit :=
  match standards with
  | JDict items =>
      for_each items (fun item =>
        let title := fst item in
        let lvl_obj := snd item in
        (levels <- lift (Py.as_dict (Py.or lvl_obj (JDict []))) ;;
         for_each levels (fun lv =>
           let lvl := fst lv in
           let mapping := snd lv in
           create_document STANDARDS_COL
             [("job_title", JStr (_normalize_title title));
              ("level", JStr (Py.str (JStr lvl)));
              ("standards", Py.or mapping (JDict []))]))%handler)
  | JList items =>
      for_each items (fun item =>
        (doc <- lift (e <- Py.as_dict item ;;
                      title <- normalize_title_of
                                 (Py.or (Py.or (Py.get e "job_title") (Py.get e "title"))
                                        (JStr EmptyString)) ;;
                      inr [("job_title", JStr title);
                           ("level", JStr (Py.str (Py.or (Py.get e "level")
                                                         (JStr EmptyString))));
                           ("standards",
                             Py.or (Py.or (Py.get e "standards") (Py.get e "mapping"))
                                   (JDict []))])%exn ;;
         create_document STANDARDS_COL doc)%handler)
  | _ => ret tt
  end.

(** The block under [# Insert definitions]. *)
Definition ingest_definitions (definitions : json) : M unit :=
  match definitions with
  | JDict items =>
      for_each items (fun item =>
        let key := fst item in
        let value := snd item in
        let entry :=
          [("key", JStr key);
           ("label", match value with JDict v => Py.get v "label" | _ => JNull end);
           ("description",
             match value with JDict v => Py.get v "description" | _ => JNull end);
           ("values", match value with JDict v => Py.get v "values" | _ => JDict [] end)]
        in
        create_document DEFS_COL entry)
  | JList items =>
      for_each items (fun d =>
        (e <- lift (Py.as_dict d) ;;
         let key := Py.or (Py.get e "key") (Py.get e "id") in
         if negb (Py.truthy key) then ret tt
         else create_document DEFS_COL
                [("key", key);
                 ("label", Py.get e "label");
                 ("description", Py.get e "description");
                 ("values", Py.or (Py.or (Py.get e "values") (Py.get e "levels"))
                                  (JDict []))])%handler)
  | _ => ret tt
  end.

Definition ingest (db : option Database) (payload : IngestPayload) : M json :=
  match db with
  | None => raise (HTTPException 500 "Database not available")
  | Some _ =>
      ((if replace payload then _clear_collections else ret tt) ;;
       ingest_matrix (matrix payload) ;;
       ingest_standards (standards payload) ;;
       ingest_definitions (definitions payload) ;;
       ret (JDict [("status", JStr "ok")]))%handler
  end.

(** ** [GET /api/competencies] *)

(** The loop that fills [defs_map]. *)
Fixpoint build_defs_map (docs : list dict) (defs_map : Py.pydict) : E Py.pydict :=
  match docs with
  | [] => inr defs_map
  | d :: docs' =>
      let key := Py.get d "key" in
      if Py.hashable key
      then build_defs_map docs'
             (Py.pydict_set defs_map key
                [("label", Py.get d "label");
                 ("description", Py.get d "description");
                 ("values", Py.or (Py.get d "values") (JDict []))])
      else inl TypeError
  end.

(** [key.replace("_", " ").title()] on a value that need not be a
    string. *)
Definition label_of_key (key : json) : E json :=
  match key with
  | JStr k => inr (JStr (PyStr.title (PyStr.replace "_" " " k)))
  | _ => inl AttributeError
  end.

(** Key and label of one competency reference. *)
Definition key_and_label (comp : json) : E (json * json) :=
  match comp with
  | JStr s => inr (comp, JStr (PyStr.title (PyStr.replace "_" " " s)))
  | JDict c =>
      let key := Py.or (Py.or (Py.get c "key") (Py.get c "id")) (Py.get c "name") in
      if Py.truthy (Py.get c "label") then inr (key, Py.get c "label")
      else if Py.truthy (Py.get c "name") then inr (key, Py.get c "name")
      else if Py.truthy key
           then (label <- label_of_key key ;; inr (key, label))%exn
           else inr (key, JNull)
  | _ => inl AttributeError
  end.

(** One turn of the loop over the competencies: [None] when the turn ends
    at [continue], the appended row otherwise. *)
Definition competency_row (level_mapping : json) (defs_map : Py.pydict)
    (comp : json) : E (option json) :=
  (kl <- key_and_label comp ;;
   let key := fst kl in
   let label := snd kl in
   if negb (Py.truthy key) then inr None
   else
     standard_value <- Py.lookup level_mapping key ;;
     let defn := Py.pydict_get defs_map key [] in
     value_definition <-
       match standard_value with
       | JNull => inr JNull
       | _ =>
           values_map <- Py.as_dict (Py.or (Py.get defn "values") (JDict [])) ;;
           inr (Py.get values_map (PyStr.lower (Py.str standard_value)))
       end ;;
     inr (Some (JDict [("key", key);
                       ("label", label);
                       ("standard", standard_value);
                       ("definition", Py.get defn "description");
                       ("standard_definition", value_definition)])))%exn.

Fixpoint competency_rows (level_mapping : json) (defs_map : Py.pydict)
    (comps : list json) (result_items : list json) : E (list json) :=
  match comps with
  | [] => inr result_items
  | comp :: comps' =>
      match competency_row level_mapping defs_map comp with
      | inl e => inl e
      | inr None => competency_rows level_mapping defs_map comps' result_items
      | inr (Some row) =>
          competency_rows level_mapping defs_map comps' (result_items ++ [row])
      end
  end.

Definition json_of_level (level : option string) : json :=
  match level with
  | Some l => JStr l
  | None => JNull
  end.

Definition get_competencies (db : option Database) (title : string)
    (level : option string) : M json :=
  match db with
  | None => raise (HTTPException 500 "Database not available")
  | Some _ =>
      (let title := _normalize_title title in
       matrix_entry <- find_one MATRIX_COL [("job_title", title)] ;;
       match matrix_entry with
       | None => raise (HTTPException 404 "Title not found")
       | Some matrix_entry =>
           if negb (Py.truthy (JDict matrix_entry))
           then raise (HTTPException 404 "Title not found")
           else
             level_mapping <-
               (if Py.truthy (json_of_level level)
                then
                  st_doc <- find_one STANDARDS_COL
                              [("job_title", title);
                               ("level", Py.str (json_of_level level))] ;;
                  match st_doc with
                  | Some st_doc =>
                      if Py.truthy (JDict st_doc)
                      then ret (Py.or (Py.get st_doc "standards") (JDict []))
                      else ret (JDict [])
                  | None => ret (JDict [])
                  end
                else ret (JDict [])) ;;
             docs <- find_all DEFS_COL ;;
             defs_map <- lift (build_defs_map docs []) ;;
             comps <- lift (Py.iter (Py.get_default matrix_entry "competencies"
                                                    (JList []))) ;;
             result_items <- lift (competency_rows level_mapping defs_map comps []) ;;
             ret (JDict [("title", JStr title);
                         ("level", json_of_level level);
                         ("items", JList result_items)])
       end)%handler
  end.

(** ** Vocabulary of the statements *)

(** The store handle of a running service. *)
Definition db_up : option Database := Some Handle.

(** The value [level_mapping] has when the loop over the competencies
    starts, read off the store. *)
Definition level_mapping_of (s : store) (title : string) (level : option string)
  : json :=
  if Py.truthy (json_of_level level)
  then match List.find (matches [("job_title", title);
                                 ("level", Py.str (json_of_level level))])
                       (standards_docs s) with
       | Some st_doc =>
           if Py.truthy (JDict st_doc)
           then Py.or (Py.get st_doc "standards") (JDict [])
           else JDict []
       | None => JDict []
       end
  else JDict [].

(** A handler that only adds documents: started on any store, it ends
    the way it ends on the empty store, and leaves the documents it found
    followed by the ones it writes on the empty store. *)
Definition appends {A : Type} (m : M A) : Prop :=
  forall s, m s = (fst (m empty_store), store_app s (snd (m empty_store))).

(** The matrix collection of [s] holds exactly [docs]. *)
Definition keep (docs : list dict) (s : store) : Prop := matrix_docs s = docs.

(** A field of a response row. *)
Definition item_field (item : json) (k : string) : option json :=
  match item with
  | JDict d => Py.dict_get d k
  | _ => None
  end.

(** The rows among the outcomes of the turns of the loop. *)
Fixpoint somes {A : Type} (l : list (option A)) : list A :=
  match l with
  | [] => []
  | Some a :: l' => a :: somes l'
  | None :: l' => somes l'
  end.

(** Shapes of the data model.  A competency reference is a bare string or
    an object whose [key], [id], [name] and [label], when present, are
    strings ("Support either string keys or {key, label}"); [standards]
    and [values] are objects when present; a definition key is a
    string. *)
Definition str_or_none (j : json) : bool :=
  match j with
  | JNull | JStr _ => true
  | _ => false
  end.

Definition dict_or_none (j : json) : bool :=
  match j with
  | JNull | JDict _ => true
  | _ => false
  end.

Definition ref_ok (comp : json) : bool :=
  match comp with
  | JStr _ => true
  | JDict c =>
      str_or_none (Py.get c "key") && str_or_none (Py.get c "id")
      && str_or_none (Py.get c "name") && str_or_none (Py.get c "label")
  | _ => false
  end.

Definition matrix_entry_ok (d : dict) : bool :=
  match Py.dict_get d "competencies" with
  | None => true
  | Some (JList refs) => forallb ref_ok refs
  | Some _ => false
  end.

Definition standard_ok (d : dict) : bool := dict_or_none (Py.get d "standards").

Definition definition_ok (d : dict) : bool :=
  str_or_none (Py.get d "key") && dict_or_none (Py.get d "values").

Definition store_ok (s : store) : bool :=
  forallb matrix_entry_ok (matrix_docs s)
  && forallb standard_ok (standards_docs s)
  && forallb definition_ok (defs_docs s).

(** The competency references of a matrix entry. *)
Definition refs_of (matrix_entry : dict) : list json :=
  match Py.dict_get matrix_entry "competencies" with
  | Some (JList refs) => refs
  | _ => []
  end.

(** The key a well-shaped reference resolves to, in the words of the
    specification: the string itself for a bare string, the first of
    [key], [id], [name] that is present for an object; an empty string is
    no key. *)
Definition nonempty (j : json) : option string :=
  match j with
  | JStr EmptyString => None
  | JStr s => Some s
  | _ => None
  end.

Definition first_present (a b : option string) : option string :=
  match a with
  | Some _ => a
  | None => b
  end.

Definition resolved_key (comp : json) : option string :=
  match comp with
  | JStr _ => nonempty comp
  | JDict c =>
      first_present (nonempty (Py.get c "key"))
        (first_present (nonempty (Py.get c "id")) (nonempty (Py.get c "name")))
  | _ => None
  end.

Definition resolves (comp : json) : bool :=
  match resolved_key comp with
  | Some _ => true
  | None => false
  end.

(** What the specification says of the row of reference [comp]: its key
    is the resolved key, and the label of a bare string is the key with
    underscores turned into spaces and every word title-cased. *)
Definition row_of_ref (comp row : json) : Prop :=
  (exists k, resolved_key comp = Some k /\ item_field row "key" = Some (JStr k))
  /\ (forall s, comp = JStr s ->
        item_field row "label"
        = Some (JStr (PyStr.title (PyStr.replace "_" " " s)))).

(** A string with no whitespace in it. *)
Fixpoint no_space (s : string) : bool :=
  match s with
  | EmptyString => true
  | String c s' => negb (PyStr.is_space c) && no_space s'
  end.

(** A word as [split] returns it: not empty, no whitespace. *)
Definition is_word (w : string) : bool :=
  match w with
  | EmptyString => false
  | _ => no_space w
  end.

(** Two titles that differ only in whitespace: whitespace added or removed
    at either end, a run of whitespace made longer or shorter, one
    whitespace character exchanged for another. *)
Inductive whitespace_variant : string -> string -> Prop :=
| wv_refl (a : string) : whitespace_variant a a
| wv_sym (a b : string) : whitespace_variant a b -> whitespace_variant b a
| wv_trans (a b c : string) :
    whitespace_variant a b -> whitespace_variant b c -> whitespace_variant a c
| wv_lead (c : ascii) (a : string) :
    PyStr.is_space c = true -> whitespace_variant (String c a) a
| wv_trail (a : string) (c : ascii) :
    PyStr.is_space c = true ->
    whitespace_variant (a ++ String c EmptyString)%string a
| wv_inner (a b : string) (c c' : ascii) :
    PyStr.is_space c = true -> PyStr.is_space c' = true ->
    whitespace_variant (a ++ String c (String c' b))%string (a ++ String c b)%string
| wv_swap (a b : string) (c c' : ascii) :
    PyStr.is_space c = true -> PyStr.is_space c' = true ->
    whitespace_variant (a ++ String c b)%string (a ++ String c' b)%string.

(** ** The payloads and stores of the scenarios *)

Definition scenario_matrix : json := JDict [("Dev", JList [JStr "coaching"])].

Definition scenario_standards : json :=
  JDict [("Dev", JDict [("Senior", JDict [("coaching", JStr "advanced")])])].

Definition scenario_definitions : json :=
  JDict [("coaching",
          JDict [("label", JStr "Coaching");
                 ("description", JStr "Helps others");
                 ("values", JDict [("advanced", JStr "Runs mentoring programs")])])].

Definition scenario_payload (replace : bool) : IngestPayload :=
  mkIngestPayload scenario_matrix scenario_standards scenario_definitions replace.

(** The three documents the scenario's ingest writes. *)
Definition scenario_store : store :=
  mkStore
    [[("job_title", JStr "Dev"); ("competencies", JList [JStr "coaching"])]]
    [[("job_title", JStr "Dev"); ("level", JStr "Senior");
      ("standards", JDict [("coaching", JStr "advanced")])]]
    [[("key", JStr "coaching"); ("label", JStr "Coaching");
      ("description", JStr "Helps others");
      ("values", JDict [("advanced", JStr "Runs mentoring programs")])]].

Definition engineer_mapping : json := JDict [("Engineer", JList [JStr "coaching"])].

Definition engineer_sequence : json :=
  JList [JDict [("job_title", JStr "Engineer");
                ("competencies", JList [JStr "coaching"])]].

(** A store whose standard is written [Advanced] while the definition
    spells the value [advanced], and the same the other way round. *)
Definition case_store (standard value_key : string) : store :=
  mkStore
    [[("job_title", JStr "Dev"); ("competencies", JList [JStr "coaching"])]]
    [[("job_title", JStr "Dev"); ("level", JStr "Senior");
      ("standards", JDict [("coaching", JStr standard)])]]
    [[("key", JStr "coaching"); ("label", JStr "Coaching");
      ("description", JStr "Helps others");
      ("values", JDict [(value_key, JStr "Runs mentoring programs")])]].

(** A store whose entry for [Dev] mixes the shapes of references: a bare
    string, an object with only a label, an object with an [id], an empty
    string, an object with only a [name]. *)
Definition mixed_store : store :=
  mkStore
    [[("job_title", JStr "Dev");
      ("competencies",
        JList [JStr "team_coaching";
               JDict [("label", JStr "No key")];
               JDict [("id", JStr "comm"); ("label", JStr "Communication")];
               JStr EmptyString;
               JDict [("name", JStr "planning")]])]]
    []
    [].

(** A store whose entry for [Dev] holds a number where a reference is
    expected, as ingest stores it from the matrix [{"Dev": [5]}]. *)
Definition numeric_ref_store : store :=
  snd (ingest db_up
         (mkIngestPayload (JDict [("Dev", JList [JInt 5])]) JNull JNull true)
         empty_store).

(** ** [GET /api/titles] *)

From Stdlib Require Import Sorted Permutation.

(** [s.add(x)] on a set: an element equal to [x] that is already there
    stays, and [x] is not added. *)
Fixpoint set_add (s : list json) (x : json) : list json :=
  match s with
  | [] => [x]
  | y :: s' => if Py.key_eqb y x then s else y :: set_add s' x
  end.

(** The set comprehension
    [{doc.get("job_title") for doc in ... if doc.get("job_title")}]. *)
Fixpoint title_set (docs : list dict) (acc : list json) : E (list json) :=
  match docs with
  | [] => inr acc
  | doc :: docs' =>
      let t := Py.get doc "job_title" in
      if Py.truthy t
      then if Py.hashable t then title_set docs' (set_add acc t) else inl TypeError
      else title_set docs' acc
  end.

(** A stable sort by insertion, for [sorted] and [list.sort]. *)
Fixpoint insert_by {A : Type} (leb : A -> A -> bool) (x : A) (l : list A) : list A :=
  match l with
  | [] => [x]
  | y :: l' => if leb x y then x :: l else y :: insert_by leb x l'
  end.

Definition sort_by {A : Type} (leb : A -> A -> bool) (l : list A) : list A :=
  fold_right (insert_by leb) [] l.

Fixpoint strings_of (l : list json) : option (list string) :=
  match l with
  | [] => Some []
  | JStr s :: l' =>
      match strings_of l' with
      | Some ss => Some (s :: ss)
      | None => None
      end
  | _ => None
  end.

(** Integers and booleans compare by value ([True] is [1]). *)
Definition number_of (x : json) : option Z :=
  match x with
  | JBool b => Some (if b then 1 else 0)%Z
  | JInt z => Some z
  | _ => None
  end.

Definition is_number (x : json) : bool :=
  match number_of x with
  | Some _ => true
  | None => false
  end.

Definition number_leb (a b : json) : bool :=
  match number_of a, number_of b with
  | Some x, Some y => (x <=? y)%Z
  | _, _ => true
  end.

(** [sorted(s)] of a set [s] of hashable values: strings sort among
    strings by code point, numbers among numbers by value; comparing a
    string, a number or [None] with a value of another kind raises.  The
    elements of a set are pairwise different, so the result does not depend
    on the order in which the set hands them over. *)
Definition sorted (l : list json) : E (list json) :=
  match l with
  | [] | [_] => inr l
  | _ =>
      match strings_of l with
      | Some ss => inr (map JStr (sort_by String.leb ss))
      | None =>
          if forallb is_number l then inr (sort_by number_leb l)
          else inl TypeError
      end
  end.

(** [levels_by_title.setdefault(t, [])] followed by the guarded
    [append]. *)
Fixpoint add_level (levels_by_title : list (json * list string)) (t : json)
    (l : string) : list (json * list string) :=
  match levels_by_title with
  | [] => [(t, [l])]
  | (t', ls) :: rest =>
      if Py.key_eqb t' t
      then (t', if existsb (String.eqb l) ls then ls else ls ++ [l]) :: rest
      else (t', ls) :: add_level rest t l
  end.

(** The loop over the standards documents. *)
Fixpoint levels_loop (docs : list dict) (levels_by_title : list (json * list string))
  : E (list (json * list string)) :=
  match docs with
  | [] => inr levels_by_title
  | doc :: docs' =>
      let t := Py.get doc "job_title" in
      let l := Py.str (Py.get doc "level") in
      if Py.truthy t && Py.truthy (JStr l)
      then if Py.hashable t
           then levels_loop docs' (add_level levels_by_title t l)
           else inl TypeError
      else levels_loop docs' levels_by_title
  end.

(** The response of [list_titles]: [levels] is a dictionary in insertion
    order, whose keys are the titles as stored. *)
Record TitlesResponse : Type := mkTitlesResponse {
  titles : list json;
  levels : list (json * list string)
}.

(** The projections passed to [find] keep every field the handler
    reads. *)
Definition list_titles (db : option Database) : M TitlesResponse :=
  match db with
  | None => raise (HTTPException 500 "Database not available")
  | Some _ =>
      (docs <- find_all MATRIX_COL ;;
       titles <- lift (s <- title_set docs [] ;; sorted s)%exn ;;
       docs <- find_all STANDARDS_COL ;;
       levels_by_title <- lift (levels_loop docs []) ;;
       ret (mkTitlesResponse titles
              (map (fun kv => (fst kv, sort_by String.leb (snd kv)))
                   levels_by_title)))%handler
  end.

(** ** More vocabulary *)

(** The title of a stored document is a string that normalisation leaves
    as it is. *)
Definition title_normal (d : dict) : bool :=
  match Py.dict_get d "job_title" with
  | Some (JStr t) => (_normalize_title t =? t)%string
  | _ => false
  end.

Definition level_is_string (d : dict) : bool :=
  match Py.dict_get d "level" with
  | Some (JStr _) => true
  | _ => false
  end.

(** The shape ingest gives to the titles and levels it stores. *)
Definition store_normal (s : store) : bool :=
  forallb title_normal (matrix_docs s)
  && forallb (fun d => title_normal d && level_is_string d) (standards_docs s).

(** The titles of both collections are strings, where present. *)
Definition titles_are_strings (s : store) : bool :=
  forallb (fun d => str_or_none (Py.get d "job_title")) (matrix_docs s)
  && forallb (fun d => str_or_none (Py.get d "job_title")) (standards_docs s).

(** The payload shapes ingest gets through: the title of a list element
    is [job_title], else [title], else the empty string, and has to be a
    string; list elements and the value under a title of a standards
    mapping have to be objects (or, for the latter, falsy). *)
Definition title_of (e : dict) : json :=
  Py.or (Py.or (Py.get e "job_title") (Py.get e "title")) (JStr EmptyString).

Definition titled_object (x : json) : bool :=
  match x with
  | JDict e => match title_of e with JStr _ => true | _ => false end
  | _ => false
  end.

Definition is_object (x : json) : bool :=
  match x with
  | JDict _ => true
  | _ => false
  end.

Definition matrix_ingestible (matrix : json) : bool :=
  match matrix with
  | JList entries => forallb titled_object entries
  | _ => true
  end.

Definition standards_ingestible (standards : json) : bool :=
  match standards with
  | JDict items =>
      forallb (fun item => is_object (Py.or (snd item) (JDict []))) items
  | JList items => forallb titled_object items
  | _ => true
  end.

Definition definitions_ingestible (definitions : json) : bool :=
  match definitions with
  | JList items => forallb is_object items
  | _ => true
  end.

Definition payload_ingestible (payload : IngestPayload) : bool :=
  matrix_ingestible (matrix payload)
  && standards_ingestible (standards payload)
  && definitions_ingestible (definitions payload).

(** The document ingest stores for a well-shaped element of a matrix
    list, when its title is not blank. *)
Definition matrix_doc_of (e : dict) : list dict :=
  match title_of e with
  | JStr t =>
      if Py.truthy (JStr (_normalize_title t))
      then [[("job_title", JStr (_normalize_title t));
             ("competencies",
               Py.or (Py.or (Py.get e "competencies") (Py.get e "skills"))
                     (JList []))]]
      else []
  | _ => []
  end.

Definition matrix_docs_of (entries : list json) : list dict :=
  flat_map (fun x => match x with JDict e => matrix_doc_of e | _ => [] end) entries.

(** The label the loop gives to an object reference. *)
Definition object_label (c : dict) (key : string) : json :=
  match nonempty (Py.get c "label"), nonempty (Py.get c "name") with
  | Some l, _ => JStr l
  | None, Some n => JStr n
  | None, None => JStr (PyStr.title (PyStr.replace "_" " " key))
  end.

(** A store with a standards document that has no level, and one whose
    standards document has the empty level ingest stores for a list
    element without a level. *)
Definition levelless_store : store :=
  mkStore
    [[("job_title", JStr "Dev"); ("competencies", JList [JStr "coaching"])]]
    [[("job_title", JStr "Dev"); ("standards", JDict [("coaching", JStr "basic")])]]
    [].

Definition empty_level_doc : dict :=
  [("job_title", JStr "Dev"); ("level", JStr EmptyString);
   ("standards", JDict [("coaching", JStr "basic")])].

(** A payload with one title, one competency, one level and one
    definition, all of them arbitrary. *)
Definition single_payload (title level key : string) (value description : json)
    (values : dict) : IngestPayload :=
  mkIngestPayload
    (JDict [(title, JList [JStr key])])
    (JDict [(title, JDict [(level, JDict [(key, value)])])])
    (JDict [(key, JDict [("description", description); ("values", JDict values)])])
    true.

(** A second, later definition of [coaching], and the row it gives. *)
Definition later_definition : dict :=
  [("key", JStr "coaching"); ("label", JStr "Coaching");
   ("description", JStr "Grows others");
   ("values", JDict [("advanced", JStr "Builds coaching programs")])].

Definition duplicate_defs_row : json :=
  JDict [("key", JStr "coaching");
         ("label", JStr "Coaching");
         ("standard", JStr "advanced");
         ("definition", JStr "Grows others");
         ("standard_definition", JStr "Builds coaching programs")].

(** The scenario's matrix entry stored twice, after an entry for another
    title. *)
Definition reordered_store : store :=
  mkStore
    ([("job_title", JStr "Dev"); ("competencies", JList [])]
       :: matrix_docs scenario_store)
    [] [].

(** ** The references the loop of the query gets through *)

(** The key a competency reference names, whatever its type: the string
    itself, or the first truthy value among [key], [id] and [name] of an
    object.  The empty string, an object with none of the three fields (or
    only falsy ones) and a value that is neither a string nor an object
    name no key. *)
Definition first_truthy (candidates : list json) : option json :=
  List.find Py.truthy candidates.

Definition ref_key (comp : json) : option json :=
  match comp with
  | JStr _ => first_truthy [comp]
  | JDict c => first_truthy [Py.get c "key"; Py.get c "id"; Py.get c "name"]
  | _ => None
  end.

Definition names_key (comp : json) : bool :=
  match ref_key comp with
  | Some _ => true
  | None => false
  end.

Definition is_string (j : json) : bool :=
  match j with
  | JStr _ => true
  | _ => false
  end.

(** The references a turn of the loop does not raise on, when the level
    mapping and the definitions are objects: a bare string; an object that
    names no key; an object whose key is hashable and, unless the object
    brings a truthy [label] or [name], is a string. *)
Definition ref_runs (comp : json) : bool :=
  match comp with
  | JStr _ => true
  | JDict c =>
      match ref_key comp with
      | None => true
      | Some key =>
          Py.hashable key
          && (is_string key
              || Py.truthy (Py.get c "label")
              || Py.truthy (Py.get c "name"))
      end
  | _ => false
  end.

(** The value under [competencies] can be iterated and every value the
    loop visits is a reference it gets through.  A string is visited
    character by character and an object key by key, all bare strings. *)
Definition competencies_run (competencies : json) : bool :=
  match competencies with
  | JList refs => forallb ref_runs refs
  | JStr _ | JDict _ => true
  | _ => false
  end.

(** The query for an entry, with no level mapping: it runs to the end
    when every definition can be filed under its key and the entry's
    competencies can be walked. *)
Definition runs_without_level (s : store) (matrix_entry : dict) : bool :=
  forallb (fun d => Py.hashable (Py.get d "key")) (defs_docs s)
  && competencies_run (Py.get_default matrix_entry "competencies" (JList [])).

(** The standards and definitions can be joined to any reference: a
    standards document holds an object under [standards], or a falsy
    value; a definition has a hashable key and an object or a falsy value
    under [values]. *)
Definition object_or_falsy (j : json) : bool :=
  match j with
  | JDict _ => true
  | _ => negb (Py.truthy j)
  end.

Definition joins_ok (s : store) : bool :=
  forallb (fun d => object_or_falsy (Py.get d "standards")) (standards_docs s)
  && forallb (fun d => Py.hashable (Py.get d "key")
                       && object_or_falsy (Py.get d "values"))
             (defs_docs s).

(** The definitions held by [defs_map] have an object under [values]. *)
Definition values_are_objects (dm : Py.pydict) : Prop :=
  Forall (fun kv => exists vm,
            Py.or (Py.get (snd kv) "values") (JDict []) = JDict vm) dm.

(** Modelled from the spec: the label of a bare-string reference is the
    key with underscores replaced by spaces and each word title-cased.  A
    word is a run of letters: a letter that starts the text or follows a
    character that is not a letter is written as a capital, a letter that
    follows a letter is written small, and every other character stays as
    it is. *)
Definition is_letter (c : ascii) : bool :=
  let n := N_of_ascii c in
  ((65 <=? n) && (n <=? 90) || (97 <=? n) && (n <=? 122))%N.

Definition capital (c : ascii) : ascii :=
  let n := N_of_ascii c in
  if ((97 <=? n) && (n <=? 122))%N then ascii_of_N (n - 32) else c.

Definition small (c : ascii) : ascii :=
  let n := N_of_ascii c in
  if ((65 <=? n) && (n <=? 90))%N then ascii_of_N (n + 32) else c.

Definition spaced (c : ascii) : ascii :=
  if Ascii.eqb c "_" then " "%char else c.

Fixpoint title_cased_after (previous : ascii) (key : string) : string :=
  match key with
  | EmptyString => EmptyString
  | String c key' =>
      let c' := spaced c in
      String (if is_letter c'
              then if is_letter previous then small c' else capital c'
              else c')
             (title_cased_after c' key')
  end.

Definition title_cased (key : string) : string :=
  title_cased_after " " key.

(** Modelled from the spec: the row of reference [comp] carries the key
    the reference names, and the row of a bare string has the title-cased
    key for label. *)
Definition row_matches (comp row : json) : Prop :=
  (exists key, ref_key comp = Some key /\ item_field row "key" = Some key)
  /\ (forall s, comp = JStr s ->
        item_field row "label" = Some (JStr (title_cased s))).

(** A store whose entry for [Dev] mixes references that name a key with
    references that name none: an object with only a numeric label, an
    object with none of the three fields, an object whose key is a number
    and that brings its label, the empty string. *)
Definition loose_refs_store : store :=
  mkStore
    [[("job_title", JStr "Dev");
      ("competencies",
        JList [JStr "team_coaching";
               JDict [("label", JInt 5)];
               JDict [("weight", JInt 3)];
               JDict [("key", JInt 5); ("label", JStr "Five")];
               JStr EmptyString;
               JDict [("id", JStr "comm"); ("label", JStr "Communication")]])]]
    [[("job_title", JStr "Dev"); ("level", JStr "Senior");
      ("standards", JDict [("team_coaching", JStr "advanced")])]]
    [[("key", JStr "team_coaching"); ("label", JNull);
      ("description", JStr "Coaches the team");
      ("values", JDict [("advanced", JStr "Coaches other coaches")])]].

Definition loose_refs_items : list json :=
  [JDict [("key", JStr "team_coaching");
          ("label", JStr "Team Coaching");
          ("standard", JStr "advanced");
          ("definition", JStr "Coaches the team");
          ("standard_definition", JStr "Coaches other coaches")];
   JDict [("key", JInt 5);
          ("label", JStr "Five");
          ("standard", JNull);
          ("definition", JNull);
          ("standard_definition", JNull)];
   JDict [("key", JStr "comm");
          ("label", JStr "Communication");
          ("standard", JNull);
          ("definition", JNull);
          ("standard_definition", JNull)]].

(** A store whose entry for [Dev] holds an object whose key is a number
    and that brings no label, as ingest stores it from the matrix
    [{"Dev": ["coaching", {"key": 7}]}]. *)
Definition numeric_key_payload : IngestPayload :=
  mkIngestPayload
    (JDict [("Dev", JList [JStr "coaching"; JDict [("key", JInt 7)]])])
    JNull JNull true.

Definition numeric_key_store : store :=
  snd (ingest db_up numeric_key_payload empty_store).

(** A store whose standards for [Dev], [Senior] are a list, as ingest
    stores them from the standards [{"Dev": {"Senior": [1]}}]. *)
Definition listed_standards_payload : IngestPayload :=
  mkIngestPayload
    (JDict [("Dev", JList [JStr "coaching"])])
    (JDict [("Dev", JDict [("Senior", JList [JInt 1])])])
    JNull true.

Definition listed_standards_store : store :=
  snd (ingest db_up listed_standards_payload empty_store).

(** The scenario's store with a second competency, [planning], that has a
    standard and no definition. *)
Definition undefined_key_store : store :=
  mkStore
    [[("job_title", JStr "Dev");
      ("competencies", JList [JStr "coaching"; JStr "planning"])]]
    [[("job_title", JStr "Dev"); ("level", JStr "Senior");
      ("standards", JDict [("coaching", JStr "advanced");
                           ("planning", JStr "basic")])]]
    (defs_docs scenario_store).

Definition undefined_key_row : json :=
  JDict [("key", JStr "planning");
         ("label", JStr "Planning");
         ("standard", JStr "basic");
         ("definition", JNull);
         ("standard_definition", JNull)].

(** The scenario's definitions read in the order: the scenario's
    [coaching], a second [coaching], then a definition of [planning]. *)
Definition planning_definition : dict :=
  [("key", JStr "planning"); ("label", JStr "Planning");
   ("description", JStr "Plans the work");
   ("values", JDict [("advanced", JStr "Plans the quarter")])].

Definition three_defs_store : store :=
  mkStore (matrix_docs scenario_store) (standards_docs scenario_store)
          (defs_docs scenario_store ++ [later_definition; planning_definition]).

(** * Properties *)

(** ** Title normalisation *)

Section Words.

Import PyStr.

Lemma append_empty_r (s : string) : (s ++ EmptyString)%string = s.
Proof. induction s as [|c s IH]; simpl; [reflexivity | now rewrite IH]. Qed.

Lemma append_assoc (a b c : string) :
  ((a ++ b) ++ c)%string = (a ++ (b ++ c))%string.
Proof. induction a as [|x a IH]; simpl; [reflexivity | now rewrite IH]. Qed.

Lemma push_word_app (w : string) (ws l : list string) :
  push_word w (ws ++ l) = push_word w ws ++ l.
Proof. destruct w; reflexivity. Qed.

Lemma split_eq (s : string) : split s = push_word (fst (scan s)) (snd (scan s)).
Proof. unfold split. destruct (scan s); reflexivity. Qed.

Lemma scan_cons (c : ascii) (s : string) :
  scan (String c s)
  = if is_space c then (EmptyString, split s)
    else (String c (fst (scan s)), snd (scan s)).
Proof. simpl. rewrite split_eq. destruct (scan s), (is_space c); reflexivity. Qed.

(** A whitespace character ends the word before it and starts nothing. *)
Lemma scan_app_space (a b : string) (c : ascii) :
  is_space c = true ->
  scan (a ++ String c b) = (fst (scan a), snd (scan a) ++ split b).
Proof.
  intros Hc. induction a as [|x a IH].
  - simpl append. rewrite scan_cons, Hc. reflexivity.
  - change (String x a ++ String c b)%string with (String x (a ++ String c b)).
    rewrite (scan_cons x (a ++ String c b)), (scan_cons x a).
    rewrite (split_eq (a ++ String c b)), (split_eq a), IH.
    destruct (is_space x); simpl; [now rewrite push_word_app | reflexivity].
Qed.

Lemma split_app_space (a b : string) (c : ascii) :
  is_space c = true -> split (a ++ String c b) = split a ++ split b.
Proof.
  intros Hc. rewrite (split_eq (a ++ String c b)), scan_app_space by exact Hc.
  simpl. now rewrite push_word_app, <- split_eq.
Qed.

Lemma split_cons_space (b : string) (c : ascii) :
  is_space c = true -> split (String c b) = split b.
Proof. intros Hc. apply (split_app_space EmptyString b c Hc). Qed.

(** What [scan] returns is made of words. *)
Lemma scan_words (s : string) :
  no_space (fst (scan s)) = true /\ Forall (fun w => is_word w = true) (snd (scan s)).
Proof.
  induction s as [|c s [Hw Hws]].
  - split; [reflexivity | constructor].
  - rewrite scan_cons. destruct (is_space c) eqn:Hc; simpl.
    + split; [reflexivity|]. rewrite split_eq.
      destruct (fst (scan s)) eqn:Hf; simpl; [exact Hws|].
      constructor; [exact Hw | exact Hws].
    + split; [now rewrite Hc, Hw | exact Hws].
Qed.

Lemma split_words (s : string) : Forall (fun w => is_word w = true) (split s).
Proof.
  rewrite split_eq. destruct (scan_words s) as [Hw Hws].
  destruct (fst (scan s)) eqn:Hf; simpl; [exact Hws|].
  constructor; [exact Hw | exact Hws].
Qed.

Lemma is_word_no_space (w : string) : is_word w = true -> no_space w = true.
Proof. destruct w; [discriminate | trivial]. Qed.

Lemma scan_no_space (w : string) :
  no_space w = true -> scan w = (w, []).
Proof.
  induction w as [|c w IH]; [reflexivity|].
  simpl no_space. intros H. apply andb_prop in H as [Hc Hw].
  apply negb_true_iff in Hc. rewrite scan_cons, Hc, (IH Hw). reflexivity.
Qed.

Lemma split_word (w : string) : is_word w = true -> split w = [w].
Proof.
  intros H. rewrite split_eq, (scan_no_space w (is_word_no_space w H)).
  destruct w; [discriminate | reflexivity].
Qed.

(** Splitting what was joined with single spaces gives the words back. *)
Lemma split_join (ws : list string) :
  Forall (fun w => is_word w = true) ws -> split (join " " ws) = ws.
Proof.
  induction 1 as [|w ws Hw Hws IH]; [reflexivity|].
  destruct ws as [|w' ws].
  - simpl. now apply split_word.
  - change (join " " (w :: w' :: ws))
      with (w ++ String " " (join " " (w' :: ws)))%string.
    rewrite split_app_space by reflexivity.
    now rewrite IH, (split_word w Hw).
Qed.

Lemma rstrip_app (a b : string) :
  rstrip b = b -> b <> EmptyString -> rstrip (a ++ b) = (a ++ b)%string.
Proof.
  intros Hb Hne. induction a as [|c a IH]; [exact Hb|].
  simpl. rewrite IH. destruct (a ++ b)%string eqn:Hab; [|reflexivity].
  destruct a; simpl in Hab; [contradiction | discriminate].
Qed.

Lemma rstrip_word (w : string) : is_word w = true -> rstrip w = w.
Proof.
  induction w as [|c w IH]; [discriminate|].
  simpl. intros H. apply andb_prop in H as [Hc Hw].
  apply negb_true_iff in Hc.
  destruct w as [|d w]; [simpl; now rewrite Hc|].
  rewrite (IH Hw). reflexivity.
Qed.

Lemma join_words_nonempty (w : string) (ws : list string) :
  is_word w = true -> join " " (w :: ws) <> EmptyString.
Proof.
  destruct w; [discriminate|]. intros _.
  destruct ws; simpl; discriminate.
Qed.

Lemma rstrip_join (ws : list string) :
  Forall (fun w => is_word w = true) ws -> rstrip (join " " ws) = join " " ws.
Proof.
  induction 1 as [|w ws Hw Hws IH]; [reflexivity|].
  destruct ws as [|w' ws]; [now apply rstrip_word|].
  change (join " " (w :: w' :: ws))
    with (w ++ (" " ++ join " " (w' :: ws)))%string.
  rewrite <- append_assoc. apply rstrip_app; [exact IH|].
  apply join_words_nonempty. now inversion Hws.
Qed.

Lemma lstrip_join (ws : list string) :
  Forall (fun w => is_word w = true) ws -> lstrip (join " " ws) = join " " ws.
Proof.
  destruct 1 as [|w ws Hw Hws]; [reflexivity|].
  destruct w as [|c w]; [discriminate|].
  simpl in Hw. apply andb_prop in Hw as [Hc _]. apply negb_true_iff in Hc.
  destruct ws; simpl; now rewrite Hc.
Qed.

Lemma strip_join (ws : list string) :
  Forall (fun w => is_word w = true) ws -> strip (join " " ws) = join " " ws.
Proof. intros H. unfold strip. now rewrite lstrip_join, rstrip_join. Qed.

End Words.

Lemma normalize_title_eq (title : string) :
  _normalize_title title = PyStr.join " " (PyStr.split title).
Proof. unfold _normalize_title. apply strip_join, split_words. Qed.

Lemma normalize_title_idempotent (title : string) :
  _normalize_title (_normalize_title title) = _normalize_title title.
Proof.
  rewrite (normalize_title_eq title) at 1.
  unfold _normalize_title at 1.
  rewrite split_join by apply split_words.
  reflexivity.
Qed.

Lemma normalize_title_same_words (a b : string) :
  PyStr.split a = PyStr.split b -> _normalize_title a = _normalize_title b.
Proof. unfold _normalize_title. now intros ->. Qed.

(** ** The string builtins, evaluated *)

Example lower_Advanced : PyStr.lower "Advanced" = "advanced".
Proof. reflexivity. Qed.

Example title_team_coaching :
  PyStr.title (PyStr.replace "_" " " "team_coaching") = "Team Coaching".
Proof. reflexivity. Qed.

Example split_senior_engineer :
  PyStr.split "  Senior   Engineer " = ["Senior"; "Engineer"].
Proof. reflexivity. Qed.

Example strip_example : PyStr.strip "  a b  " = "a b".
Proof. reflexivity. Qed.

Example repr_example :
  PyStr.repr "it's"
  = String PyStr.double_quote ("it's" ++ String PyStr.double_quote EmptyString)
  /\ PyStr.repr "Dev" = "'Dev'".
Proof. split; reflexivity. Qed.

Example of_Z_example : PyStr.of_Z (-12) = "-12" /\ PyStr.of_Z 0 = "0".
Proof. split; reflexivity. Qed.

(** ** The store and the handler monad *)

Lemma store_app_empty_l (s : store) : store_app empty_store s = s.
Proof. destruct s; reflexivity. Qed.

Lemma store_app_empty_r (s : store) : store_app s empty_store = s.
Proof. destruct s; unfold store_app; simpl. now rewrite !app_nil_r. Qed.

Lemma store_app_assoc (a b c : store) :
  store_app (store_app a b) c = store_app a (store_app b c).
Proof. unfold store_app; simpl. now rewrite !app_assoc. Qed.

Lemma clear_collections_empties (s : store) :
  _clear_collections s = (inr tt, empty_store).
Proof. reflexivity. Qed.

Lemma appends_ret {A : Type} (a : A) : appends (ret a).
Proof. intros s. unfold ret; simpl. now rewrite store_app_empty_r. Qed.

Lemma appends_raise {A : Type} (e : exn) : appends (@raise A e).
Proof. intros s. unfold raise; simpl. now rewrite store_app_empty_r. Qed.

Lemma appends_lift {A : Type} (m : E A) : appends (lift m).
Proof. intros s. unfold lift; simpl. now rewrite store_app_empty_r. Qed.

Lemma appends_create_document (c : collection) (data : dict) :
  appends (create_document c data).
Proof. intros [m st d]. destruct c; unfold create_document, store_app; simpl; now rewrite ?app_nil_r. Qed.

Lemma appends_bind {A B : Type} (m : M A) (k : A -> M B) :
  appends m -> (forall a, appends (k a)) -> appends (bind m k).
Proof.
  intros Hm Hk s. unfold bind. rewrite (Hm s).
  destruct (m empty_store) as [[e|a] b]; simpl; [reflexivity|].
  rewrite (Hk a (store_app s b)), (Hk a b); simpl.
  now rewrite store_app_assoc.
Qed.

Lemma appends_for_each {A : Type} (l : list A) (body : A -> M unit) :
  (forall x, appends (body x)) -> appends (for_each l body).
Proof.
  intros Hb. induction l as [|x l IH]; simpl.
  - apply appends_ret.
  - apply appends_bind; [apply Hb | intros _; exact IH].
Qed.

Lemma appends_ingest_matrix (matrix : json) : appends (ingest_matrix matrix).
Proof.
  unfold ingest_matrix. destruct matrix as [| | | |entries|items];
    try apply appends_ret; apply appends_for_each; intros x.
  - apply appends_bind; [apply appends_lift | intros e].
    apply appends_bind; [apply appends_lift | intros title].
    destruct (Py.truthy (JStr title));
      [apply appends_create_document | apply appends_ret].
  - apply appends_create_document.
Qed.

Lemma appends_ingest_standards (standards : json) :
  appends (ingest_standards standards).
Proof.
  unfold ingest_standards. destruct standards as [| | | |items|items];
    try apply appends_ret; apply appends_for_each; intros x.
  - apply appends_bind; [apply appends_lift | intros doc].
    apply appends_create_document.
  - apply appends_bind; [apply appends_lift | intros levels].
    apply appends_for_each; intros lv. apply appends_create_document.
Qed.

Lemma appends_ingest_definitions (definitions : json) :
  appends (ingest_definitions definitions).
Proof.
  unfold ingest_definitions. destruct definitions as [| | | |items|items];
    try apply appends_ret; apply appends_for_each; intros x.
  - apply appends_bind; [apply appends_lift | intros e].
    destruct (negb _); [apply appends_ret | apply appends_create_document].
  - apply appends_create_document.
Qed.

(** With [replace] off, ingest only adds documents. *)
Lemma appends_ingest_keep (m st d : json) :
  appends (ingest db_up (mkIngestPayload m st d false)).
Proof.
  unfold ingest; simpl.
  apply appends_bind; [apply appends_ret | intros _].
  apply appends_bind; [apply appends_ingest_matrix | intros _].
  apply appends_bind; [apply appends_ingest_standards | intros _].
  apply appends_bind; [apply appends_ingest_definitions | intros _].
  apply appends_ret.
Qed.

(** With [replace] on, ingest runs as on the empty store. *)
Lemma ingest_replace_from_empty (m st d : json) (s : store) :
  ingest db_up (mkIngestPayload m st d true) s
  = ingest db_up (mkIngestPayload m st d false) empty_store.
Proof. reflexivity. Qed.

(** The later blocks of ingest leave the matrix collection alone. *)
Lemma for_each_preserves {A : Type} (P : store -> Prop) (l : list A)
    (body : A -> M unit) :
  (forall x s, P s -> P (snd (body x s))) ->
  forall s, P s -> P (snd (for_each l body s)).
Proof.
  intros Hb. induction l as [|x l IH]; intros s Hs; simpl; [exact Hs|].
  unfold bind. specialize (Hb x s Hs).
  destruct (body x s) as [[e|[]] s']; simpl in *; [exact Hb | now apply IH].
Qed.

(** ** The query, read off the store *)

Lemma find_matches_truthy (c : string * string) (flt : list (string * string))
    (docs : list dict) (d : dict) :
  List.find (matches (c :: flt)) docs = Some d -> Py.truthy (JDict d) = true.
Proof.
  intros H. apply find_some in H as [_ H].
  destruct d; [discriminate H | reflexivity].
Qed.

Lemma matches_job_title (title : string) (d : dict) :
  matches [("job_title", title)] d = true
  <-> Py.dict_get d "job_title" = Some (JStr title).
Proof.
  unfold matches; simpl. rewrite andb_true_r.
  destruct (Py.dict_get d "job_title") as [[| | |v| |]|]; try (split; discriminate).
  split.
  - intros H. apply String.eqb_eq in H. now subst.
  - intros H. injection H as ->. apply String.eqb_refl.
Qed.

(** The query on a store that has no entry for the title. *)
Lemma get_competencies_not_found (s : store) (title : string)
    (level : option string) :
  List.find (matches [("job_title", _normalize_title title)]) (matrix_docs s) = None ->
  get_competencies db_up title level s
  = (inl (HTTPException 404 "Title not found"), s).
Proof.
  intros H. unfold get_competencies, db_up, bind, find_one; simpl.
  now rewrite H.
Qed.

(** The query on a store that has an entry for the title: the response is
    computed from the entry, the level mapping and the definitions, and
    the store is left as it was. *)
Lemma get_competencies_found (s : store) (title : string)
    (level : option string) (matrix_entry : dict) :
  List.find (matches [("job_title", _normalize_title title)]) (matrix_docs s)
  = Some matrix_entry ->
  get_competencies db_up title level s
  = ((defs_map <- build_defs_map (defs_docs s) [] ;;
      comps <- Py.iter (Py.get_default matrix_entry "competencies" (JList [])) ;;
      result_items <-
        competency_rows (level_mapping_of s (_normalize_title title) level)
                        defs_map comps [] ;;
      inr (JDict [("title", JStr (_normalize_title title));
                  ("level", json_of_level level);
                  ("items", JList result_items)]))%exn, s).
Proof.
  intros H. pose proof (find_matches_truthy _ _ _ _ H) as Ht.
  unfold get_competencies, db_up, bind, find_one, find_all, lift, ret.
  cbn [docs_of]. rewrite H, Ht. cbn [negb]. unfold level_mapping_of.
  destruct (Py.truthy (json_of_level level));
    [destruct (find _ (standards_docs s)) as [st_doc|];
       [destruct (Py.truthy (JDict st_doc))|]|];
    (destruct (build_defs_map (defs_docs s) []) as [e|dm]; [reflexivity|];
     cbn [ebind]; destruct (Py.iter _) as [e|comps]; [reflexivity|];
     cbn [ebind]; destruct (competency_rows _ _ _ _); reflexivity).
Qed.

(** The accumulator of the loop only grows at its end. *)
Lemma competency_rows_acc (lm : json) (dm : Py.pydict) (comps acc : list json) :
  competency_rows lm dm comps acc
  = (rows <- competency_rows lm dm comps [] ;; inr (acc ++ rows))%exn.
Proof.
  revert acc. induction comps as [|c comps IH]; intros acc; simpl.
  - now rewrite app_nil_r.
  - destruct (competency_row lm dm c) as [e|[row|]]; [reflexivity | | apply IH].
    rewrite (IH (acc ++ [row])), (IH [row]).
    destruct (competency_rows lm dm comps []); simpl; [reflexivity|].
    now rewrite <- app_assoc.
Qed.

(** The loop succeeds exactly when every turn does, and returns the rows
    of the turns in order. *)
Lemma competency_rows_outcomes (lm : json) (dm : Py.pydict) (comps : list json)
    (outs : list (option json)) :
  Forall2 (fun c o => competency_row lm dm c = inr o) comps outs ->
  competency_rows lm dm comps [] = inr (somes outs).
Proof.
  induction 1 as [|c o comps outs Hc _ IH]; [reflexivity|].
  simpl. rewrite Hc. destruct o as [row|]; [|exact IH].
  rewrite competency_rows_acc, IH. reflexivity.
Qed.

Lemma competency_rows_inv (lm : json) (dm : Py.pydict) (comps items : list json) :
  competency_rows lm dm comps [] = inr items ->
  exists outs,
    Forall2 (fun c o => competency_row lm dm c = inr o) comps outs
    /\ items = somes outs.
Proof.
  revert items. induction comps as [|c comps IH]; intros items H; simpl in H.
  - injection H as <-. exists []. split; [constructor | reflexivity].
  - destruct (competency_row lm dm c) as [e|o] eqn:Hc; [discriminate|].
    destruct o as [row|].
    + rewrite competency_rows_acc in H.
      destruct (competency_rows lm dm comps []) as [e|rows] eqn:Hr; [discriminate|].
      injection H as <-. destruct (IH rows eq_refl) as (outs & HF & ->).
      exists (Some row :: outs). split; [now constructor | reflexivity].
    + destruct (IH items H) as (outs & HF & ->).
      exists (None :: outs). split; [now constructor | reflexivity].
Qed.

Lemma in_somes {A : Type} (a : A) (l : list (option A)) :
  In a (somes l) -> In (Some a) l.
Proof.
  induction l as [|[b|] l IH]; simpl; [tauto | | tauto].
  intros [->|H]; [now left | right; now apply IH].
Qed.

(** Every row of a loop that succeeded was appended by a turn of it. *)
Lemma competency_rows_row (lm : json) (dm : Py.pydict) (comps items : list json)
    (row : json) :
  competency_rows lm dm comps [] = inr items -> In row items ->
  exists comp, In comp comps /\ competency_row lm dm comp = inr (Some row).
Proof.
  intros H Hin. destruct (competency_rows_inv _ _ _ _ H) as (outs & HF & ->).
  apply in_somes in Hin. clear H.
  induction HF as [|c o comps outs Hc _ IH]; [contradiction|].
  destruct Hin as [->|Hin].
  - exists c. split; [now left | exact Hc].
  - destruct (IH Hin) as (comp & Hi & Hr). exists comp. split; [now right | exact Hr].
Qed.

(** What one turn of the loop appends. *)
Lemma competency_row_inv (lm : json) (dm : Py.pydict) (comp row : json) :
  competency_row lm dm comp = inr (Some row) ->
  exists key label standard_value value_definition,
    key_and_label comp = inr (key, label)
    /\ Py.truthy key = true
    /\ Py.lookup lm key = inr standard_value
    /\ (standard_value = JNull -> value_definition = JNull)
    /\ (standard_value <> JNull ->
        exists values_map,
          Py.or (Py.get (Py.pydict_get dm key []) "values") (JDict [])
          = JDict values_map
          /\ value_definition
             = Py.get values_map (PyStr.lower (Py.str standard_value)))
    /\ row = JDict [("key", key);
                    ("label", label);
                    ("standard", standard_value);
                    ("definition", Py.get (Py.pydict_get dm key []) "description");
                    ("standard_definition", value_definition)].
Proof.
  unfold competency_row. intros H.
  destruct (key_and_label comp) as [e|[key label]] eqn:Hkl; [discriminate|].
  cbn [ebind fst snd] in H. destruct (Py.truthy key) eqn:Hk; [|discriminate].
  cbn [negb] in H. destruct (Py.lookup lm key) as [e|sv] eqn:Hl; [discriminate|].
  cbn [ebind] in H.
  assert (Hnull : sv = JNull \/ sv <> JNull)
    by (destruct sv; (now left) || (right; discriminate)).
  destruct Hnull as [->|Hsv].
  - cbn [ebind] in H. injection H as <-.
    exists key, label, JNull, JNull.
    repeat apply conj; trivial. intros Hn; now contradiction Hn.
  - destruct (Py.or (Py.get (Py.pydict_get dm key []) "values") (JDict []))
      as [|b'|z'|v'|l'|vm] eqn:Hv;
      try (destruct sv; try contradiction; discriminate H).
    exists key, label, sv, (Py.get vm (PyStr.lower (Py.str sv))).
    repeat apply conj; trivial.
    + intros ->. now contradiction Hsv.
    + intros _. exists vm. split; [exact Hv | reflexivity].
    + destruct sv; try (now contradiction Hsv);
        cbn [Py.as_dict ebind] in H; now injection H as <-.
Qed.

(** ** Well-shaped stores *)

Lemma key_and_label_ok (comp : json) :
  ref_ok comp = true ->
  exists key label,
    key_and_label comp = inr (key, label)
    /\ match resolved_key comp with
       | Some k => key = JStr k
       | None => Py.truthy key = false
       end
    /\ (forall s, comp = JStr s ->
          label = JStr (PyStr.title (PyStr.replace "_" " " s))).
Proof.
  destruct comp as [|b|z|s|l|c]; try discriminate; intros H.
  - eexists _, _. split; [reflexivity|]. split.
    + destruct s; reflexivity.
    + intros s' [= <-]. reflexivity.
  - unfold ref_ok, str_or_none in H. unfold key_and_label, resolved_key.
    destruct (Py.get c "key") as [| | |[|k0 k]| |]; try discriminate H;
      destruct (Py.get c "id") as [| | |[|i0 i]| |]; try discriminate H;
      destruct (Py.get c "name") as [| | |[|n0 n]| |]; try discriminate H;
      destruct (Py.get c "label") as [| | |[|l0 l]| |]; try discriminate H;
      (eexists _, _; split; [reflexivity|]; split; [reflexivity | discriminate]).
Qed.

Lemma lookup_empty (key sv : json) :
  Py.lookup (JDict []) key = inr sv -> sv = JNull.
Proof.
  unfold Py.lookup. destruct (Py.hashable key); [|discriminate].
  destruct key; now intros [= <-].
Qed.

Lemma pydict_get_Forall (P : dict -> Prop) (m : Py.pydict) (k : json)
    (default : dict) :
  Forall (fun kv => P (snd kv)) m -> P default -> P (Py.pydict_get m k default).
Proof.
  intros H Hd. induction H as [|[k' v] m Hv _ IH]; simpl; [exact Hd|].
  destruct (Py.key_eqb k' k); [exact Hv | exact IH].
Qed.

Lemma pydict_set_Forall (P : dict -> Prop) (m : Py.pydict) (k : json) (v : dict) :
  Forall (fun kv => P (snd kv)) m -> P v ->
  Forall (fun kv => P (snd kv)) (Py.pydict_set m k v).
Proof.
  intros H Hv. induction H as [|[k' v'] m Hv' Hm IH]; simpl.
  - constructor; [exact Hv | constructor].
  - destruct (Py.key_eqb k' k); constructor; trivial.
Qed.

(** Every definition held by [defs_map] has an object under [values],
    possibly the empty one. *)
Lemma build_defs_map_ok (docs : list dict) (acc : Py.pydict) :
  forallb definition_ok docs = true ->
  Forall (fun kv => exists vm,
            Py.or (Py.get (snd kv) "values") (JDict []) = JDict vm) acc ->
  exists defs_map,
    build_defs_map docs acc = inr defs_map
    /\ Forall (fun kv => exists vm,
                 Py.or (Py.get (snd kv) "values") (JDict []) = JDict vm) defs_map.
Proof.
  revert acc. induction docs as [|d docs IH]; intros acc Hd Hacc; simpl.
  - exists acc. split; [reflexivity | exact Hacc].
  - simpl in Hd. apply andb_prop in Hd as [Hd Hdocs].
    unfold definition_ok in Hd. apply andb_prop in Hd as [Hkey Hvalues].
    assert (Hh : Py.hashable (Py.get d "key") = true)
      by (destruct (Py.get d "key"); trivial; discriminate).
    rewrite Hh. apply IH; [exact Hdocs|].
    apply (pydict_set_Forall
             (fun defn => exists vm,
                Py.or (Py.get defn "values") (JDict []) = JDict vm)); [exact Hacc|].
    change (Py.get [("label", Py.get d "label");
                    ("description", Py.get d "description");
                    ("values", Py.or (Py.get d "values") (JDict []))] "values")
      with (Py.or (Py.get d "values") (JDict [])).
    destruct (Py.get d "values") as [| | | | |[|kv vm]]; try discriminate Hvalues;
      eexists; reflexivity.
Qed.

Lemma level_mapping_ok (s : store) (title : string) (level : option string) :
  forallb standard_ok (standards_docs s) = true ->
  exists lm, level_mapping_of s title level = JDict lm.
Proof.
  intros H. unfold level_mapping_of.
  destruct (Py.truthy (json_of_level level)); [|now exists []].
  destruct (find _ (standards_docs s)) as [st_doc|] eqn:Hf; [|now exists []].
  destruct (Py.truthy (JDict st_doc)); [|now exists []].
  apply find_some in Hf as [Hin _].
  rewrite forallb_forall in H. specialize (H st_doc Hin).
  unfold standard_ok in H.
  destruct (Py.get st_doc "standards") as [| | | | |[|kv lm]]; try discriminate H;
    eexists; reflexivity.
Qed.

Lemma resolved_key_truthy (comp : json) (k : string) :
  resolved_key comp = Some k -> Py.truthy (JStr k) = true.
Proof.
  assert (Hn : forall j, nonempty j = Some k -> Py.truthy (JStr k) = true).
  { intros [| | |[|c s]| |]; try discriminate. now intros [= <-]. }
  destruct comp as [| | |s| |c]; try discriminate; unfold resolved_key.
  - apply Hn.
  - unfold first_present.
    destruct (nonempty (Py.get c "key")) eqn:H1; [intros [= <-]; eauto|].
    destruct (nonempty (Py.get c "id")) eqn:H2; [intros [= <-]; eauto|].
    apply Hn.
Qed.

(** One turn of the loop on a well-shaped reference. *)
Lemma competency_row_ok (lm : dict) (dm : Py.pydict) (comp : json) :
  ref_ok comp = true ->
  Forall (fun kv => exists vm,
            Py.or (Py.get (snd kv) "values") (JDict []) = JDict vm) dm ->
  if resolves comp
  then exists row, competency_row (JDict lm) dm comp = inr (Some row)
                   /\ row_of_ref comp row
  else competency_row (JDict lm) dm comp = inr None.
Proof.
  intros Hok Hdm.
  destruct (key_and_label_ok comp Hok) as (key & label & Hkl & Hkey & Hlabel).
  unfold resolves, competency_row. rewrite Hkl. cbn [ebind fst snd].
  destruct (resolved_key comp) as [k|] eqn:Hr.
  - subst key. rewrite (resolved_key_truthy comp k Hr). cbn [negb].
    unfold Py.lookup. cbn [Py.hashable ebind].
    destruct (pydict_get_Forall
                (fun defn => exists vm,
                   Py.or (Py.get defn "values") (JDict []) = JDict vm)
                dm (JStr k) [] Hdm) as [vm Hvm]; [now exists []|].
    rewrite Hvm. cbn [Py.as_dict ebind].
    destruct (Py.get lm k) as [|b|z|v|l|d] eqn:Hsv; cbn [ebind];
      (eexists; split; [reflexivity|]; split;
       [exists k; split; [exact Hr | reflexivity]
       | intros s Hs; cbn; now rewrite (Hlabel s Hs)]).
  - now rewrite Hkey.
Qed.

Lemma competency_rows_ok (lm : dict) (dm : Py.pydict) (comps : list json) :
  forallb ref_ok comps = true ->
  Forall (fun kv => exists vm,
            Py.or (Py.get (snd kv) "values") (JDict []) = JDict vm) dm ->
  exists items,
    competency_rows (JDict lm) dm comps [] = inr items
    /\ Forall2 row_of_ref (filter resolves comps) items.
Proof.
  intros Hok Hdm. induction comps as [|c comps IH].
  - exists []. split; [reflexivity | constructor].
  - simpl in Hok. apply andb_prop in Hok as [Hc Hcomps].
    destruct (IH Hcomps) as (items & Hrows & HF).
    pose proof (competency_row_ok lm dm c Hc Hdm) as Hrow.
    simpl. destruct (resolves c).
    + destruct Hrow as (row & Hrow & Hspec). rewrite Hrow.
      rewrite competency_rows_acc, Hrows. cbn [ebind app].
      exists (row :: items). split; [reflexivity | now constructor].
    + rewrite Hrow. exists items. split; [exact Hrows | exact HF].
Qed.

Lemma iter_refs_ok (matrix_entry : dict) :
  matrix_entry_ok matrix_entry = true ->
  Py.iter (Py.get_default matrix_entry "competencies" (JList []))
  = inr (refs_of matrix_entry)
  /\ forallb ref_ok (refs_of matrix_entry) = true.
Proof.
  unfold matrix_entry_ok, refs_of, Py.get_default.
  destruct (Py.dict_get matrix_entry "competencies") as [[| | | |refs|]|];
    try discriminate; intros H; split; trivial.
Qed.

(** The query on a well-shaped store that has an entry for the title
    returns a response, whose rows are those of the loop. *)
Lemma get_competencies_ok (s : store) (title : string) (level : option string)
    (matrix_entry : dict) :
  store_ok s = true ->
  List.find (matches [("job_title", _normalize_title title)]) (matrix_docs s)
  = Some matrix_entry ->
  exists defs_map items,
    build_defs_map (defs_docs s) [] = inr defs_map
    /\ competency_rows (level_mapping_of s (_normalize_title title) level)
                       defs_map (refs_of matrix_entry) [] = inr items
    /\ Forall2 row_of_ref (filter resolves (refs_of matrix_entry)) items
    /\ get_competencies db_up title level s
       = (inr (JDict [("title", JStr (_normalize_title title));
                      ("level", json_of_level level);
                      ("items", JList items)]), s).
Proof.
  intros Hs Hfind. unfold store_ok in Hs.
  apply andb_prop in Hs as [Hs Hdefs]. apply andb_prop in Hs as [Hmatrix Hstd].
  destruct (build_defs_map_ok (defs_docs s) [] Hdefs (Forall_nil _))
    as (dm & Hdm & Hvalues).
  destruct (level_mapping_ok s (_normalize_title title) level Hstd) as [lm Hlm].
  assert (Hentry : matrix_entry_ok matrix_entry = true).
  { rewrite forallb_forall in Hmatrix. apply Hmatrix.
    now apply find_some in Hfind as [Hin _]. }
  destruct (iter_refs_ok matrix_entry Hentry) as [Hiter Hrefs].
  destruct (competency_rows_ok lm dm (refs_of matrix_entry) Hrefs Hvalues)
    as (items & Hrows & HF).
  exists dm, items. rewrite Hlm.
  repeat apply conj; trivial.
  rewrite (get_competencies_found s title level matrix_entry Hfind).
  rewrite Hdm. cbn [ebind]. rewrite Hiter. cbn [ebind].
  rewrite Hlm, Hrows. reflexivity.
Qed.

(** Without a level mapping, every row has a null standard and a null
    standard definition. *)
Lemma rows_without_standard (dm : Py.pydict) (comps items : list json) :
  competency_rows (JDict []) dm comps [] = inr items ->
  Forall (fun row => item_field row "standard" = Some JNull
                     /\ item_field row "standard_definition" = Some JNull) items.
Proof.
  intros H. apply Forall_forall. intros row Hin.
  destruct (competency_rows_row _ _ _ _ _ H Hin) as (comp & _ & Hrow).
  destruct (competency_row_inv _ _ _ _ Hrow)
    as (key & label & sv & vd & _ & _ & Hl & Hnull & _ & ->).
  apply lookup_empty in Hl. subst sv. rewrite (Hnull eq_refl).
  split; reflexivity.
Qed.

(** ** Ingest, block by block *)

Lemma bind_preserves {A B : Type} (P : store -> Prop) (m : M A) (k : A -> M B) :
  (forall s, P s -> P (snd (m s))) ->
  (forall a s, P s -> P (snd (k a s))) ->
  forall s, P s -> P (snd (bind m k s)).
Proof.
  intros Hm Hk s Hs. unfold bind. specialize (Hm s Hs).
  destruct (m s) as [[e|a] s']; simpl in *; [exact Hm | now apply Hk].
Qed.

Lemma create_document_matrix_docs (c : collection) (data : dict) (s : store) :
  c <> MATRIX_COL ->
  matrix_docs (snd (create_document c data s)) = matrix_docs s.
Proof. destruct c; [contradiction | reflexivity | reflexivity]. Qed.

Lemma keep_create_document (docs : list dict) (c : collection) (data : dict)
    (s : store) :
  c <> MATRIX_COL -> keep docs s -> keep docs (snd (create_document c data s)).
Proof. unfold keep. intros Hc <-. now apply create_document_matrix_docs. Qed.

Lemma keep_lift {A : Type} (docs : list dict) (m : E A) (s : store) :
  keep docs s -> keep docs (snd (lift m s)).
Proof. trivial. Qed.

Lemma keep_ingest_standards (docs : list dict) (standards : json) (s : store) :
  keep docs s -> keep docs (snd (ingest_standards standards s)).
Proof.
  unfold ingest_standards. destruct standards as [| | | |items|items]; trivial;
    revert s; apply (for_each_preserves (keep docs)); intros item s Hs.
  - apply (bind_preserves (keep docs)); [apply keep_lift | | exact Hs].
    intros doc s' Hs'. apply keep_create_document; [discriminate | exact Hs'].
  - apply (bind_preserves (keep docs)); [apply keep_lift | | exact Hs].
    intros levels. apply (for_each_preserves (keep docs)). intros lv s' Hs'.
    apply keep_create_document; [discriminate | exact Hs'].
Qed.

Lemma keep_ingest_definitions (docs : list dict) (definitions : json) (s : store) :
  keep docs s -> keep docs (snd (ingest_definitions definitions s)).
Proof.
  unfold ingest_definitions. destruct definitions as [| | | |items|items]; trivial;
    revert s; apply (for_each_preserves (keep docs)); intros item s Hs.
  - apply (bind_preserves (keep docs)); [apply keep_lift | | exact Hs].
    intros e s' Hs'. destruct (negb _); [exact Hs'|].
    apply keep_create_document; [discriminate | exact Hs'].
  - apply keep_create_document; [discriminate | exact Hs].
Qed.

(** The matrix collection after an ingest is the one its first block
    leaves. *)
Lemma ingest_matrix_docs (m st d : json) (r : bool) (s : store) :
  matrix_docs (snd (ingest db_up (mkIngestPayload m st d r) s))
  = matrix_docs (snd (ingest_matrix m (if r then empty_store else s))).
Proof.
  unfold ingest, db_up; cbn [replace matrix standards definitions].
  assert (H : forall s0,
             matrix_docs
               (snd ((ingest_matrix m ;; ingest_standards st ;;
                      ingest_definitions d ;;
                      ret (JDict [("status", JStr "ok")]))%handler s0))
             = matrix_docs (snd (ingest_matrix m s0))).
  { intros s0. unfold bind at 1.
    destruct (ingest_matrix m s0) as [[e|[]] s1]; [reflexivity|]. cbn [snd].
    apply (bind_preserves (keep (matrix_docs s1)));
      [intros s'; apply keep_ingest_standards | | reflexivity].
    intros _. apply (bind_preserves (keep (matrix_docs s1)));
      [intros s'; apply keep_ingest_definitions | trivial]. }
  destruct r; unfold bind at 1; cbn; apply H.
Qed.

(** ** Whitespace in titles *)

Lemma whitespace_variant_split (a b : string) :
  whitespace_variant a b -> PyStr.split a = PyStr.split b.
Proof.
  induction 1 as [a|a b _ IH|a b c _ IH1 _ IH2|c a Hc|a c Hc|a b c c' Hc Hc'
                 |a b c c' Hc Hc'].
  - reflexivity.
  - now symmetry.
  - now transitivity (PyStr.split b).
  - now apply split_cons_space.
  - rewrite split_app_space by exact Hc. apply app_nil_r.
  - rewrite !split_app_space by exact Hc. now rewrite split_cons_space.
  - now rewrite !split_app_space.
Qed.

Lemma get_competencies_normalized (db : option Database) (a b : string)
    (level : option string) :
  _normalize_title a = _normalize_title b ->
  get_competencies db a level = get_competencies db b level.
Proof. intros H. unfold get_competencies. now rewrite H. Qed.

(** * The claims *)

(** C1. End-to-end round trip: the scenario's matrix, standards and
    definitions, ingested into an empty store (with either value of
    [replace]), are acknowledged and leave one document in each
    collection; on that store the query for title [Dev] and level
    [Senior] returns exactly one item, with key [coaching], label
    [Coaching], standard [advanced], definition [Helps others] and standard
    definition [Runs mentoring programs]. *)
Theorem C1_end_to_end (replace : bool) :
  ingest db_up (scenario_payload replace) empty_store
  = (inr (JDict [("status", JStr "ok")]), scenario_store)
  /\ get_competencies db_up "Dev" (Some "Senior") scenario_store
     = (inr (JDict
               [("title", JStr "Dev");
                ("level", JStr "Senior");
                ("items",
                  JList
                    [JDict [("key", JStr "coaching");
                            ("label", JStr "Coaching");
                            ("standard", JStr "advanced");
                            ("definition", JStr "Helps others");
                            ("standard_definition",
                              JStr "Runs mentoring programs")]])]),
        scenario_store).
Proof. split; [destruct replace|]; vm_compute; reflexivity. Qed.

(** C2. Full-replace semantics: for every prior store and every payload,
    clearing empties the three collections, so an ingest with [replace]
    on ends as the same ingest on the empty store and leaves only the
    documents of its own batch; an ingest with [replace] off ends the same
    way and leaves the prior documents followed by those of its batch. *)
Theorem C2_full_replace (s : store) (m st d : json) :
  _clear_collections s = (inr tt, empty_store)
  /\ ingest db_up (mkIngestPayload m st d true) s
     = ingest db_up (mkIngestPayload m st d false) empty_store
  /\ ingest db_up (mkIngestPayload m st d false) s
     = (fst (ingest db_up (mkIngestPayload m st d false) empty_store),
        store_app s (snd (ingest db_up (mkIngestPayload m st d false) empty_store))).
Proof.
  split; [apply clear_collections_empties|].
  split; [apply ingest_replace_from_empty | apply appends_ingest_keep].
Qed.

(** C3. Matrix shape equivalence: the mapping [{"Engineer": ["coaching"]}]
    and the sequence [[{"job_title": "Engineer", "competencies":
    ["coaching"]}]] make ingest end the same way on every store and with
    every other field of the payload, and the matrix collection then holds
    (after the documents kept when [replace] is off) the one entry with
    title [Engineer] and competencies [["coaching"]]. *)
Theorem C3_matrix_shapes (st d : json) (r : bool) (s : store) :
  ingest db_up (mkIngestPayload engineer_mapping st d r) s
  = ingest db_up (mkIngestPayload engineer_sequence st d r) s
  /\ matrix_docs (snd (ingest db_up (mkIngestPayload engineer_mapping st d r) s))
     = (if r then [] else matrix_docs s)
         ++ [[("job_title", JStr "Engineer");
              ("competencies", JList [JStr "coaching"])]]
  /\ matrix_docs (snd (ingest db_up (mkIngestPayload engineer_sequence st d r) s))
     = (if r then [] else matrix_docs s)
         ++ [[("job_title", JStr "Engineer");
              ("competencies", JList [JStr "coaching"])]].
Proof.
  split; [reflexivity|].
  rewrite !ingest_matrix_docs. destruct r; split; reflexivity.
Qed.

(** C6. A matrix that is a bare list of strings is not ignored: the loop
    over the list calls [get] on its first element, which a string does
    not have, and the request ends with [AttributeError] (after the
    clearing, when [replace] is on) instead of the success
    acknowledgment. *)
Theorem C6_list_of_strings_raises (st d : json) (s : store) :
  ingest db_up
    (mkIngestPayload (JList [JStr "coaching"; JStr "communication"]) st d true) s
  = (inl AttributeError, empty_store)
  /\ ingest db_up
       (mkIngestPayload (JList [JStr "coaching"; JStr "communication"]) st d false) s
     = (inl AttributeError, s).
Proof. split; reflexivity. Qed.

(** The same happens for every list that starts with something other than
    an object. *)
Lemma ingest_matrix_non_object (first : json) (rest : list json) (s : store) :
  match first with
  | JDict _ => True
  | _ => ingest_matrix (JList (first :: rest)) s = (inl AttributeError, s)
  end.
Proof. destruct first; trivial; reflexivity. Qed.

(** A matrix that is neither a mapping nor a sequence is ignored. *)
Lemma ingest_matrix_other_shape (m : json) (s : store) :
  match m with
  | JDict _ | JList _ => True
  | _ => ingest_matrix m s = (inr tt, s)
  end.
Proof. destruct m; trivial; reflexivity. Qed.

(** C7. Store-unavailable atomicity: when the store handle is unset, every
    ingest request, whatever its payload and its [replace] flag, is the
    raising of [HTTPException] 500 and nothing else, so it leaves the
    three collections as they were, also with [replace] on. *)
Theorem C7_store_unavailable (payload : IngestPayload) (s : store) :
  ingest None payload = raise (HTTPException 500 "Database not available")
  /\ ingest None payload s
     = (inl (HTTPException 500 "Database not available"), s)
  /\ snd (ingest None (mkIngestPayload (matrix payload) (standards payload)
                                       (definitions payload) true) s) = s.
Proof. repeat split. Qed.

(** C9. Title normalisation is idempotent and insensitive to whitespace:
    normalising a normalised title changes nothing; ["  Senior   Engineer "]
    and ["Senior Engineer"] normalise to the same key; and two titles that
    differ only in whitespace normalise to the same key, give the same
    answer to every query and store the same matrix entry at ingest. *)
Theorem C9_normalize_title (a b : string) (level : option string) (comps : json)
    (s : store) :
  _normalize_title (_normalize_title a) = _normalize_title a
  /\ _normalize_title "  Senior   Engineer " = "Senior Engineer"
  /\ _normalize_title "Senior Engineer" = "Senior Engineer"
  /\ get_competencies db_up (_normalize_title a) level s
     = get_competencies db_up a level s
  /\ (whitespace_variant a b ->
      _normalize_title a = _normalize_title b
      /\ get_competencies db_up a level s = get_competencies db_up b level s
      /\ ingest_matrix (JDict [(a, comps)]) s = ingest_matrix (JDict [(b, comps)]) s).
Proof.
  split; [apply normalize_title_idempotent|].
  split; [reflexivity|]. split; [reflexivity|].
  split.
  - now rewrite (get_competencies_normalized db_up _ a level
                   (normalize_title_idempotent a)).
  - intros H. apply whitespace_variant_split, normalize_title_same_words in H.
    split; [exact H|]. split.
    + now rewrite (get_competencies_normalized db_up a b level H).
    + simpl. now rewrite H.
Qed.

Lemma C9_normalize_title_witness :
  whitespace_variant "  Senior   Engineer " "Senior Engineer"
  /\ _normalize_title "  Senior   Engineer " = _normalize_title "Senior Engineer"
  /\ get_competencies db_up "  Senior   Engineer " (Some "Senior") scenario_store
     = get_competencies db_up "Senior Engineer" (Some "Senior") scenario_store.
Proof.
  assert (H : whitespace_variant "  Senior   Engineer " "Senior Engineer").
  { apply (wv_trans _ " Senior   Engineer "); [now apply wv_lead|].
    apply (wv_trans _ "Senior   Engineer "); [now apply wv_lead|].
    apply (wv_trans _ "Senior  Engineer ");
      [now apply (wv_inner "Senior" " Engineer " " " " ")|].
    apply (wv_trans _ "Senior Engineer ");
      [now apply (wv_inner "Senior" "Engineer " " " " ")|].
    now apply (wv_trail "Senior Engineer" " "). }
  split; [exact H|].
  destruct (C9_normalize_title "  Senior   Engineer " "Senior Engineer"
              (Some "Senior") JNull scenario_store) as (_ & _ & _ & _ & Hv).
  destruct (Hv H) as (Hn & Hq & _). split; [exact Hn | exact Hq].
Defined.

(** C10. An empty [level] parameter: the outcome of the query does not
    depend on the standards collection, and the query ends as the query
    without a level does (the same error, or the same title and items,
    every item with a null standard and a null standard definition),
    except that the response carries the level as the empty string instead
    of null. *)
Theorem C10_empty_level (db : option Database) (title : string) (s : store) :
  (forall standards_docs',
      fst (get_competencies db title (Some EmptyString)
             (with_docs s STANDARDS_COL standards_docs'))
      = fst (get_competencies db title (Some EmptyString) s))
  /\
  ((exists e,
      get_competencies db title (Some EmptyString) s = (inl e, s)
      /\ get_competencies db title None s = (inl e, s))
  \/ (exists items,
         get_competencies db title (Some EmptyString) s
         = (inr (JDict [("title", JStr (_normalize_title title));
                        ("level", JStr EmptyString);
                        ("items", JList items)]), s)
         /\ get_competencies db title None s
            = (inr (JDict [("title", JStr (_normalize_title title));
                           ("level", JNull);
                           ("items", JList items)]), s)
         /\ Forall (fun row => item_field row "standard" = Some JNull
                               /\ item_field row "standard_definition" = Some JNull)
                   items)).
Proof.
  split.
  { intros st'. destruct db as [[]|]; [|reflexivity]. fold db_up.
    destruct (find (matches [("job_title", _normalize_title title)]) (matrix_docs s))
      as [matrix_entry|] eqn:Hfind.
    - rewrite (get_competencies_found s title _ matrix_entry Hfind).
      rewrite (get_competencies_found (with_docs s STANDARDS_COL st') title _
                 matrix_entry Hfind).
      reflexivity.
    - rewrite (get_competencies_not_found s title _ Hfind).
      now rewrite (get_competencies_not_found (with_docs s STANDARDS_COL st')
                     title _ Hfind). }
  destruct db as [[]|]; [|left; eexists; split; reflexivity].
  fold db_up.
  destruct (find (matches [("job_title", _normalize_title title)]) (matrix_docs s))
    as [matrix_entry|] eqn:Hfind.
  - rewrite !(get_competencies_found s title _ matrix_entry Hfind).
    change (level_mapping_of s (_normalize_title title) (Some EmptyString))
      with (JDict []).
    change (level_mapping_of s (_normalize_title title) None) with (JDict []).
    destruct (build_defs_map (defs_docs s) []) as [e|dm];
      [left; eexists; split; reflexivity|].
    cbn [ebind]. destruct (Py.iter _) as [e|comps];
      [left; eexists; split; reflexivity|].
    cbn [ebind]. destruct (competency_rows _ _ _ _) as [e|items] eqn:Hrows;
      [left; eexists; split; reflexivity|].
    right. exists items. repeat apply conj; try reflexivity.
    exact (rows_without_standard dm comps items Hrows).
  - left. rewrite !(get_competencies_not_found s title _ Hfind).
    eexists; split; reflexivity.
Qed.

(** ** Reading the outcome of a query *)

Lemma find_job_title_none (title : string) (docs : list dict) :
  (forall d, In d docs -> Py.dict_get d "job_title" <> Some (JStr title)) ->
  List.find (matches [("job_title", title)]) docs = None.
Proof.
  intros H. destruct (find _ docs) as [d|] eqn:Hf; [|reflexivity].
  apply find_some in Hf as [Hin Hm]. apply matches_job_title in Hm.
  now destruct (H d Hin).
Qed.

Lemma find_job_title_some (title : string) (docs : list dict) :
  (exists d, In d docs /\ Py.dict_get d "job_title" = Some (JStr title)) ->
  exists matrix_entry, List.find (matches [("job_title", title)]) docs = Some matrix_entry.
Proof.
  intros (d & Hin & Hd). destruct (find _ docs) as [e|] eqn:Hf; [now exists e|].
  apply matches_job_title in Hd.
  now rewrite (find_none _ _ Hf d Hin) in Hd.
Qed.

Lemma matches_title_level (title level : string) (d : dict) :
  matches [("job_title", title); ("level", level)] d = true ->
  Py.dict_get d "job_title" = Some (JStr title)
  /\ Py.dict_get d "level" = Some (JStr level).
Proof.
  unfold matches; simpl. rewrite andb_true_r. intros H.
  apply andb_prop in H as [Ht Hl].
  destruct (Py.dict_get d "job_title") as [[| | |t| |]|]; try discriminate.
  destruct (Py.dict_get d "level") as [[| | |l| |]|]; try discriminate.
  apply String.eqb_eq in Ht, Hl. now subst.
Qed.

(** No level, or no standards record for the title and level: the loop
    starts with the empty level mapping. *)
Lemma level_mapping_of_empty (s : store) (title : string) (level : option string) :
  level = None
  \/ (forall d, In d (standards_docs s) ->
        ~ (Py.dict_get d "job_title" = Some (JStr title)
           /\ Py.dict_get d "level" = option_map JStr level)) ->
  level_mapping_of s title level = JDict [].
Proof.
  intros [->|H]; [reflexivity|].
  destruct level as [l|]; [|reflexivity]. unfold level_mapping_of.
  destruct (Py.truthy (json_of_level (Some l))); [|reflexivity].
  destruct (find _ (standards_docs s)) as [d|] eqn:Hf; [|reflexivity].
  apply find_some in Hf as [Hin Hm]. apply matches_title_level in Hm.
  now destruct (H d Hin).
Qed.

Lemma get_competencies_inv (s s' : store) (title : string) (level : option string)
    (response : json) :
  get_competencies db_up title level s = (inr response, s') ->
  exists matrix_entry defs_map comps items,
    List.find (matches [("job_title", _normalize_title title)]) (matrix_docs s)
    = Some matrix_entry
    /\ build_defs_map (defs_docs s) [] = inr defs_map
    /\ Py.iter (Py.get_default matrix_entry "competencies" (JList [])) = inr comps
    /\ competency_rows (level_mapping_of s (_normalize_title title) level)
                       defs_map comps [] = inr items
    /\ response = JDict [("title", JStr (_normalize_title title));
                         ("level", json_of_level level);
                         ("items", JList items)]
    /\ s' = s.
Proof.
  intros H.
  destruct (find (matches [("job_title", _normalize_title title)]) (matrix_docs s))
    as [matrix_entry|] eqn:Hfind.
  - rewrite (get_competencies_found s title level matrix_entry Hfind) in H.
    destruct (build_defs_map (defs_docs s) []) as [e|dm]; [discriminate|].
    cbn [ebind] in H. destruct (Py.iter _) as [e|comps] eqn:Hiter; [discriminate|].
    cbn [ebind] in H.
    destruct (competency_rows _ _ _ _) as [e|items] eqn:Hrows; [discriminate|].
    injection H as <- <-. exists matrix_entry, dm, comps, items.
    repeat apply conj; trivial.
  - rewrite (get_competencies_not_found s title level Hfind) in H. discriminate.
Qed.

(** C4. The standard definition of a row is the entry of the definition's
    [values] under the row's standard value turned into a string and
    lower-cased; the keys of [values] are compared as they are stored.  So
    the standard [Advanced] finds the key [advanced], and any standard
    whose lower-cased text is a key finds that key. *)
Theorem C4_lowercased_lookup (s : store) (title : string) (level : option string)
    (items : list json) (row : json) :
  get_competencies db_up title level s
  = (inr (JDict [("title", JStr (_normalize_title title));
                 ("level", json_of_level level);
                 ("items", JList items)]), s) ->
  In row items ->
  exists defs_map key standard_value,
    build_defs_map (defs_docs s) [] = inr defs_map
    /\ item_field row "key" = Some key
    /\ item_field row "standard" = Some standard_value
    /\ (standard_value = JNull ->
        item_field row "standard_definition" = Some JNull)
    /\ (standard_value <> JNull ->
        exists values_map,
          Py.or (Py.get (Py.pydict_get defs_map key []) "values") (JDict [])
          = JDict values_map
          /\ item_field row "standard_definition"
             = Some (Py.get values_map (PyStr.lower (Py.str standard_value)))
          /\ (forall text,
                standard_value = JStr "Advanced" ->
                Py.dict_get values_map "advanced" = Some text ->
                item_field row "standard_definition" = Some text)
          /\ (forall standard text,
                standard_value = JStr standard ->
                Py.dict_get values_map (PyStr.lower standard) = Some text ->
                item_field row "standard_definition" = Some text)).
Proof.
  intros H Hin.
  destruct (get_competencies_inv _ _ _ _ _ H)
    as (matrix_entry & dm & comps & items' & _ & Hdm & _ & Hrows & Hresp & _).
  injection Hresp as <-.
  destruct (competency_rows_row _ _ _ _ _ Hrows Hin) as (comp & _ & Hrow).
  destruct (competency_row_inv _ _ _ _ Hrow)
    as (key & label & sv & vd & _ & _ & _ & Hnull & Hvalue & ->).
  exists dm, key, sv. repeat apply conj; trivial.
  - intros Hsv. now rewrite (Hnull Hsv).
  - intros Hsv. destruct (Hvalue Hsv) as (vm & Hvm & ->).
    exists vm. repeat apply conj; trivial.
    + intros text ->. unfold Py.get, Py.get_default.
      change (PyStr.lower (Py.str (JStr "Advanced"))) with "advanced".
      now intros ->.
    + intros standard text ->. unfold Py.get, Py.get_default.
      cbn [Py.str item_field Py.dict_get String.eqb Ascii.eqb Bool.eqb].
      now intros ->.
Qed.

Lemma C4_lowercased_lookup_witness :
  get_competencies db_up "Dev" (Some "Senior") (case_store "Advanced" "advanced")
  = (inr (JDict
            [("title", JStr (_normalize_title "Dev"));
             ("level", json_of_level (Some "Senior"));
             ("items",
               JList
                 [JDict [("key", JStr "coaching");
                         ("label", JStr "Coaching");
                         ("standard", JStr "Advanced");
                         ("definition", JStr "Helps others");
                         ("standard_definition",
                           JStr "Runs mentoring programs")]])]),
     case_store "Advanced" "advanced")
  /\ exists defs_map values_map,
       build_defs_map (defs_docs (case_store "Advanced" "advanced")) []
       = inr defs_map
       /\ Py.or (Py.get (Py.pydict_get defs_map (JStr "coaching") []) "values")
                (JDict [])
          = JDict values_map
       /\ Py.get values_map (PyStr.lower "Advanced")
          = JStr "Runs mentoring programs".
Proof.
  assert (Hq : get_competencies db_up "Dev" (Some "Senior")
                 (case_store "Advanced" "advanced")
               = (inr (JDict
                         [("title", JStr (_normalize_title "Dev"));
                          ("level", json_of_level (Some "Senior"));
                          ("items",
                            JList
                              [JDict [("key", JStr "coaching");
                                      ("label", JStr "Coaching");
                                      ("standard", JStr "Advanced");
                                      ("definition", JStr "Helps others");
                                      ("standard_definition",
                                        JStr "Runs mentoring programs")]])]),
                  case_store "Advanced" "advanced"))
    by (vm_compute; reflexivity).
  split; [exact Hq|].
  destruct (C4_lowercased_lookup _ _ _ _ _ Hq (or_introl eq_refl))
    as (dm & key & sv & Hdm & Hkey & Hsv & _ & Hvalue).
  injection Hkey as <-. injection Hsv as <-.
  destruct (Hvalue ltac:(discriminate)) as (vm & Hvm & Hsd & _).
  exists dm, vm. repeat apply conj; trivial.
  injection Hsd as Hsd. now symmetry.
Defined.

(** The claim as it was stated fails when it is the key of [values] that
    carries the capital: the standard [advanced] and the key [Advanced]
    differ only in letter case, and the row gets no standard definition. *)
Lemma C4_counterexample :
  PyStr.lower "advanced" = PyStr.lower "Advanced"
  /\ get_competencies db_up "Dev" (Some "Senior") (case_store "advanced" "Advanced")
     = (inr (JDict
               [("title", JStr "Dev");
                ("level", JStr "Senior");
                ("items",
                  JList
                    [JDict [("key", JStr "coaching");
                            ("label", JStr "Coaching");
                            ("standard", JStr "advanced");
                            ("definition", JStr "Helps others");
                            ("standard_definition", JNull)]])]),
        case_store "advanced" "Advanced").
Proof. split; vm_compute; reflexivity. Qed.


(** ** The scenarios, evaluated *)

Example query_mixed_store :
  get_competencies db_up "Dev" None mixed_store
  = (inr (JDict
            [("title", JStr "Dev");
             ("level", JNull);
             ("items",
               JList
                 [JDict [("key", JStr "team_coaching");
                         ("label", JStr "Team Coaching");
                         ("standard", JNull);
                         ("definition", JNull);
                         ("standard_definition", JNull)];
                  JDict [("key", JStr "comm");
                         ("label", JStr "Communication");
                         ("standard", JNull);
                         ("definition", JNull);
                         ("standard_definition", JNull)];
                  JDict [("key", JStr "planning");
                         ("label", JStr "planning");
                         ("standard", JNull);
                         ("definition", JNull);
                         ("standard_definition", JNull)]])]),
     mixed_store).
Proof. vm_compute. reflexivity. Qed.

(** Outside the shapes of the data model the query raises: a number
    among the references has no [get]. *)
Example query_numeric_reference :
  store_ok numeric_ref_store = false
  /\ get_competencies db_up "Dev" None numeric_ref_store
     = (inl AttributeError, numeric_ref_store).
Proof. split; vm_compute; reflexivity. Qed.

Example scenario_store_ok : store_ok scenario_store = true.
Proof. reflexivity. Qed.

(** * Further properties of the handlers *)

(** ** Sorting *)

Lemma insert_by_perm {A : Type} (leb : A -> A -> bool) (x : A) (l : list A) :
  Permutation (insert_by leb x l) (x :: l).
Proof.
  induction l as [|y l IH]; simpl; [reflexivity|].
  destruct (leb x y); [reflexivity|].
  rewrite IH. apply perm_swap.
Qed.

Lemma sort_by_perm {A : Type} (leb : A -> A -> bool) (l : list A) :
  Permutation (sort_by leb l) l.
Proof.
  induction l as [|x l IH]; simpl; [reflexivity|].
  rewrite insert_by_perm. now constructor.
Qed.

Lemma insert_by_sorted {A : Type} (leb : A -> A -> bool) (x : A) (l : list A) :
  (forall a b, leb a b = true \/ leb b a = true) ->
  Sorted (fun a b => leb a b = true) l ->
  Sorted (fun a b => leb a b = true) (insert_by leb x l).
Proof.
  intros Htotal Hl. induction Hl as [|y l Hl IH Hhd]; simpl.
  - repeat constructor.
  - destruct (leb x y) eqn:Hxy.
    + constructor; [now constructor | now constructor].
    + constructor; [exact IH|].
      destruct l as [|z l]; simpl.
      * constructor. destruct (Htotal x y) as [H|H]; [congruence | exact H].
      * destruct (leb x z).
        -- constructor. destruct (Htotal x y) as [H|H]; [congruence | exact H].
        -- constructor. now inversion Hhd.
Qed.

Lemma sort_by_sorted {A : Type} (leb : A -> A -> bool) (l : list A) :
  (forall a b, leb a b = true \/ leb b a = true) ->
  Sorted (fun a b => leb a b = true) (sort_by leb l).
Proof.
  intros Htotal. induction l as [|x l IH]; simpl; [constructor|].
  now apply insert_by_sorted.
Qed.

Lemma sort_by_In {A : Type} (leb : A -> A -> bool) (l : list A) (x : A) :
  In x (sort_by leb l) <-> In x l.
Proof.
  split; apply Permutation_in; [|symmetry]; apply sort_by_perm.
Qed.

Lemma sort_by_NoDup {A : Type} (leb : A -> A -> bool) (l : list A) :
  NoDup l -> NoDup (sort_by leb l).
Proof. apply Permutation_NoDup. symmetry. apply sort_by_perm. Qed.

Lemma strings_of_map (ts : list string) : strings_of (map JStr ts) = Some ts.
Proof. induction ts as [|t ts IH]; simpl; [reflexivity | now rewrite IH]. Qed.

Lemma sorted_strings (ts : list string) :
  sorted (map JStr ts) = inr (map JStr (sort_by String.leb ts)).
Proof.
  destruct ts as [|a [|b ts]]; try reflexivity.
  pose proof (strings_of_map (a :: b :: ts)) as H.
  unfold sorted. cbn [map] in *. now rewrite H.
Qed.

(** ** The loops of [list_titles] *)

Lemma get_str_iff (d : dict) (k t : string) :
  Py.get d k = JStr t <-> Py.dict_get d k = Some (JStr t).
Proof.
  unfold Py.get, Py.get_default. destruct (Py.dict_get d k) as [v|].
  - split; [now intros -> | now intros [= ->]].
  - split; discriminate.
Qed.

Lemma existsb_eqb_In (t : string) (a : list string) :
  existsb (String.eqb t) a = true <-> In t a.
Proof.
  rewrite existsb_exists. split.
  - intros (x & Hin & Hx). apply String.eqb_eq in Hx. now subst.
  - intros Hin. exists t. split; [exact Hin | apply String.eqb_refl].
Qed.

Lemma add_if_new_NoDup (t : string) (a : list string) :
  NoDup a -> NoDup (if existsb (String.eqb t) a then a else a ++ [t]).
Proof.
  intros Ha. destruct (existsb (String.eqb t) a) eqn:He; [exact Ha|].
  apply NoDup_app; [exact Ha | repeat constructor; intros [] | ].
  intros x Hx [<-|[]].
  apply existsb_eqb_In in Hx. congruence.
Qed.

Lemma add_if_new_In (t x : string) (a : list string) :
  In x (if existsb (String.eqb t) a then a else a ++ [t]) <-> In x a \/ x = t.
Proof.
  destruct (existsb (String.eqb t) a) eqn:He.
  - apply existsb_eqb_In in He. split; [now left | intros [H| ->]; trivial].
  - rewrite in_app_iff. simpl. split.
    + intros [H|[<-|[]]]; [now left | now right].
    + intros [H| ->]; [now left | right; now left].
Qed.

Lemma set_add_strings (a : list string) (t : string) :
  set_add (map JStr a) (JStr t)
  = map JStr (if existsb (String.eqb t) a then a else a ++ [t]).
Proof.
  induction a as [|y a IH]; [reflexivity|].
  cbn [map set_add Py.key_eqb existsb].
  rewrite (String.eqb_sym t y). destruct (y =? t)%string; [reflexivity|].
  cbn [orb]. rewrite IH. now destruct (existsb (String.eqb t) a).
Qed.

Lemma title_set_strings (docs : list dict) (acc : list string) :
  forallb (fun d => str_or_none (Py.get d "job_title")) docs = true ->
  NoDup acc ->
  exists ts,
    title_set docs (map JStr acc) = inr (map JStr ts)
    /\ NoDup ts
    /\ forall t, In t ts
                 <-> In t acc
                     \/ (t <> EmptyString
                         /\ exists d, In d docs
                                      /\ Py.dict_get d "job_title" = Some (JStr t)).
Proof.
  revert acc. induction docs as [|doc docs IH]; intros acc Hdocs Hacc.
  - exists acc. repeat apply conj; trivial. intros t. split; [now left|].
    intros [H|(_ & d & [] & _)]; exact H.
  - cbn [forallb] in Hdocs. apply andb_prop in Hdocs as [Hdoc Hdocs].
    cbn [title_set].
    destruct (Py.get doc "job_title") as [| | |t0| |] eqn:Hget; try discriminate Hdoc.
    + destruct (IH acc Hdocs Hacc) as (ts & Hts & Hnd & Hin).
      exists ts. repeat apply conj; trivial. intros t. rewrite Hin.
      split; (intros [H|(Ht & d & Hd & Hj)]; [now left | right; split; trivial]).
      * exists d. split; [now right | exact Hj].
      * destruct Hd as [<-|Hd]; [|now exists d].
        apply get_str_iff in Hj. congruence.
    + destruct t0 as [|c t0].
      * destruct (IH acc Hdocs Hacc) as (ts & Hts & Hnd & Hin).
        exists ts. repeat apply conj; trivial. intros t. rewrite Hin.
        split; (intros [H|(Ht & d & Hd & Hj)]; [now left | right; split; trivial]).
        -- exists d. split; [now right | exact Hj].
        -- destruct Hd as [<-|Hd]; [|now exists d].
           apply get_str_iff in Hj. congruence.
      * cbn [Py.truthy Py.hashable String.eqb negb]. rewrite set_add_strings.
        destruct (IH _ Hdocs (add_if_new_NoDup (String c t0) acc Hacc))
          as (ts & Hts & Hnd & Hin).
        exists ts. repeat apply conj; trivial. intros t.
        rewrite Hin, add_if_new_In. apply get_str_iff in Hget.
        split.
        -- intros [[H| ->]|(Ht & d & Hd & Hj)]; [now left | | ].
           ++ right. split; [discriminate|]. exists doc. split; [now left | exact Hget].
           ++ right. split; [exact Ht|]. exists d. split; [now right | exact Hj].
        -- intros [H|(Ht & d & [<-|Hd] & Hj)]; [now left; left | | ].
           ++ left. right. congruence.
           ++ right. split; [exact Ht|]. now exists d.
Qed.

(** What [add_level] does to a dictionary whose keys are strings. *)
Lemma add_level_spec (m : list (json * list string)) (t l : string) :
  Forall (fun kv => exists t', fst kv = JStr t' /\ NoDup (snd kv)) m ->
  NoDup (map fst m) ->
  Forall (fun kv => exists t', fst kv = JStr t' /\ NoDup (snd kv))
         (add_level m (JStr t) l)
  /\ NoDup (map fst (add_level m (JStr t) l))
  /\ (forall k, In k (map fst (add_level m (JStr t) l))
                <-> In k (map fst m) \/ k = JStr t)
  /\ forall t' l',
       (exists ls, In (JStr t', ls) (add_level m (JStr t) l) /\ In l' ls)
       <-> (exists ls, In (JStr t', ls) m /\ In l' ls) \/ (t' = t /\ l' = l).
Proof.
  induction m as [|[k ls] m IH]; intros Hm Hnd.
  - cbn [add_level]. repeat apply conj.
    + repeat constructor. exists t. split; [reflexivity | repeat constructor; intros []].
    + repeat constructor. intros [].
    + intros k. simpl. split; [intros [<-|[]]; now right | intros [[]| ->]; now left].
    + intros t' l'. split.
      * intros (ls & [[= <- <-]|[]] & [<-|[]]). now right.
      * intros [(ls & [] & _)|[-> ->]]. exists [l]. split; now left.
  - inversion Hm as [|? ? (t0 & Hk & Hls) Hm']; subst. cbn [fst snd] in *. subst k.
    inversion Hnd as [|? ? Hnotin Hnd']; subst.
    cbn [add_level Py.key_eqb]. destruct (t0 =? t)%string eqn:Heq.
    + apply String.eqb_eq in Heq. subst t0. repeat apply conj.
      * constructor; [|exact Hm']. exists t. split; [reflexivity|].
        now apply add_if_new_NoDup.
      * exact Hnd.
      * intros k. simpl. split; [now left | intros [H| ->]; [exact H | now left]].
      * intros t' l'. split.
        -- intros (ls' & [[= <- <-]|Hin] & Hl').
           ++ apply add_if_new_In in Hl' as [Hl'| ->]; [|now right].
              left. exists ls. split; [now left | exact Hl'].
           ++ left. exists ls'. split; [now right | exact Hl'].
        -- intros [(ls' & [[= <- <-]|Hin] & Hl')|[-> ->]].
           ++ eexists. split; [now left|]. apply add_if_new_In. now left.
           ++ exists ls'. split; [now right | exact Hl'].
           ++ eexists. split; [now left|]. apply add_if_new_In. now right.
    + apply String.eqb_neq in Heq.
      destruct (IH Hm' Hnd') as (IH1 & IH2 & IH3 & IH4). repeat apply conj.
      * constructor; [|exact IH1]. exists t0. now split.
      * cbn [map fst]. constructor; [|exact IH2].
        rewrite IH3. intros [H|[= H]]; [now apply Hnotin | now apply Heq].
      * intros k. cbn [map fst In]. rewrite IH3. tauto.
      * intros t' l'. split.
        -- intros (ls' & [[= <- <-]|Hin] & Hl').
           ++ left. exists ls. split; [now left | exact Hl'].
           ++ destruct (proj1 (IH4 t' l') (ex_intro _ ls' (conj Hin Hl')))
                as [(ls'' & Hin'' & Hl'')|H]; [|now right].
              left. exists ls''. split; [now right | exact Hl''].
        -- intros [(ls' & [[= <- <-]|Hin] & Hl')|H].
           ++ exists ls. split; [now left | exact Hl'].
           ++ destruct (proj2 (IH4 t' l') (or_introl (ex_intro _ ls' (conj Hin Hl'))))
                as (ls'' & Hin'' & Hl'').
              exists ls''. split; [now right | exact Hl''].
           ++ destruct (proj2 (IH4 t' l') (or_intror H)) as (ls'' & Hin'' & Hl'').
              exists ls''. split; [now right | exact Hl''].
Qed.

(** One standards document either adds nothing to [levels_by_title], or
    adds its level under its title. *)
Lemma levels_step (doc : dict) :
  str_or_none (Py.get doc "job_title") = true ->
  (Py.truthy (Py.get doc "job_title")
   && Py.truthy (JStr (Py.str (Py.get doc "level"))) = false
   /\ forall t, Py.dict_get doc "job_title" = Some (JStr t) ->
                t = EmptyString \/ Py.str (Py.get doc "level") = EmptyString)
  \/ (exists t, Py.get doc "job_title" = JStr t
                /\ Py.dict_get doc "job_title" = Some (JStr t)
                /\ t <> EmptyString
                /\ Py.str (Py.get doc "level") <> EmptyString
                /\ Py.truthy (Py.get doc "job_title")
                   && Py.truthy (JStr (Py.str (Py.get doc "level"))) = true).
Proof.
  intros Hs.
  destruct (Py.get doc "job_title") as [| | |t| |] eqn:Hget; try discriminate Hs.
  - left. split; [reflexivity|]. intros t Ht. apply get_str_iff in Ht. congruence.
  - destruct t as [|c t].
    + left. split; [reflexivity|]. intros t Ht. apply get_str_iff in Ht.
      left. congruence.
    + destruct (Py.str (Py.get doc "level")) as [|c' l] eqn:Hl.
      * left. split; [reflexivity|]. intros t' _. now right.
      * right. exists (String c t). apply get_str_iff in Hget.
        repeat apply conj; trivial; discriminate.
Qed.

Lemma levels_loop_spec (docs : list dict) (m : list (json * list string)) :
  forallb (fun d => str_or_none (Py.get d "job_title")) docs = true ->
  Forall (fun kv => exists t', fst kv = JStr t' /\ NoDup (snd kv)) m ->
  NoDup (map fst m) ->
  exists m',
    levels_loop docs m = inr m'
    /\ Forall (fun kv => exists t', fst kv = JStr t' /\ NoDup (snd kv)) m'
    /\ NoDup (map fst m')
    /\ forall t l,
         (exists ls, In (JStr t, ls) m' /\ In l ls)
         <-> (exists ls, In (JStr t, ls) m /\ In l ls)
             \/ (t <> EmptyString /\ l <> EmptyString
                 /\ exists d, In d docs
                              /\ Py.dict_get d "job_title" = Some (JStr t)
                              /\ Py.str (Py.get d "level") = l).
Proof.
  revert m. induction docs as [|doc docs IH]; intros m Hdocs Hm Hnd.
  - exists m. repeat apply conj; trivial. intros t l. split; [now left|].
    intros [H|(_ & _ & d & [] & _)]; exact H.
  - cbn [forallb] in Hdocs. apply andb_prop in Hdocs as [Hdoc Hdocs].
    cbn [levels_loop].
    destruct (levels_step doc Hdoc) as [[Hskip Hnone]|(t0 & Hget & Hdget & Ht0 & Hl0 & Hadd)].
    + rewrite Hskip. destruct (IH m Hdocs Hm Hnd) as (m' & Hloop & Hm' & Hnd' & Hin).
      exists m'. repeat apply conj; trivial. intros t l. rewrite Hin.
      split; (intros [H|(Ht & Hl & d & Hd & Hj & Hlv)]; [now left | right]).
      * repeat apply conj; trivial. exists d. split; [now right | now split].
      * destruct Hd as [<-|Hd].
        -- destruct (Hnone t Hj) as [H|H]; [contradiction | congruence].
        -- repeat apply conj; trivial. now exists d.
    + rewrite Hadd, Hget. cbn [Py.hashable].
      destruct (add_level_spec m t0 (Py.str (Py.get doc "level")) Hm Hnd)
        as (Ha1 & Ha2 & _ & Ha4).
      destruct (IH _ Hdocs Ha1 Ha2) as (m' & Hloop & Hm' & Hnd' & Hin).
      exists m'. repeat apply conj; trivial. intros t l. rewrite Hin, Ha4.
      split.
      * intros [[H|[-> ->]]|(Ht & Hl & d & Hd & Hj & Hlv)]; [now left | | ].
        -- right. repeat apply conj; trivial. exists doc.
           split; [now left | now split].
        -- right. repeat apply conj; trivial. exists d. split; [now right | now split].
      * intros [H|(Ht & Hl & d & [<-|Hd] & Hj & Hlv)]; [now left; left | | ].
        -- left. right. split; congruence.
        -- right. repeat apply conj; trivial. now exists d.
Qed.

Lemma add_level_nonempty (m : list (json * list string)) (k : json) (l : string) :
  Forall (fun kv => snd kv <> []) m ->
  Forall (fun kv => snd kv <> []) (add_level m k l).
Proof.
  induction 1 as [|[k' ls] m Hls Hm IH]; cbn [add_level].
  - repeat constructor. discriminate.
  - destruct (Py.key_eqb k' k); constructor; trivial.
    cbn [snd] in *. destruct (existsb (String.eqb l) ls); [exact Hls|].
    destruct ls; discriminate.
Qed.

Lemma levels_loop_nonempty (docs : list dict) (m m' : list (json * list string)) :
  Forall (fun kv => snd kv <> []) m ->
  levels_loop docs m = inr m' ->
  Forall (fun kv => snd kv <> []) m'.
Proof.
  revert m. induction docs as [|doc docs IH]; intros m Hm; cbn [levels_loop].
  - now intros [= <-].
  - destruct (_ && _); [|now apply IH].
    destruct (Py.hashable _); [|discriminate].
    apply IH. now apply add_level_nonempty.
Qed.

(** [list_titles] on a store whose titles are strings, read off the
    store. *)
Lemma list_titles_strings (s : store) :
  titles_are_strings s = true ->
  exists ts m,
    list_titles db_up s
    = (inr (mkTitlesResponse
              (map JStr (sort_by String.leb ts))
              (map (fun kv => (fst kv, sort_by String.leb (snd kv))) m)), s)
    /\ NoDup ts
    /\ (forall t, In t ts
                  <-> t <> EmptyString
                      /\ exists d, In d (matrix_docs s)
                                   /\ Py.dict_get d "job_title" = Some (JStr t))
    /\ Forall (fun kv => exists t', fst kv = JStr t' /\ NoDup (snd kv)) m
    /\ NoDup (map fst m)
    /\ Forall (fun kv => snd kv <> []) m
    /\ forall t l,
         (exists ls, In (JStr t, ls) m /\ In l ls)
         <-> t <> EmptyString /\ l <> EmptyString
             /\ exists d, In d (standards_docs s)
                          /\ Py.dict_get d "job_title" = Some (JStr t)
                          /\ Py.str (Py.get d "level") = l.
Proof.
  unfold titles_are_strings. intros H. apply andb_prop in H as [Hmx Hst].
  destruct (title_set_strings (matrix_docs s) [] Hmx (NoDup_nil _))
    as (ts & Hts & Hnd & Hin).
  destruct (levels_loop_spec (standards_docs s) [] Hst (Forall_nil _) (NoDup_nil _))
    as (m & Hloop & Hm & Hmnd & Hmin).
  pose proof (levels_loop_nonempty _ _ _ (Forall_nil _) Hloop) as Hne.
  exists ts, m. repeat apply conj; trivial.
  - unfold list_titles, db_up, bind, find_all, lift, ret. cbn [docs_of].
    cbn [map] in Hts. rewrite Hts. cbn [ebind]. rewrite sorted_strings, Hloop.
    reflexivity.
  - intros t. rewrite Hin. split; [intros [[]|H]; exact H | now right].
  - intros t l. rewrite Hmin. split; [intros [(ls & [] & _)|H]; exact H | now right].
Qed.

Lemma in_map_fst_unique {A B : Type} (m : list (A * B)) (k : A) (a b : B) :
  NoDup (map fst m) -> In (k, a) m -> In (k, b) m -> a = b.
Proof.
  induction m as [|[k' v] m IH]; [contradiction|].
  cbn [map fst]. intros Hnd Ha Hb. inversion Hnd as [|? ? Hnotin Hnd']; subst.
  destruct Ha as [Ha|Ha], Hb as [Hb|Hb].
  - congruence.
  - injection Ha as -> ->. destruct Hnotin. now apply (in_map fst) in Hb.
  - injection Hb as -> ->. destruct Hnotin. now apply (in_map fst) in Ha.
  - now apply IH.
Qed.

(** ** [list_titles] *)

(** X1. The titles listed are the non-empty titles of the matrix collection,
    each once, in ascending order. *)
Theorem list_titles_titles (s : store) :
  titles_are_strings s = true ->
  exists ts lv,
    list_titles db_up s = (inr (mkTitlesResponse (map JStr ts) lv), s)
    /\ Sorted (fun a b => String.leb a b = true) ts
    /\ NoDup ts
    /\ forall t,
         In t ts
         <-> t <> EmptyString
             /\ exists d, In d (matrix_docs s)
                          /\ Py.dict_get d "job_title" = Some (JStr t).
Proof.
  intros H. destruct (list_titles_strings s H) as (ts & m & Hq & Hnd & Hin & _).
  eexists _, _. split; [exact Hq|]. repeat apply conj.
  - apply sort_by_sorted, String.leb_total.
  - now apply sort_by_NoDup.
  - intros t. now rewrite sort_by_In.
Qed.

Lemma list_titles_titles_witness :
  exists ts lv,
    list_titles db_up scenario_store
    = (inr (mkTitlesResponse (map JStr ts) lv), scenario_store)
    /\ Sorted (fun a b => String.leb a b = true) ts
    /\ NoDup ts
    /\ forall t,
         In t ts
         <-> t <> EmptyString
             /\ exists d, In d (matrix_docs scenario_store)
                          /\ Py.dict_get d "job_title" = Some (JStr t).
Proof. apply (list_titles_titles scenario_store). reflexivity. Defined.

(** X2. The levels listed: one key for each title that has a standards
    document with a non-empty level, and under it the non-empty levels of
    the title's standards documents, each once, in ascending order. *)
Theorem list_titles_levels (s : store) :
  titles_are_strings s = true ->
  exists ts lv,
    list_titles db_up s = (inr (mkTitlesResponse ts lv), s)
    /\ NoDup (map fst lv)
    /\ (forall t,
          (exists ls, In (JStr t, ls) lv)
          <-> t <> EmptyString
              /\ exists d, In d (standards_docs s)
                           /\ Py.dict_get d "job_title" = Some (JStr t)
                           /\ Py.str (Py.get d "level") <> EmptyString)
    /\ forall k ls,
         In (k, ls) lv ->
         exists t,
           k = JStr t
           /\ Sorted (fun a b => String.leb a b = true) ls
           /\ NoDup ls
           /\ forall l,
                In l ls
                <-> l <> EmptyString
                    /\ exists d, In d (standards_docs s)
                                 /\ Py.dict_get d "job_title" = Some (JStr t)
                                 /\ Py.str (Py.get d "level") = l.
Proof.
  intros H.
  destruct (list_titles_strings s H) as (ts & m & Hq & _ & _ & Hm & Hnd & Hne & Hin).
  eexists _, _. split; [exact Hq|].
  assert (Hlv : forall k ls,
             In (k, ls) (map (fun kv => (fst kv, sort_by String.leb (snd kv))) m)
             <-> exists ls0, In (k, ls0) m /\ ls = sort_by String.leb ls0).
  { intros k ls. rewrite in_map_iff. split.
    - intros ([k0 ls0] & [= <- <-] & Hin0). now exists ls0.
    - intros (ls0 & Hin0 & ->). now exists (k, ls0). }
  repeat apply conj.
  - now rewrite map_map.
  - intros t. split.
    + intros (ls & Hls). apply Hlv in Hls as (ls0 & Hin0 & ->).
      rewrite Forall_forall in Hne. pose proof (Hne _ Hin0) as Hls0. cbn [snd] in Hls0.
      destruct ls0 as [|l ls0]; [contradiction|].
      destruct (proj1 (Hin t l) (ex_intro _ _ (conj Hin0 (or_introl eq_refl))))
        as (Ht & Hl & d & Hd & Hj & Hlv').
      split; [exact Ht|]. exists d. repeat apply conj; trivial. congruence.
    + intros (Ht & d & Hd & Hj & Hl).
      destruct (proj2 (Hin t _) (conj Ht (conj Hl (ex_intro _ d (conj Hd (conj Hj eq_refl))))))
        as (ls0 & Hin0 & _).
      eexists. apply Hlv. now exists ls0.
  - intros k ls Hkls. apply Hlv in Hkls as (ls0 & Hin0 & ->).
    rewrite Forall_forall in Hm. destruct (Hm _ Hin0) as (t & Hk & Hnd0).
    cbn [fst snd] in *. subst k. exists t. repeat apply conj; trivial.
    + apply sort_by_sorted, String.leb_total.
    + now apply sort_by_NoDup.
    + intros l. rewrite sort_by_In. split.
      * intros Hl. destruct (proj1 (Hin t l) (ex_intro _ _ (conj Hin0 Hl)))
          as (_ & Hl' & Hd).
        now split.
      * intros (Hl & d & Hd & Hj & Hlv').
        assert (Ht : t <> EmptyString).
        { rewrite Forall_forall in Hne. pose proof (Hne _ Hin0) as Hls0.
          cbn [snd] in Hls0. destruct ls0 as [|l0 ls0]; [contradiction|].
          now destruct (proj1 (Hin t l0)
                          (ex_intro _ _ (conj Hin0 (or_introl eq_refl)))). }
        destruct (proj2 (Hin t l)
                    (conj Ht (conj Hl (ex_intro _ d (conj Hd (conj Hj Hlv'))))))
          as (ls1 & Hin1 & Hl1).
        now rewrite (in_map_fst_unique m (JStr t) ls0 ls1 Hnd Hin0 Hin1).
Qed.

Lemma list_titles_levels_witness :
  exists ts lv,
    list_titles db_up scenario_store = (inr (mkTitlesResponse ts lv), scenario_store)
    /\ NoDup (map fst lv)
    /\ (exists ls, In (JStr "Dev", ls) lv)
    /\ forall k ls,
         In (k, ls) lv ->
         exists t,
           k = JStr t
           /\ Sorted (fun a b => String.leb a b = true) ls
           /\ NoDup ls.
Proof.
  destruct (list_titles_levels scenario_store eq_refl)
    as (ts & lv & Hq & Hnd & Hkeys & Hlv).
  exists ts, lv. repeat apply conj; trivial.
  - apply Hkeys. split; [discriminate|].
    eexists. split; [left; reflexivity|]. split; [reflexivity | discriminate].
  - intros k ls Hin. destruct (Hlv k ls Hin) as (t & Hk & Hs & Hn & _).
    now exists t.
Defined.

(** X3. A standards document without a level (or with a null level) is listed
    under the level [None], the text of [str(None)]. *)
Theorem list_titles_missing_level (s : store) (d : dict) (t : string) :
  titles_are_strings s = true ->
  In d (standards_docs s) ->
  Py.dict_get d "job_title" = Some (JStr t) ->
  t <> EmptyString ->
  Py.get d "level" = JNull ->
  exists ts lv ls,
    list_titles db_up s = (inr (mkTitlesResponse ts lv), s)
    /\ In (JStr t, ls) lv
    /\ In "None" ls.
Proof.
  intros H Hd Hj Ht Hl.
  destruct (list_titles_strings s H) as (ts & m & Hq & _ & _ & _ & _ & _ & Hin).
  destruct (proj2 (Hin t "None")) as (ls0 & Hin0 & Hl0).
  { split; [exact Ht|]. split; [discriminate|]. exists d.
    repeat apply conj; trivial. now rewrite Hl. }
  eexists _, _, (sort_by String.leb ls0). split; [exact Hq|]. split.
  - apply in_map_iff. now exists (JStr t, ls0).
  - now apply sort_by_In.
Qed.

Lemma list_titles_missing_level_witness :
  exists ts lv ls,
    list_titles db_up levelless_store = (inr (mkTitlesResponse ts lv), levelless_store)
    /\ In (JStr "Dev", ls) lv
    /\ In "None" ls.
Proof.
  apply (list_titles_missing_level levelless_store
           [("job_title", JStr "Dev");
            ("standards", JDict [("coaching", JStr "basic")])] "Dev").
  - reflexivity.
  - left. reflexivity.
  - reflexivity.
  - discriminate.
  - reflexivity.
Defined.

(** ** Standards documents with an empty level *)

Lemma find_app_skip {A : Type} (f : A -> bool) (a b : list A) (d : A) :
  f d = false -> find f (a ++ d :: b) = find f (a ++ b).
Proof.
  intros Hd. induction a as [|x a IH]; simpl; [now rewrite Hd|].
  now rewrite IH.
Qed.

Lemma levels_loop_skip (a b : list dict) (d : dict)
    (m : list (json * list string)) :
  Py.dict_get d "level" = Some (JStr EmptyString) ->
  levels_loop (a ++ d :: b) m = levels_loop (a ++ b) m.
Proof.
  intros Hd. revert m. induction a as [|x a IH]; intros m.
  - cbn [app levels_loop]. unfold Py.get, Py.get_default. rewrite Hd.
    cbn [Py.str Py.truthy String.eqb negb]. now rewrite andb_false_r.
  - cbn [app levels_loop]. destruct (_ && _); [|apply IH].
    destruct (Py.hashable _); [apply IH | reflexivity].
Qed.

Lemma level_mapping_of_skip (mx a b dd : list dict) (d : dict) (title : string)
    (level : option string) :
  Py.dict_get d "level" = Some (JStr EmptyString) ->
  level_mapping_of (mkStore mx (a ++ d :: b) dd) title level
  = level_mapping_of (mkStore mx (a ++ b) dd) title level.
Proof.
  intros Hd. unfold level_mapping_of. cbn [standards_docs].
  destruct level as [[|c l]|]; try reflexivity.
  cbn [json_of_level Py.truthy String.eqb negb Py.str].
  rewrite find_app_skip; [reflexivity|].
  unfold matches. cbn [forallb fst snd]. rewrite Hd.
  cbn [String.eqb]. now rewrite andb_false_r.
Qed.

(** X6. A standards document whose level is the empty string is never read
    back: neither the query nor the listing changes when it is taken out
    of the store. *)
Theorem empty_level_record_is_invisible (db : option Database)
    (mx a b dd : list dict) (d : dict) (title : string) (level : option string) :
  Py.dict_get d "level" = Some (JStr EmptyString) ->
  fst (get_competencies db title level (mkStore mx (a ++ d :: b) dd))
  = fst (get_competencies db title level (mkStore mx (a ++ b) dd))
  /\ fst (list_titles db (mkStore mx (a ++ d :: b) dd))
     = fst (list_titles db (mkStore mx (a ++ b) dd)).
Proof.
  intros Hd. destruct db as [[]|]; [fold db_up | split; reflexivity]. split.
  - destruct (find (matches [("job_title", _normalize_title title)]) mx)
      as [matrix_entry|] eqn:Hfind.
    + rewrite (get_competencies_found (mkStore mx (a ++ d :: b) dd) title level
                 matrix_entry Hfind).
      rewrite (get_competencies_found (mkStore mx (a ++ b) dd) title level
                 matrix_entry Hfind).
      now rewrite level_mapping_of_skip.
    + rewrite (get_competencies_not_found (mkStore mx (a ++ d :: b) dd) title level
                 Hfind).
      now rewrite (get_competencies_not_found (mkStore mx (a ++ b) dd) title level
                     Hfind).
  - unfold list_titles, db_up, bind, find_all, lift, ret. cbn [docs_of matrix_docs standards_docs].
    destruct (ebind _ _) as [e|ts]; [reflexivity|].
    rewrite (levels_loop_skip a b d [] Hd).
    destruct (levels_loop (a ++ b) []); reflexivity.
Qed.

Lemma empty_level_record_is_invisible_witness :
  fst (get_competencies db_up "Dev" (Some "Senior")
         (mkStore (matrix_docs scenario_store)
                  (standards_docs scenario_store ++ [empty_level_doc])
                  (defs_docs scenario_store)))
  = fst (get_competencies db_up "Dev" (Some "Senior")
           (mkStore (matrix_docs scenario_store)
                    (standards_docs scenario_store ++ [])
                    (defs_docs scenario_store)))
  /\ fst (list_titles db_up
            (mkStore (matrix_docs scenario_store)
                     (standards_docs scenario_store ++ [empty_level_doc])
                     (defs_docs scenario_store)))
     = fst (list_titles db_up
              (mkStore (matrix_docs scenario_store)
                       (standards_docs scenario_store ++ [])
                       (defs_docs scenario_store))).
Proof.
  apply (empty_level_record_is_invisible db_up (matrix_docs scenario_store)
           (standards_docs scenario_store) [] (defs_docs scenario_store)
           empty_level_doc "Dev" (Some "Senior")).
  reflexivity.
Defined.

(** Ingest stores the empty level for an element of a standards list that
    has no level (or a falsy one). *)
Example ingest_standards_without_level :
  standards_docs
    (snd (ingest db_up
            (mkIngestPayload JNull
               (JList [JDict [("job_title", JStr "Dev");
                              ("standards", JDict [("coaching", JStr "basic")])]])
               JNull true)
            empty_store))
  = [empty_level_doc].
Proof. reflexivity. Qed.

(** ** The titles ingest stores *)

Lemma normalize_title_of_normal (x : json) (title : string) :
  normalize_title_of x = inr title -> (_normalize_title title =? title)%string = true.
Proof.
  destruct x; try discriminate. intros [= <-].
  rewrite normalize_title_idempotent. apply String.eqb_refl.
Qed.

Lemma store_normal_create_matrix (doc : dict) (s : store) :
  title_normal doc = true -> store_normal s = true ->
  store_normal (snd (create_document MATRIX_COL doc s)) = true.
Proof.
  unfold store_normal. cbn. intros Hdoc H. apply andb_prop in H as [Hm Hs].
  rewrite forallb_app, Hm, Hs. cbn. now rewrite Hdoc.
Qed.

Lemma store_normal_create_standards (doc : dict) (s : store) :
  title_normal doc && level_is_string doc = true -> store_normal s = true ->
  store_normal (snd (create_document STANDARDS_COL doc s)) = true.
Proof.
  unfold store_normal. cbn. intros Hdoc H. apply andb_prop in H as [Hm Hs].
  rewrite forallb_app, Hm, Hs. cbn. now rewrite Hdoc.
Qed.

Lemma store_normal_create_defs (doc : dict) (s : store) :
  store_normal s = true ->
  store_normal (snd (create_document DEFS_COL doc s)) = true.
Proof. trivial. Qed.

Lemma bind_lift_preserves {A B : Type} (P : store -> Prop) (m : E A)
    (k : A -> M B) (s : store) :
  P s -> (forall a, m = inr a -> P (snd (k a s))) -> P (snd (bind (lift m) k s)).
Proof.
  intros Hs Hk. unfold bind, lift. destruct m as [e|a]; [exact Hs | now apply Hk].
Qed.

Lemma title_normal_stored (t : string) (rest : dict) :
  title_normal (("job_title", JStr (_normalize_title t)) :: rest) = true.
Proof.
  unfold title_normal. cbn. rewrite normalize_title_idempotent. apply String.eqb_refl.
Qed.

Lemma ingest_matrix_normal (matrix : json) (s : store) :
  store_normal s = true -> store_normal (snd (ingest_matrix matrix s)) = true.
Proof.
  unfold ingest_matrix. destruct matrix as [| | | |entries|items]; trivial;
    revert s; apply (for_each_preserves (fun s => store_normal s = true));
    intros x s Hs.
  - apply bind_lift_preserves; [exact Hs | intros e _].
    apply bind_lift_preserves; [exact Hs | intros title Ht].
    destruct (Py.truthy (JStr title)); [|exact Hs].
    apply store_normal_create_matrix; [|exact Hs].
    unfold title_normal. cbn. now apply normalize_title_of_normal in Ht.
  - apply store_normal_create_matrix; [apply title_normal_stored | exact Hs].
Qed.

Lemma ingest_standards_normal (standards : json) (s : store) :
  store_normal s = true -> store_normal (snd (ingest_standards standards s)) = true.
Proof.
  unfold ingest_standards. destruct standards as [| | | |items|items]; trivial;
    revert s; apply (for_each_preserves (fun s => store_normal s = true));
    intros x s Hs.
  - apply bind_lift_preserves; [exact Hs | intros doc Hdoc].
    apply store_normal_create_standards; [|exact Hs].
    destruct (Py.as_dict x) as [e|d]; [discriminate|]. cbn [ebind] in Hdoc.
    destruct (normalize_title_of _) as [e|title] eqn:Ht; [discriminate|].
    cbn [ebind] in Hdoc. injection Hdoc as <-.
    unfold title_normal, level_is_string. cbn.
    apply normalize_title_of_normal in Ht. now rewrite Ht.
  - apply bind_lift_preserves; [exact Hs | intros levels _].
    revert s Hs. apply (for_each_preserves (fun s => store_normal s = true)).
    intros lv s Hs. apply store_normal_create_standards; [|exact Hs].
    rewrite title_normal_stored. reflexivity.
Qed.

Lemma ingest_definitions_normal (definitions : json) (s : store) :
  store_normal s = true -> store_normal (snd (ingest_definitions definitions s)) = true.
Proof.
  unfold ingest_definitions. destruct definitions as [| | | |items|items]; trivial;
    revert s; apply (for_each_preserves (fun s => store_normal s = true));
    intros x s Hs.
  - apply bind_lift_preserves; [exact Hs | intros e _].
    destruct (negb _); [exact Hs | now apply store_normal_create_defs].
  - now apply store_normal_create_defs.
Qed.

Lemma ingest_normal (db : option Database) (payload : IngestPayload) (s : store) :
  store_normal s = true -> store_normal (snd (ingest db payload s)) = true.
Proof.
  intros Hs. destruct db as [h|]; [|exact Hs]. unfold ingest.
  apply (bind_preserves (fun s => store_normal s = true)); [| |exact Hs].
  - intros s0 Hs0. now destruct (replace payload).
  - intros _ s1 Hs1.
    apply (bind_preserves (fun s => store_normal s = true));
      [intros s0; apply ingest_matrix_normal | | exact Hs1].
    intros _ s2 Hs2.
    apply (bind_preserves (fun s => store_normal s = true));
      [intros s0; apply ingest_standards_normal | | exact Hs2].
    intros _ s3 Hs3.
    apply (bind_preserves (fun s => store_normal s = true));
      [intros s0; apply ingest_definitions_normal | trivial | exact Hs3].
Qed.

(** X7. Ingest keeps the titles of the store normalised: if every stored
    matrix and standards document has a string title that normalisation
    leaves unchanged (and every standards document a string level), the
    same holds after any ingest, also one that raises half way. *)
Theorem ingest_keeps_titles_normal (db : option Database)
    (payload : IngestPayload) (s : store) :
  store_normal s = true -> store_normal (snd (ingest db payload s)) = true.
Proof. apply ingest_normal. Qed.

Lemma ingest_keeps_titles_normal_witness :
  store_normal scenario_store = true
  /\ store_normal
       (snd (ingest db_up
               (mkIngestPayload
                  (JList [JDict [("title", JStr "  Staff   Engineer ")];
                          JStr "coaching"])
                  JNull JNull false)
               scenario_store)) = true.
Proof.
  split; [reflexivity|].
  apply (ingest_keeps_titles_normal db_up _ scenario_store). reflexivity.
Defined.

(** With [replace] on, the store has that shape after ingest whatever it
    held before. *)
Lemma ingest_replace_normal (m st d : json) (s : store) :
  store_normal (snd (ingest db_up (mkIngestPayload m st d true) s)) = true.
Proof. rewrite ingest_replace_from_empty. now apply ingest_normal. Qed.

Lemma store_normal_titles_are_strings (s : store) :
  store_normal s = true -> titles_are_strings s = true.
Proof.
  assert (Ht : forall d, title_normal d = true
                         -> str_or_none (Py.get d "job_title") = true).
  { intros d. unfold title_normal, Py.get, Py.get_default.
    destruct (Py.dict_get d "job_title") as [[| | |t| |]|]; trivial; discriminate. }
  unfold store_normal, titles_are_strings. intros H.
  apply andb_prop in H as [Hm Hs]. apply andb_true_intro. split.
  - rewrite forallb_forall in *. intros d Hd. now apply Ht, Hm.
  - rewrite forallb_forall in *. intros d Hd. apply Ht.
    now destruct (andb_prop _ _ (Hs d Hd)).
Qed.

(** ** The ways a query can end *)

Lemma build_defs_map_error (docs : list dict) (acc : Py.pydict) (e : exn) :
  build_defs_map docs acc = inl e -> e = TypeError.
Proof.
  revert acc. induction docs as [|d docs IH]; intros acc; cbn [build_defs_map].
  - discriminate.
  - destruct (Py.hashable _); [apply IH | now intros [= <-]].
Qed.

Lemma iter_error (x : json) (e : exn) : Py.iter x = inl e -> e = TypeError.
Proof. destruct x; try discriminate; now intros [= <-]. Qed.

Lemma key_and_label_error (comp : json) (e : exn) :
  key_and_label comp = inl e -> e = AttributeError.
Proof.
  destruct comp as [| | | | |c]; try discriminate; try (now intros [= <-]).
  unfold key_and_label.
  repeat (destruct (Py.truthy _); [discriminate|]).
  destruct (Py.truthy _); [|discriminate].
  destruct (Py.or _ _); try discriminate; now intros [= <-].
Qed.

Lemma competency_row_error (lm : json) (dm : Py.pydict) (comp : json) (e : exn) :
  competency_row lm dm comp = inl e -> e = AttributeError \/ e = TypeError.
Proof.
  unfold competency_row.
  destruct (key_and_label comp) as [e'|[key label]] eqn:Hkl.
  - intros [= <-]. left. now apply key_and_label_error in Hkl.
  - cbn [ebind fst snd]. destruct (Py.truthy key); [|discriminate]. cbn [negb].
    destruct (Py.lookup lm key) as [e'|sv] eqn:Hl.
    + intros [= <-]. unfold Py.lookup in Hl.
      destruct lm; try (left; congruence).
      destruct (Py.hashable key); [discriminate | right; congruence].
    + cbn [ebind].
      destruct sv; cbn [ebind]; try discriminate;
        (destruct (Py.as_dict _) as [e'|vm] eqn:Hv; [|discriminate]);
        intros [= <-]; left;
        (destruct (Py.or _ _); try discriminate; now injection Hv as <-).
Qed.

Lemma competency_rows_error (lm : json) (dm : Py.pydict) (comps acc : list json)
    (e : exn) :
  competency_rows lm dm comps acc = inl e -> e = AttributeError \/ e = TypeError.
Proof.
  revert acc. induction comps as [|c comps IH]; intros acc; cbn [competency_rows].
  - discriminate.
  - destruct (competency_row lm dm c) as [e'|[row|]] eqn:Hc; try apply IH.
    intros [= <-]. now apply competency_row_error in Hc.
Qed.

Lemma find_job_title_none_inv (title : string) (docs : list dict) :
  List.find (matches [("job_title", title)]) docs = None ->
  forall d, In d docs -> Py.dict_get d "job_title" <> Some (JStr title).
Proof.
  intros Hf d Hd Hj. apply matches_job_title in Hj.
  now rewrite (find_none _ _ Hf d Hd) in Hj.
Qed.

Lemma get_competencies_found_error (s : store) (title : string)
    (level : option string) (matrix_entry : dict) (e : exn) :
  List.find (matches [("job_title", _normalize_title title)]) (matrix_docs s)
  = Some matrix_entry ->
  fst (get_competencies db_up title level s) = inl e ->
  e = AttributeError \/ e = TypeError.
Proof.
  intros Hfind. rewrite (get_competencies_found s title level matrix_entry Hfind).
  cbn [fst].
  destruct (build_defs_map (defs_docs s) []) as [e'|dm] eqn:Hdm.
  - intros [= <-]. right. now apply build_defs_map_error in Hdm.
  - cbn [ebind]. destruct (Py.iter _) as [e'|comps] eqn:Hi.
    + intros [= <-]. right. now apply iter_error in Hi.
    + cbn [ebind]. destruct (competency_rows _ _ _ _) as [e'|items] eqn:Hr.
      * intros [= <-]. now apply competency_rows_error in Hr.
      * discriminate.
Qed.

(** X13. The query never writes; it answers 404 exactly when no matrix entry
    has the normalised title; and besides 404 the only ways it can fail,
    with the store available, are the interpreter's [AttributeError] and
    [TypeError] on ill-shaped documents. *)
Theorem get_competencies_outcomes (title : string) (level : option string)
    (s : store) :
  snd (get_competencies db_up title level s) = s
  /\ (fst (get_competencies db_up title level s)
      = inl (HTTPException 404 "Title not found")
      <-> forall d, In d (matrix_docs s) ->
                    Py.dict_get d "job_title"
                    <> Some (JStr (_normalize_title title)))
  /\ forall e,
       fst (get_competencies db_up title level s) = inl e ->
       e = HTTPException 404 "Title not found"
       \/ e = AttributeError \/ e = TypeError.
Proof.
  destruct (find (matches [("job_title", _normalize_title title)]) (matrix_docs s))
    as [matrix_entry|] eqn:Hfind.
  - split; [|split].
    + now rewrite (get_competencies_found s title level matrix_entry Hfind).
    + split.
      * intros H.
        destruct (get_competencies_found_error _ _ _ _ _ Hfind H); discriminate.
      * intros H. now rewrite (find_job_title_none _ _ H) in Hfind.
    + intros e He. right. exact (get_competencies_found_error _ _ _ _ _ Hfind He).
  - rewrite (get_competencies_not_found s title level Hfind). split; [|split].
    + reflexivity.
    + split; [intros _; now apply find_job_title_none_inv | reflexivity].
    + intros e [= <-]. now left.
Qed.

(** ** From the listing to the query *)

(** X8. On a store whose titles are normalised, as ingest leaves them, every
    title the listing returns can be queried: the query for it, with any
    level, does not answer 404. *)
Theorem listed_titles_resolve (s : store) :
  store_normal s = true ->
  exists ts lv,
    list_titles db_up s = (inr (mkTitlesResponse (map JStr ts) lv), s)
    /\ forall t level,
         In t ts ->
         exists matrix_entry,
           List.find (matches [("job_title", t)]) (matrix_docs s) = Some matrix_entry
           /\ Py.dict_get matrix_entry "job_title" = Some (JStr t)
           /\ fst (get_competencies db_up t level s)
              <> inl (HTTPException 404 "Title not found").
Proof.
  intros Hs.
  destruct (list_titles_strings s (store_normal_titles_are_strings s Hs))
    as (ts & m & Hq & _ & Hin & _).
  eexists _, _. split; [exact Hq|]. intros t level Ht.
  apply sort_by_In, Hin in Ht as (_ & d & Hd & Hj).
  assert (Hn : _normalize_title t = t).
  { unfold store_normal in Hs. apply andb_prop in Hs as [Hm _].
    rewrite forallb_forall in Hm. specialize (Hm d Hd).
    unfold title_normal in Hm. rewrite Hj in Hm. now apply String.eqb_eq. }
  destruct (find_job_title_some t (matrix_docs s) (ex_intro _ d (conj Hd Hj)))
    as [matrix_entry Hfind].
  exists matrix_entry. repeat apply conj; trivial.
  - apply find_some in Hfind as [_ Hm]. now apply matches_job_title.
  - rewrite <- Hn in Hfind. intros H404.
    destruct (get_competencies_found_error _ _ _ _ _ Hfind H404); discriminate.
Qed.

Lemma listed_titles_resolve_witness :
  exists ts lv,
    list_titles db_up scenario_store
    = (inr (mkTitlesResponse (map JStr ts) lv), scenario_store)
    /\ forall t level,
         In t ts ->
         exists matrix_entry,
           List.find (matches [("job_title", t)]) (matrix_docs scenario_store)
           = Some matrix_entry
           /\ Py.dict_get matrix_entry "job_title" = Some (JStr t)
           /\ fst (get_competencies db_up t level scenario_store)
              <> inl (HTTPException 404 "Title not found").
Proof. apply (listed_titles_resolve scenario_store). reflexivity. Defined.

Lemma ingest_matrix_mapping_docs (items : list (string * json)) (s : store) :
  ingest_matrix (JDict items) s
  = (inr tt,
     mkStore
       (matrix_docs s
        ++ map (fun item =>
                  [("job_title", JStr (_normalize_title (fst item)));
                   ("competencies",
                     match snd item with JList _ => snd item | _ => JList [] end)])
               items)
       (standards_docs s) (defs_docs s)).
Proof.
  unfold ingest_matrix. revert s. induction items as [|item items IH]; intros s.
  - cbn. rewrite app_nil_r. now destruct s.
  - cbn [for_each map]. unfold bind at 1. cbn [create_document].
    rewrite IH. cbn. now rewrite <- app_assoc.
Qed.

(** X9. Insert, list, query: after an ingest with [replace] on of a matrix
    given as a mapping, whatever the rest of the payload and whatever the
    store held, every key of the mapping that is not blank is listed in
    its normalised form, and the query for the key as it was written does
    not answer 404. *)
Theorem ingested_titles_are_listed (items : list (string * json)) (st d : json)
    (s : store) (title : string) (comps : json) (level : option string) :
  In (title, comps) items ->
  _normalize_title title <> EmptyString ->
  exists ts lv,
    list_titles db_up (snd (ingest db_up (mkIngestPayload (JDict items) st d true) s))
    = (inr (mkTitlesResponse (map JStr ts) lv),
       snd (ingest db_up (mkIngestPayload (JDict items) st d true) s))
    /\ In (_normalize_title title) ts
    /\ fst (get_competencies db_up title level
              (snd (ingest db_up (mkIngestPayload (JDict items) st d true) s)))
       <> inl (HTTPException 404 "Title not found").
Proof.
  intros Hin Hne.
  set (s' := snd (ingest db_up (mkIngestPayload (JDict items) st d true) s)).
  assert (Hnormal : store_normal s' = true) by apply ingest_replace_normal.
  assert (Hdoc : exists doc, In doc (matrix_docs s')
                             /\ Py.dict_get doc "job_title"
                                = Some (JStr (_normalize_title title))).
  { unfold s'. rewrite ingest_matrix_docs, ingest_matrix_mapping_docs.
    cbn [snd matrix_docs empty_store app].
    eexists. split; [apply in_map_iff; exists (title, comps); split;
                     [reflexivity | exact Hin] | reflexivity]. }
  destruct (list_titles_strings s' (store_normal_titles_are_strings s' Hnormal))
    as (ts & m & Hq & _ & Hts & _).
  eexists _, _. split; [exact Hq|]. split.
  - apply sort_by_In, Hts. now split.
  - destruct (find_job_title_some _ _ Hdoc) as [matrix_entry Hfind].
    intros H404.
    destruct (get_competencies_found_error _ _ _ _ _ Hfind H404); discriminate.
Qed.

Lemma ingested_titles_are_listed_witness :
  exists ts lv,
    list_titles db_up
      (snd (ingest db_up
              (mkIngestPayload (JDict [("  Staff   Engineer ", JNull)]) JNull JNull true)
              scenario_store))
    = (inr (mkTitlesResponse (map JStr ts) lv),
       snd (ingest db_up
              (mkIngestPayload (JDict [("  Staff   Engineer ", JNull)]) JNull JNull true)
              scenario_store))
    /\ In (_normalize_title "  Staff   Engineer ") ts
    /\ fst (get_competencies db_up "  Staff   Engineer " None
              (snd (ingest db_up
                      (mkIngestPayload (JDict [("  Staff   Engineer ", JNull)])
                         JNull JNull true)
                      scenario_store)))
       <> inl (HTTPException 404 "Title not found").
Proof.
  apply (ingested_titles_are_listed [("  Staff   Engineer ", JNull)] JNull JNull
           scenario_store "  Staff   Engineer " JNull None).
  - left. reflexivity.
  - vm_compute. discriminate.
Defined.

(** ** How ingest ends *)

Lemma for_each_outcome {A : Type} (ok : A -> bool) (e : exn) (l : list A)
    (body : A -> M unit) :
  (forall x s, fst (body x s) = if ok x then inr tt else inl e) ->
  forall s, fst (for_each l body s) = if forallb ok l then inr tt else inl e.
Proof.
  intros Hb. induction l as [|x l IH]; intros s; [reflexivity|].
  cbn [for_each forallb]. unfold bind. specialize (Hb x s).
  destruct (body x s) as [[e'|[]] s']; cbn [fst] in *.
  - destruct (ok x); [discriminate | exact Hb].
  - destruct (ok x); [apply IH | discriminate].
Qed.

Lemma for_each_app {A : Type} (l1 l2 : list A) (body : A -> M unit) (s : store) :
  for_each (l1 ++ l2) body s
  = bind (for_each l1 body) (fun _ => for_each l2 body) s.
Proof.
  revert s. induction l1 as [|x l1 IH]; intros s; [reflexivity|].
  cbn [app for_each]. unfold bind.
  destruct (body x s) as [[e|[]] s']; [reflexivity|].
  rewrite IH. reflexivity.
Qed.

Lemma title_of_string (e : dict) :
  normalize_title_of (title_of e)
  = match title_of e with
    | JStr t => inr (_normalize_title t)
    | _ => inl AttributeError
    end.
Proof. reflexivity. Qed.

(** One turn of the loop over a matrix list. *)
Lemma ingest_matrix_turn (x : json) (s : store) :
  ingest_matrix (JList [x]) s
  = if titled_object x
    then (inr tt,
          mkStore (matrix_docs s ++ matrix_docs_of [x])
                  (standards_docs s) (defs_docs s))
    else (inl AttributeError, s).
Proof.
  unfold ingest_matrix, matrix_docs_of. cbn [for_each flat_map].
  unfold bind, lift, titled_object, matrix_doc_of. rewrite app_nil_r.
  destruct x as [| | | | |e]; try reflexivity. cbn [Py.as_dict].
  fold (title_of e).
  destruct (title_of e) as [| | |t| |]; try reflexivity.
  cbn [normalize_title_of].
  destruct (Py.truthy (JStr (_normalize_title t))).
  - reflexivity.
  - cbn [ret]. rewrite app_nil_r. now destruct s.
Qed.

Lemma ingest_matrix_list_cons (x : json) (l : list json) (s : store) :
  ingest_matrix (JList (x :: l)) s
  = bind (ingest_matrix (JList [x])) (fun _ => ingest_matrix (JList l)) s.
Proof.
  unfold ingest_matrix. change (x :: l) with ([x] ++ l). apply for_each_app.
Qed.

(** A matrix list of well-shaped elements is stored element by element. *)
Lemma ingest_matrix_list_ok (l : list json) (s : store) :
  forallb titled_object l = true ->
  ingest_matrix (JList l) s
  = (inr tt,
     mkStore (matrix_docs s ++ matrix_docs_of l) (standards_docs s) (defs_docs s)).
Proof.
  revert s. induction l as [|x l IH]; intros s Hl.
  - cbn. rewrite app_nil_r. now destruct s.
  - cbn [forallb] in Hl. apply andb_prop in Hl as [Hx Hl].
    rewrite ingest_matrix_list_cons. unfold bind.
    rewrite ingest_matrix_turn, Hx, (IH _ Hl). cbn [matrix_docs standards_docs defs_docs].
    unfold matrix_docs_of. cbn [flat_map]. now rewrite app_nil_r, <- app_assoc.
Qed.

(** X11. A failing ingest is not rolled back: when a matrix list has an
    element that is not an object with a string title, the request ends
    with [AttributeError] at that element; the store is left cleared (with
    [replace] on) and holding the entries of the elements before it, and
    the standards and definitions of the payload are not read. *)
Theorem ingest_is_not_rolled_back (good : list json) (bad : json)
    (rest : list json) (st d : json) (r : bool) (s : store) :
  forallb titled_object good = true ->
  titled_object bad = false ->
  ingest db_up (mkIngestPayload (JList (good ++ bad :: rest)) st d r) s
  = (inl AttributeError,
     mkStore ((if r then [] else matrix_docs s) ++ matrix_docs_of good)
             (if r then [] else standards_docs s)
             (if r then [] else defs_docs s)).
Proof.
  intros Hgood Hbad.
  assert (H : forall s0,
             ingest_matrix (JList (good ++ bad :: rest)) s0
             = (inl AttributeError,
                mkStore (matrix_docs s0 ++ matrix_docs_of good)
                        (standards_docs s0) (defs_docs s0))).
  { intros s0. unfold ingest_matrix. rewrite for_each_app.
    unfold bind at 1. fold (ingest_matrix (JList good)).
    rewrite (ingest_matrix_list_ok good s0 Hgood).
    change (bad :: rest) with ([bad] ++ rest). rewrite for_each_app.
    unfold bind at 1. fold (ingest_matrix (JList [bad])).
    now rewrite ingest_matrix_turn, Hbad. }
  unfold ingest, db_up. cbn [replace matrix standards definitions].
  destruct r; unfold bind at 1; cbn [_clear_collections ret];
    [change (_clear_collections s) with (inr (A := exn) tt, empty_store)|];
    unfold bind at 1; now rewrite H.
Qed.

Lemma ingest_is_not_rolled_back_witness :
  ingest db_up
    (mkIngestPayload
       (JList ([JDict [("title", JStr " Staff  Engineer "); ("skills", JList [JStr "coaching"])]]
               ++ JStr "coaching" :: [JDict [("job_title", JStr "Dev")]]))
       scenario_standards scenario_definitions true)
    scenario_store
  = (inl AttributeError,
     mkStore ([] ++ matrix_docs_of
                      [JDict [("title", JStr " Staff  Engineer ");
                              ("skills", JList [JStr "coaching"])]])
             [] []).
Proof.
  apply (ingest_is_not_rolled_back
           [JDict [("title", JStr " Staff  Engineer "); ("skills", JList [JStr "coaching"])]]
           (JStr "coaching") [JDict [("job_title", JStr "Dev")]]
           scenario_standards scenario_definitions true scenario_store);
    reflexivity.
Defined.

Lemma ingest_matrix_outcome (m : json) (s : store) :
  fst (ingest_matrix m s)
  = if matrix_ingestible m then inr tt else inl AttributeError.
Proof.
  destruct m as [| | | |entries|items]; try reflexivity.
  - unfold ingest_matrix, matrix_ingestible. revert s.
    apply for_each_outcome. intros x s. unfold bind, lift, titled_object.
    destruct x as [| | | | |e]; try reflexivity. cbn [Py.as_dict].
    fold (title_of e). destruct (title_of e) as [| | |t| |]; try reflexivity.
    cbn [normalize_title_of]. now destruct (Py.truthy _).
  - now rewrite ingest_matrix_mapping_docs.
Qed.

Lemma forallb_const_true {A : Type} (l : list A) : forallb (fun _ => true) l = true.
Proof. induction l; [reflexivity | exact IHl]. Qed.

Lemma ingest_standards_outcome (st : json) (s : store) :
  fst (ingest_standards st s)
  = if standards_ingestible st then inr tt else inl AttributeError.
Proof.
  destruct st as [| | | |items|items]; try reflexivity;
    unfold ingest_standards, standards_ingestible; revert s;
    apply for_each_outcome; intros x s.
  - unfold bind, lift, titled_object.
    destruct x as [| | | | |e]; try reflexivity. cbn [Py.as_dict ebind].
    fold (title_of e). destruct (title_of e); reflexivity.
  - unfold bind, lift, is_object.
    destruct (Py.or (snd x) (JDict [])) as [| | | | |levels]; try reflexivity.
    cbn [Py.as_dict].
    rewrite (for_each_outcome (fun _ => true) AttributeError); [|reflexivity].
    now rewrite forallb_const_true.
Qed.

Lemma ingest_definitions_outcome (d : json) (s : store) :
  fst (ingest_definitions d s)
  = if definitions_ingestible d then inr tt else inl AttributeError.
Proof.
  destruct d as [| | | |items|items]; try reflexivity;
    unfold ingest_definitions, definitions_ingestible; revert s.
  - apply for_each_outcome. intros x s. unfold bind, lift, is_object.
    destruct x as [| | | | |e]; try reflexivity. cbn [Py.as_dict].
    now destruct (negb _).
  - intros s. rewrite (for_each_outcome (fun _ => true) AttributeError);
      [|reflexivity].
    now rewrite forallb_const_true.
Qed.

(** X10. With the store available, ingest acknowledges exactly the payloads
    whose list elements are objects, whose list titles are strings and
    whose standards mapping has objects (or falsy values) under its
    titles; it ends with [AttributeError] on every other payload. *)
Theorem ingest_outcome (payload : IngestPayload) (s : store) :
  fst (ingest db_up payload s)
  = if payload_ingestible payload
    then inr (JDict [("status", JStr "ok")])
    else inl AttributeError.
Proof.
  unfold ingest, db_up, payload_ingestible.
  set (s0 := snd ((if replace payload then _clear_collections else ret tt) s)).
  assert (H0 : (if replace payload then _clear_collections else ret tt) s
               = (inr tt, s0)) by (unfold s0; now destruct (replace payload)).
  unfold bind at 1. rewrite H0.
  unfold bind at 1. pose proof (ingest_matrix_outcome (matrix payload) s0) as Hm.
  destruct (ingest_matrix (matrix payload) s0) as [[e|[]] s1]; cbn [fst] in Hm;
    destruct (matrix_ingestible (matrix payload)); try discriminate;
    [now injection Hm as -> |].
  unfold bind at 1. pose proof (ingest_standards_outcome (standards payload) s1) as Hs.
  destruct (ingest_standards (standards payload) s1) as [[e|[]] s2]; cbn [fst] in Hs;
    destruct (standards_ingestible (standards payload)); try discriminate;
    [now injection Hs as -> |].
  unfold bind at 1.
  pose proof (ingest_definitions_outcome (definitions payload) s2) as Hd.
  destruct (ingest_definitions (definitions payload) s2) as [[e|[]] s3]; cbn [fst] in Hd;
    destruct (definitions_ingestible (definitions payload)); try discriminate;
    [now injection Hd as -> | reflexivity].
Qed.

(** ** Ingest, then query *)

Lemma single_payload_store (title level key : string) (value description : json)
    (values : dict) (s : store) :
  ingest db_up (single_payload title level key value description values) s
  = (inr (JDict [("status", JStr "ok")]),
     mkStore
       [[("job_title", JStr (_normalize_title title));
         ("competencies", JList [JStr key])]]
       [[("job_title", JStr (_normalize_title title));
         ("level", JStr level);
         ("standards", JDict [(key, value)])]]
       [[("key", JStr key);
         ("label", JNull);
         ("description", description);
         ("values", JDict values)]]).
Proof. reflexivity. Qed.

(** X12. Round trip of one record of each kind: whatever the title, the
    level, the competency key (not empty), the standard value and the
    definition, and whatever the store held, the query for the title and
    level after the ingest returns one row with the key, its title-cased
    label, the standard value, the description, and the text that
    [values] holds under the lower-cased standard value. *)
Theorem ingest_then_query (title level key : string) (value description : json)
    (values : dict) (s : store) :
  key <> EmptyString ->
  level <> EmptyString ->
  get_competencies db_up title (Some level)
    (snd (ingest db_up (single_payload title level key value description values) s))
  = (inr (JDict
            [("title", JStr (_normalize_title title));
             ("level", JStr level);
             ("items",
               JList
                 [JDict [("key", JStr key);
                         ("label", JStr (PyStr.title (PyStr.replace "_" " " key)));
                         ("standard", value);
                         ("definition", description);
                         ("standard_definition",
                           match value with
                           | JNull => JNull
                           | _ => Py.get values (PyStr.lower (Py.str value))
                           end)]])]),
     snd (ingest db_up (single_payload title level key value description values) s)).
Proof.
  intros Hkey Hlevel. rewrite single_payload_store. cbn [snd].
  apply String.eqb_neq in Hkey, Hlevel.
  erewrite get_competencies_found.
  2: { cbn [matrix_docs find matches forallb fst snd Py.dict_get].
       cbn. rewrite String.eqb_refl. reflexivity. }
  assert (Hlm : level_mapping_of
                  (mkStore
                     [[("job_title", JStr (_normalize_title title));
                       ("competencies", JList [JStr key])]]
                     [[("job_title", JStr (_normalize_title title));
                       ("level", JStr level);
                       ("standards", JDict [(key, value)])]]
                     [[("key", JStr key); ("label", JNull);
                       ("description", description); ("values", JDict values)]])
                  (_normalize_title title) (Some level)
                = JDict [(key, value)]).
  { unfold level_mapping_of. cbn. rewrite Hlevel. cbn.
    now rewrite !String.eqb_refl. }
  rewrite Hlm. cbn [defs_docs build_defs_map]. cbn [Py.get Py.get_default Py.dict_get].
  cbn. rewrite Hkey. cbn. rewrite !String.eqb_refl. cbn.
  assert (Hget : forall v, Py.get [(key, v)] key = v).
  { intros v. unfold Py.get, Py.get_default. cbn. now rewrite String.eqb_refl. }
  destruct value; destruct values; cbn; rewrite ?Hget; cbn; reflexivity.
Qed.

Lemma ingest_then_query_witness :
  get_competencies db_up " Staff  Engineer " (Some "L5")
    (snd (ingest db_up
            (single_payload " Staff  Engineer " "L5" "system_design" (JStr "Expert")
               (JStr "Designs systems") [("expert", JStr "Leads designs")])
            scenario_store))
  = (inr (JDict
            [("title", JStr (_normalize_title " Staff  Engineer "));
             ("level", JStr "L5");
             ("items",
               JList
                 [JDict [("key", JStr "system_design");
                         ("label",
                           JStr (PyStr.title (PyStr.replace "_" " " "system_design")));
                         ("standard", JStr "Expert");
                         ("definition", JStr "Designs systems");
                         ("standard_definition",
                           Py.get [("expert", JStr "Leads designs")]
                                  (PyStr.lower (Py.str (JStr "Expert"))))]])]),
     snd (ingest db_up
            (single_payload " Staff  Engineer " "L5" "system_design" (JStr "Expert")
               (JStr "Designs systems") [("expert", JStr "Leads designs")])
            scenario_store)).
Proof.
  apply (ingest_then_query " Staff  Engineer " "L5" "system_design" (JStr "Expert")
           (JStr "Designs systems") [("expert", JStr "Leads designs")] scenario_store);
    discriminate.
Defined.

(** ** Joining the definitions *)

Lemma key_eqb_trans (a b c : json) :
  Py.key_eqb a b = true -> Py.key_eqb a c = Py.key_eqb b c.
Proof.
  intros H. destruct a, b; cbn in H; try discriminate; destruct c; cbn; trivial;
    repeat match goal with
           | H : Bool.eqb _ _ = true |- _ => apply Bool.eqb_prop in H; subst
           | H : (_ =? _)%Z = true |- _ => apply Z.eqb_eq in H; subst
           | H : (_ =? _)%string = true |- _ => apply String.eqb_eq in H; subst
           end; trivial;
    repeat match goal with
           | x : bool |- _ => destruct x
           end; cbn; trivial; try apply Z.eqb_sym.
Qed.

Lemma key_eqb_refl_hashable (k : json) :
  Py.hashable k = true -> Py.key_eqb k k = true.
Proof.
  destruct k; cbn; trivial; try discriminate; intros _.
  - apply Bool.eqb_reflx.
  - apply Z.eqb_refl.
  - apply String.eqb_refl.
Qed.

Lemma key_eqb_sym (a b : json) : Py.key_eqb a b = Py.key_eqb b a.
Proof.
  destruct a, b; cbn; trivial;
    try apply Z.eqb_sym; try apply String.eqb_sym.
  now destruct b, b0.
Qed.

Lemma pydict_get_set (m : Py.pydict) (k k' : json) (v default : dict) :
  Py.pydict_get (Py.pydict_set m k v) k' default
  = if Py.key_eqb k k' then v else Py.pydict_get m k' default.
Proof.
  induction m as [|[k0 v0] m IH]; cbn [Py.pydict_set Py.pydict_get].
  - reflexivity.
  - destruct (Py.key_eqb k0 k) eqn:H0; cbn [Py.pydict_get].
    + rewrite (key_eqb_trans k0 k k' H0). now destruct (Py.key_eqb k k').
    + rewrite IH. destruct (Py.key_eqb k0 k') eqn:H1; [|reflexivity].
      destruct (Py.key_eqb k k') eqn:H2; [|reflexivity].
      rewrite (key_eqb_trans k0 k' k H1), key_eqb_sym in H0. congruence.
Qed.

Lemma build_defs_map_get (docs : list dict) (acc dm : Py.pydict) (k : json) :
  build_defs_map docs acc = inr dm ->
  (forall d, In d docs -> Py.key_eqb (Py.get d "key") k = false) ->
  Py.pydict_get dm k [] = Py.pydict_get acc k [].
Proof.
  revert acc. induction docs as [|d docs IH]; intros acc Hb Hk; cbn [build_defs_map] in Hb.
  - now injection Hb as <-.
  - destruct (Py.hashable _); [|discriminate].
    rewrite (IH _ Hb (fun d' Hd' => Hk d' (or_intror Hd'))).
    now rewrite pydict_get_set, (Hk d (or_introl eq_refl)).
Qed.

Lemma build_defs_map_app (docs1 docs2 : list dict) (acc dm : Py.pydict) :
  build_defs_map (docs1 ++ docs2) acc = inr dm ->
  exists dm1, build_defs_map docs1 acc = inr dm1
              /\ build_defs_map docs2 dm1 = inr dm.
Proof.
  revert acc. induction docs1 as [|d docs1 IH]; intros acc H.
  - now exists acc.
  - cbn [app build_defs_map] in *. destruct (Py.hashable _); [|discriminate].
    now apply IH.
Qed.

(** The definition [defs_map] holds for a key is the last one the loop
    read with that key. *)
Lemma build_defs_map_last (docs1 docs2 : list dict) (d : dict) (dm : Py.pydict) :
  build_defs_map (docs1 ++ d :: docs2) [] = inr dm ->
  (forall d', In d' docs2 -> Py.key_eqb (Py.get d' "key") (Py.get d "key") = false) ->
  Py.pydict_get dm (Py.get d "key") []
  = [("label", Py.get d "label");
     ("description", Py.get d "description");
     ("values", Py.or (Py.get d "values") (JDict []))].
Proof.
  intros Hb Hlater. apply build_defs_map_app in Hb as (dm1 & _ & Hb).
  cbn [build_defs_map] in Hb.
  destruct (Py.hashable (Py.get d "key")) eqn:Hh; [|discriminate].
  rewrite (build_defs_map_get _ _ _ _ Hb Hlater), pydict_get_set.
  now rewrite (key_eqb_refl_hashable _ Hh).
Qed.

(** X14. Last read wins: in whatever order the scan of the definitions
    collection hands the documents over, when several of them share a key
    the rows with that key show the description of the one that comes last
    in the scan ([defs_map[key]] is overwritten at every turn). *)
Theorem last_definition_wins (s : store) (title : string) (level : option string)
    (items : list json) (docs1 docs2 : list dict) (d : dict) (row : json) :
  get_competencies db_up title level s
  = (inr (JDict [("title", JStr (_normalize_title title));
                 ("level", json_of_level level);
                 ("items", JList items)]), s) ->
  fst (find_all DEFS_COL s) = inr (docs1 ++ d :: docs2) ->
  (forall d', In d' docs2 -> Py.key_eqb (Py.get d' "key") (Py.get d "key") = false) ->
  In row items ->
  item_field row "key" = Some (Py.get d "key") ->
  item_field row "definition" = Some (Py.get d "description").
Proof.
  intros Hq Hscan Hlater Hin Hkey.
  destruct (get_competencies_inv _ _ _ _ _ Hq)
    as (matrix_entry & dm & comps & items' & _ & Hdm & _ & Hrows & Hresp & _).
  injection Hresp as <-.
  destruct (competency_rows_row _ _ _ _ _ Hrows Hin) as (comp & _ & Hrow).
  destruct (competency_row_inv _ _ _ _ Hrow)
    as (key & label & sv & vd & _ & _ & _ & _ & _ & ->).
  injection Hkey as ->. injection Hscan as Hscan.
  change (docs_of s DEFS_COL) with (defs_docs s) in Hscan. rewrite Hscan in Hdm.
  cbn [item_field Py.dict_get String.eqb Ascii.eqb Bool.eqb].
  now rewrite (build_defs_map_last _ _ _ _ Hdm Hlater).
Qed.

(** X15. A competency without a definition: when no stored definition has
    the key of a row, the row's definition and standard definition are
    null. *)
Theorem no_definition_gives_nulls (s : store) (title : string)
    (level : option string) (items : list json) (row key : json) :
  get_competencies db_up title level s
  = (inr (JDict [("title", JStr (_normalize_title title));
                 ("level", json_of_level level);
                 ("items", JList items)]), s) ->
  (forall d, In d (defs_docs s) -> Py.key_eqb (Py.get d "key") key = false) ->
  In row items ->
  item_field row "key" = Some key ->
  item_field row "definition" = Some JNull
  /\ item_field row "standard_definition" = Some JNull.
Proof.
  intros Hq Hnone Hin Hkey.
  destruct (get_competencies_inv _ _ _ _ _ Hq)
    as (matrix_entry & dm & comps & items' & _ & Hdm & _ & Hrows & Hresp & _).
  injection Hresp as <-.
  destruct (competency_rows_row _ _ _ _ _ Hrows Hin) as (comp & _ & Hrow).
  destruct (competency_row_inv _ _ _ _ Hrow)
    as (key' & label & sv & vd & _ & _ & _ & Hnull & Hvalue & ->).
  injection Hkey as ->.
  pose proof (build_defs_map_get _ _ _ _ Hdm Hnone) as Hget. cbn in Hget.
  cbn [item_field Py.dict_get String.eqb Ascii.eqb Bool.eqb]. rewrite Hget.
  split; [reflexivity|].
  assert (Hsv : sv = JNull \/ sv <> JNull)
    by (destruct sv; (now left) || (right; discriminate)).
  destruct Hsv as [Hsv|Hsv]; [now rewrite (Hnull Hsv)|].
  destruct (Hvalue Hsv) as (vm & Hvm & ->). rewrite Hget in Hvm.
  now injection Hvm as <-.
Qed.

Lemma last_definition_wins_witness :
  get_competencies db_up "Dev" (Some "Senior") three_defs_store
  = (inr (JDict [("title", JStr (_normalize_title "Dev"));
                 ("level", json_of_level (Some "Senior"));
                 ("items", JList [duplicate_defs_row])]), three_defs_store)
  /\ item_field duplicate_defs_row "definition" = Some (JStr "Grows others").
Proof.
  assert (Hq : get_competencies db_up "Dev" (Some "Senior") three_defs_store
               = (inr (JDict [("title", JStr (_normalize_title "Dev"));
                              ("level", json_of_level (Some "Senior"));
                              ("items", JList [duplicate_defs_row])]),
                  three_defs_store))
    by (vm_compute; reflexivity).
  split; [exact Hq|].
  apply (last_definition_wins three_defs_store "Dev" (Some "Senior")
           [duplicate_defs_row] (defs_docs scenario_store) [planning_definition]
           later_definition duplicate_defs_row Hq).
  - reflexivity.
  - intros d' [<-|[]]. reflexivity.
  - left. reflexivity.
  - reflexivity.
Defined.

Lemma no_definition_gives_nulls_witness :
  get_competencies db_up "Dev" (Some "Senior") undefined_key_store
  = (inr (JDict [("title", JStr (_normalize_title "Dev"));
                 ("level", json_of_level (Some "Senior"));
                 ("items",
                   JList [JDict [("key", JStr "coaching");
                                 ("label", JStr "Coaching");
                                 ("standard", JStr "advanced");
                                 ("definition", JStr "Helps others");
                                 ("standard_definition",
                                   JStr "Runs mentoring programs")];
                          undefined_key_row])]), undefined_key_store)
  /\ item_field undefined_key_row "standard" = Some (JStr "basic")
  /\ item_field undefined_key_row "definition" = Some JNull
  /\ item_field undefined_key_row "standard_definition" = Some JNull.
Proof.
  assert (Hq : get_competencies db_up "Dev" (Some "Senior") undefined_key_store
               = (inr (JDict [("title", JStr (_normalize_title "Dev"));
                              ("level", json_of_level (Some "Senior"));
                              ("items",
                                JList [JDict [("key", JStr "coaching");
                                              ("label", JStr "Coaching");
                                              ("standard", JStr "advanced");
                                              ("definition", JStr "Helps others");
                                              ("standard_definition",
                                                JStr "Runs mentoring programs")];
                                       undefined_key_row])]),
                  undefined_key_store))
    by (vm_compute; reflexivity).
  split; [exact Hq|]. split; [reflexivity|].
  apply (no_definition_gives_nulls undefined_key_store "Dev" (Some "Senior")
           _ undefined_key_row (JStr "planning") Hq).
  - intros d [<-|[]]. reflexivity.
  - right. left. reflexivity.
  - reflexivity.
Defined.

(** ** Labels of object references *)

Lemma key_and_label_object (c : dict) (k : string) :
  ref_ok (JDict c) = true ->
  resolved_key (JDict c) = Some k ->
  key_and_label (JDict c) = inr (JStr k, object_label c k).
Proof.
  unfold ref_ok, str_or_none, key_and_label, resolved_key, object_label.
  intros H.
  destruct (Py.get c "key") as [| | |[|k0 k1]| |]; try discriminate H;
    destruct (Py.get c "id") as [| | |[|i0 i1]| |]; try discriminate H;
    destruct (Py.get c "name") as [| | |[|n0 n1]| |]; try discriminate H;
    destruct (Py.get c "label") as [| | |[|l0 l1]| |]; try discriminate H;
    cbn; intros [= <-]; reflexivity.
Qed.

Lemma competency_rows_labels (lm : dict) (dm : Py.pydict) (comps : list json) :
  forallb ref_ok comps = true ->
  Forall (fun kv => exists vm,
            Py.or (Py.get (snd kv) "values") (JDict []) = JDict vm) dm ->
  exists items,
    competency_rows (JDict lm) dm comps [] = inr items
    /\ Forall2 (fun comp row =>
                  forall c, comp = JDict c ->
                  exists k, resolved_key comp = Some k
                            /\ item_field row "key" = Some (JStr k)
                            /\ item_field row "label" = Some (object_label c k))
               (filter resolves comps) items.
Proof.
  intros Hok Hdm. induction comps as [|x comps IH].
  - exists []. split; [reflexivity | constructor].
  - cbn [forallb] in Hok. apply andb_prop in Hok as [Hx Hcomps].
    destruct (IH Hcomps) as (items & Hrows & HF).
    pose proof (competency_row_ok lm dm x Hx Hdm) as Hrow.
    cbn [competency_rows filter]. destruct (resolves x) eqn:Hres.
    + destruct Hrow as (row & Hrow & _). rewrite Hrow.
      rewrite competency_rows_acc, Hrows. cbn [ebind app].
      exists (row :: items). split; [reflexivity|]. constructor; [|exact HF].
      intros c ->. unfold resolves in Hres.
      destruct (resolved_key (JDict c)) as [k|] eqn:Hk; [|discriminate].
      exists k. split; [reflexivity|].
      destruct (competency_row_inv _ _ _ _ Hrow)
        as (key & label & sv & vd & Hkl & _ & _ & _ & _ & ->).
      rewrite (key_and_label_object c k Hx Hk) in Hkl. injection Hkl as <- <-.
      split; reflexivity.
    + rewrite Hrow. exists items. split; [exact Hrows | exact HF].
Qed.

(** X16. The label of an object reference: its [label] when that is a
    non-empty string, else its [name], else the resolved key with
    underscores turned into spaces and every word title-cased. *)
Theorem object_reference_labels (s : store) (title : string)
    (level : option string) (matrix_entry : dict) :
  store_ok s = true ->
  List.find (matches [("job_title", _normalize_title title)]) (matrix_docs s)
  = Some matrix_entry ->
  exists items,
    get_competencies db_up title level s
    = (inr (JDict [("title", JStr (_normalize_title title));
                   ("level", json_of_level level);
                   ("items", JList items)]), s)
    /\ Forall2 (fun comp row =>
                  forall c, comp = JDict c ->
                  exists k, resolved_key comp = Some k
                            /\ item_field row "key" = Some (JStr k)
                            /\ item_field row "label" = Some (object_label c k))
               (filter resolves (refs_of matrix_entry)) items.
Proof.
  intros Hs Hfind. unfold store_ok in Hs.
  apply andb_prop in Hs as [Hs Hdefs]. apply andb_prop in Hs as [Hmatrix Hstd].
  destruct (build_defs_map_ok (defs_docs s) [] Hdefs (Forall_nil _))
    as (dm & Hdm & Hvalues).
  destruct (level_mapping_ok s (_normalize_title title) level Hstd) as [lm Hlm].
  assert (Hentry : matrix_entry_ok matrix_entry = true).
  { rewrite forallb_forall in Hmatrix. apply Hmatrix.
    now apply find_some in Hfind as [Hin _]. }
  destruct (iter_refs_ok matrix_entry Hentry) as [Hiter Hrefs].
  destruct (competency_rows_labels lm dm (refs_of matrix_entry) Hrefs Hvalues)
    as (items & Hrows & HF).
  exists items. split; [|exact HF].
  rewrite (get_competencies_found s title level matrix_entry Hfind).
  rewrite Hdm. cbn [ebind]. rewrite Hiter. cbn [ebind].
  now rewrite Hlm, Hrows.
Qed.

Lemma object_reference_labels_witness :
  exists items,
    get_competencies db_up "Dev" None mixed_store
    = (inr (JDict [("title", JStr (_normalize_title "Dev"));
                   ("level", json_of_level None);
                   ("items", JList items)]), mixed_store)
    /\ Forall2 (fun comp row =>
                  forall c, comp = JDict c ->
                  exists k, resolved_key comp = Some k
                            /\ item_field row "key" = Some (JStr k)
                            /\ item_field row "label" = Some (object_label c k))
               [JStr "team_coaching";
                JDict [("id", JStr "comm"); ("label", JStr "Communication")];
                JDict [("name", JStr "planning")]]
               items.
Proof.
  apply (object_reference_labels mixed_store "Dev" None
           [("job_title", JStr "Dev");
            ("competencies",
              JList [JStr "team_coaching";
                     JDict [("label", JStr "No key")];
                     JDict [("id", JStr "comm"); ("label", JStr "Communication")];
                     JStr EmptyString;
                     JDict [("name", JStr "planning")]])]).
  - vm_compute. reflexivity.
  - vm_compute. reflexivity.
Defined.

(** ** Blank titles *)

Lemma normalize_blank (title : string) :
  PyStr.split title = [] -> _normalize_title title = EmptyString.
Proof. unfold _normalize_title. now intros ->. Qed.

(** X17. A title made of whitespace only (or empty): an element of a matrix
    list that carries it is skipped, while a matrix mapping stores an
    entry under the empty title; the listing leaves that entry out, and
    the query for any blank title finds it. *)
Theorem blank_titles (title : string) (comps : json) (level : option string)
    (s : store) :
  PyStr.split title = [] ->
  ingest_matrix
    (JList [JDict [("job_title", JStr title); ("competencies", comps)]]) s
  = (inr tt, s)
  /\ ingest_matrix (JDict [(title, comps)]) empty_store
     = (inr tt,
        mkStore [[("job_title", JStr EmptyString);
                  ("competencies",
                    match comps with JList _ => comps | _ => JList [] end)]]
                [] [])
  /\ list_titles db_up (snd (ingest_matrix (JDict [(title, comps)]) empty_store))
     = (inr (mkTitlesResponse [] []),
        snd (ingest_matrix (JDict [(title, comps)]) empty_store))
  /\ fst (get_competencies db_up title level
            (snd (ingest_matrix (JDict [(title, comps)]) empty_store)))
     <> inl (HTTPException 404 "Title not found").
Proof.
  intros Hblank. pose proof (normalize_blank title Hblank) as Hn.
  assert (Hmap : ingest_matrix (JDict [(title, comps)]) empty_store
                 = (inr tt,
                    mkStore [[("job_title", JStr EmptyString);
                              ("competencies",
                                match comps with JList _ => comps | _ => JList [] end)]]
                            [] [])).
  { rewrite ingest_matrix_mapping_docs. cbn. now rewrite Hn. }
  split; [|split; [exact Hmap | rewrite Hmap; cbn [snd]; split; [reflexivity|]]].
  - rewrite ingest_matrix_turn.
    assert (Ht : title_of [("job_title", JStr title); ("competencies", comps)]
                 = JStr title).
    { unfold title_of. cbn. destruct title; reflexivity. }
    unfold titled_object, matrix_docs_of, matrix_doc_of. cbn [flat_map].
    rewrite Ht, Hn. cbn. rewrite !app_nil_r. now destruct s.
  - intros H404.
    assert (Hfind : find (matches [("job_title", _normalize_title title)])
                      (matrix_docs
                         (mkStore [[("job_title", JStr EmptyString);
                                    ("competencies",
                                      match comps with
                                      | JList _ => comps
                                      | _ => JList []
                                      end)]] [] []))
                    = Some [("job_title", JStr EmptyString);
                            ("competencies",
                              match comps with JList _ => comps | _ => JList [] end)])
      by (rewrite Hn; reflexivity).
    destruct (get_competencies_found_error _ _ _ _ _ Hfind H404); discriminate.
Qed.

Lemma blank_titles_witness :
  ingest_matrix
    (JList [JDict [("job_title", JStr "   "); ("competencies", JList [JStr "coaching"])]])
    scenario_store
  = (inr tt, scenario_store)
  /\ ingest_matrix (JDict [("   ", JList [JStr "coaching"])]) empty_store
     = (inr tt,
        mkStore [[("job_title", JStr EmptyString);
                  ("competencies", JList [JStr "coaching"])]]
                [] []).
Proof.
  destruct (blank_titles "   " (JList [JStr "coaching"]) None scenario_store eq_refl)
    as (Hlist & Hmap & _).
  split; [exact Hlist | exact Hmap].
Defined.

(** ** The shape of a normalised title *)

(** X18. Normalisation keeps the words of a title and joins them with single
    spaces; the closing [strip] of [_normalize_title] never has anything
    to remove; and the result is empty exactly for blank titles. *)
Theorem normalize_title_words (title : string) :
  _normalize_title title = PyStr.join " " (PyStr.split title)
  /\ PyStr.split (_normalize_title title) = PyStr.split title
  /\ PyStr.strip (_normalize_title title) = _normalize_title title
  /\ (_normalize_title title = EmptyString <-> PyStr.split title = []).
Proof.
  pose proof (split_words title) as Hw.
  split; [apply normalize_title_eq|]. split; [|split].
  - rewrite normalize_title_eq. now apply split_join.
  - rewrite normalize_title_eq. now apply strip_join.
  - split; [|apply normalize_blank].
    rewrite normalize_title_eq. destruct (PyStr.split title) as [|w ws]; [reflexivity|].
    intros H. inversion Hw as [|? ? Hword _]; subst.
    now destruct (join_words_nonempty w ws Hword).
Qed.

(** ** The listing depends on the titles only *)

Lemma ascii_compare_lt_trans (a b c : ascii) :
  Ascii.compare a b = Lt -> Ascii.compare b c = Lt -> Ascii.compare a c = Lt.
Proof.
  unfold Ascii.compare. rewrite !N.compare_lt_iff. apply N.lt_trans.
Qed.

Lemma ascii_compare_refl (a : ascii) : Ascii.compare a a = Eq.
Proof. unfold Ascii.compare. apply N.compare_refl. Qed.

Lemma string_compare_lt_trans (a b c : string) :
  String.compare a b = Lt -> String.compare b c = Lt -> String.compare a c = Lt.
Proof.
  revert b c. induction a as [|x a IH]; intros [|y b] [|z c]; cbn; trivial;
    try discriminate.
  destruct (Ascii.compare x y) eqn:Hxy; try discriminate.
  - apply Ascii.compare_eq_iff in Hxy. subst y.
    destruct (Ascii.compare x z); trivial. apply IH.
  - intros _. destruct (Ascii.compare y z) eqn:Hyz; try discriminate.
    + apply Ascii.compare_eq_iff in Hyz. subst z. now rewrite Hxy.
    + intros _. now rewrite (ascii_compare_lt_trans x y z Hxy Hyz).
Qed.

Lemma string_leb_trans (a b c : string) :
  String.leb a b = true -> String.leb b c = true -> String.leb a c = true.
Proof.
  unfold String.leb.
  destruct (String.compare a b) eqn:Hab; try discriminate;
    destruct (String.compare b c) eqn:Hbc; try discriminate; intros _ _.
  - apply String.compare_eq_iff in Hab. subst a. now rewrite Hbc.
  - apply String.compare_eq_iff in Hab. subst a. now rewrite Hbc.
  - apply String.compare_eq_iff in Hbc. subst c. now rewrite Hab.
  - now rewrite (string_compare_lt_trans a b c Hab Hbc).
Qed.

(** Two duplicate-free sorted lists with the same elements are equal. *)
Lemma sorted_unique (l l' : list string) :
  Sorted (fun a b => String.leb a b = true) l ->
  Sorted (fun a b => String.leb a b = true) l' ->
  NoDup l -> NoDup l' ->
  (forall t, In t l <-> In t l') ->
  l = l'.
Proof.
  intros Hl Hl'.
  apply Sorted_StronglySorted in Hl; [|intros a b c; apply string_leb_trans].
  apply Sorted_StronglySorted in Hl'; [|intros a b c; apply string_leb_trans].
  revert l' Hl'. induction Hl as [|x l Hl IH Hx]; intros l' Hl' Hnd Hnd' Hin.
  - destruct l' as [|y l']; [reflexivity|]. now destruct (proj2 (Hin y) (or_introl eq_refl)).
  - destruct Hl' as [|y l' Hl' Hy]; [now destruct (proj1 (Hin x) (or_introl eq_refl))|].
    rewrite Forall_forall in Hx, Hy.
    inversion Hnd as [|? ? Hxl Hnd0]; inversion Hnd' as [|? ? Hyl Hnd0']; subst.
    assert (Hxy : x = y).
    { destruct (proj1 (Hin x) (or_introl eq_refl)) as [Heq|Hxl']; [now symmetry|].
      destruct (proj2 (Hin y) (or_introl eq_refl)) as [Heq|Hyl']; [exact Heq|].
      apply String.leb_antisym; [now apply Hx | now apply Hy]. }
    subst y. f_equal. apply IH; trivial.
    intros t. split; intros Ht.
    + destruct (proj1 (Hin t) (or_intror Ht)) as [<-|H]; [contradiction | exact H].
    + destruct (proj2 (Hin t) (or_intror Ht)) as [<-|H]; [contradiction | exact H].
Qed.

(** X4. The titles listed depend only on which non-empty titles the matrix
    collection holds, not on the order of its documents nor on how many
    documents carry a title. *)
Theorem list_titles_depends_on_titles_only (s s' : store) :
  titles_are_strings s = true ->
  titles_are_strings s' = true ->
  (forall t, t <> EmptyString ->
             ((exists d, In d (matrix_docs s)
                         /\ Py.dict_get d "job_title" = Some (JStr t))
              <-> exists d, In d (matrix_docs s')
                            /\ Py.dict_get d "job_title" = Some (JStr t))) ->
  exists ts lv lv',
    list_titles db_up s = (inr (mkTitlesResponse ts lv), s)
    /\ list_titles db_up s' = (inr (mkTitlesResponse ts lv'), s').
Proof.
  intros Hs Hs' Hsame.
  destruct (list_titles_strings s Hs) as (ts & m & Hq & Hnd & Hin & _).
  destruct (list_titles_strings s' Hs') as (ts' & m' & Hq' & Hnd' & Hin' & _).
  assert (Heq : sort_by String.leb ts = sort_by String.leb ts').
  { apply sorted_unique.
    - apply sort_by_sorted, String.leb_total.
    - apply sort_by_sorted, String.leb_total.
    - now apply sort_by_NoDup.
    - now apply sort_by_NoDup.
    - intros t. rewrite !sort_by_In, Hin, Hin'. split.
      + intros (Ht & Hd). split; [exact Ht | now apply Hsame].
      + intros (Ht & Hd). split; [exact Ht | now apply Hsame]. }
  eexists _, _, _. split; [exact Hq|]. rewrite Heq. exact Hq'.
Qed.

Lemma list_titles_depends_on_titles_only_witness :
  exists ts lv lv',
    list_titles db_up scenario_store = (inr (mkTitlesResponse ts lv), scenario_store)
    /\ list_titles db_up reordered_store
       = (inr (mkTitlesResponse ts lv'), reordered_store).
Proof.
  apply (list_titles_depends_on_titles_only scenario_store reordered_store).
  - reflexivity.
  - reflexivity.
  - intros t Ht. split.
    + intros (d & [<-|[]] & Hd). eexists. split; [left; reflexivity | exact Hd].
    + intros (d & [<-|[<-|[]]] & Hd);
        (eexists; split; [left; reflexivity | exact Hd]).
Defined.

(** ** The ways the listing can end *)

Lemma title_set_error (docs : list dict) (acc : list json) (e : exn) :
  title_set docs acc = inl e -> e = TypeError.
Proof.
  revert acc. induction docs as [|d docs IH]; intros acc; cbn [title_set].
  - discriminate.
  - destruct (Py.truthy _); [|apply IH].
    destruct (Py.hashable _); [apply IH | now intros [= <-]].
Qed.

Lemma sorted_error (l : list json) (e : exn) : sorted l = inl e -> e = TypeError.
Proof.
  unfold sorted. destruct l as [|x [|y l]]; try discriminate.
  destruct (strings_of _); [discriminate|].
  destruct (forallb _ _); [discriminate | now intros [= <-]].
Qed.

Lemma levels_loop_error (docs : list dict) (m : list (json * list string)) (e : exn) :
  levels_loop docs m = inl e -> e = TypeError.
Proof.
  revert m. induction docs as [|d docs IH]; intros m; cbn [levels_loop].
  - discriminate.
  - destruct (_ && _); [|apply IH].
    destruct (Py.hashable _); [apply IH | now intros [= <-]].
Qed.

(** X5. The listing never writes; without the store it answers 500, and with
    it the only way it can fail is the interpreter's [TypeError], on a
    title that cannot be hashed or on titles that cannot be compared. *)
Theorem list_titles_outcomes (s : store) :
  list_titles None s = (inl (HTTPException 500 "Database not available"), s)
  /\ snd (list_titles db_up s) = s
  /\ forall e, fst (list_titles db_up s) = inl e -> e = TypeError.
Proof.
  split; [reflexivity|].
  unfold list_titles, db_up, bind, find_all, lift, ret. cbn [docs_of].
  destruct (title_set (matrix_docs s) []) as [e|ts] eqn:Hts; cbn [ebind].
  - split; [reflexivity|]. intros e' [= <-]. now apply title_set_error in Hts.
  - destruct (sorted ts) as [e|sorted_ts] eqn:Hsorted.
    + split; [reflexivity|]. intros e' [= <-]. now apply sorted_error in Hsorted.
    + destruct (levels_loop (standards_docs s) []) as [e|m] eqn:Hm.
      * split; [reflexivity|]. intros e' [= <-]. now apply levels_loop_error in Hm.
      * split; [reflexivity | discriminate].
Qed.

(** ** The label of a bare string *)

Lemma is_letter_cased (c : ascii) :
  PyStr.is_lower c || PyStr.is_upper c = is_letter c.
Proof. destruct c as [[] [] [] [] [] [] [] []]; reflexivity. Qed.

Lemma to_lower_small (c : ascii) : PyStr.to_lower c = small c.
Proof. destruct c as [[] [] [] [] [] [] [] []]; reflexivity. Qed.

Lemma to_upper_capital (c : ascii) : PyStr.to_upper c = capital c.
Proof. destruct c as [[] [] [] [] [] [] [] []]; reflexivity. Qed.

Lemma title_from_replace (previous : ascii) (s : string) :
  PyStr.title_from (is_letter previous) (PyStr.replace "_" " " s)
  = title_cased_after previous s.
Proof.
  revert previous. induction s as [|c s IH]; intros previous; [reflexivity|].
  unfold PyStr.replace in *. cbn [PyStr.map_chars PyStr.title_from title_cased_after].
  fold (spaced c). rewrite is_letter_cased, to_lower_small, to_upper_capital.
  rewrite <- (IH (spaced c)). now destruct (is_letter (spaced c)).
Qed.

(** [key.replace("_", " ").title()] writes the key with spaces for
    underscores and every word title-cased. *)
Lemma title_replace_cased (s : string) :
  PyStr.title (PyStr.replace "_" " " s) = title_cased s.
Proof. exact (title_from_replace " " s). Qed.

(** ** The key and the row of a reference *)

Lemma ref_key_object (c : dict) :
  ref_key (JDict c)
  = let key := Py.or (Py.or (Py.get c "key") (Py.get c "id")) (Py.get c "name") in
    if Py.truthy key then Some key else None.
Proof.
  unfold ref_key, first_truthy, Py.or. cbn [find].
  destruct (Py.truthy (Py.get c "key")) eqn:Hk;
    [repeat (rewrite Hk; cbv iota); reflexivity|].
  destruct (Py.truthy (Py.get c "id")) eqn:Hi;
    [repeat (rewrite Hi; cbv iota); reflexivity|].
  destruct (Py.truthy (Py.get c "name")) eqn:Hn;
    repeat (rewrite Hn; cbv iota); reflexivity.
Qed.

Lemma key_and_label_object_key (c : dict) (key label : json) :
  key_and_label (JDict c) = inr (key, label) ->
  key = Py.or (Py.or (Py.get c "key") (Py.get c "id")) (Py.get c "name").
Proof.
  unfold key_and_label.
  destruct (Py.truthy (Py.get c "label")); [now intros [= <- _]|].
  destruct (Py.truthy (Py.get c "name")); [now intros [= <- _]|].
  destruct (Py.truthy (Py.or _ _)); [|now intros [= <- _]].
  destruct (label_of_key _); [discriminate | now intros [= <- _]].
Qed.

(** The key a turn of the loop computes is the key the reference names,
    and it is falsy when the reference names none. *)
Lemma key_and_label_names (comp key label : json) :
  key_and_label comp = inr (key, label) ->
  (if Py.truthy key then ref_key comp = Some key else ref_key comp = None)
  /\ (forall s, comp = JStr s -> label = JStr (title_cased s)).
Proof.
  destruct comp as [|b|z|s|l|c]; try discriminate; intros H.
  - injection H as <- <-. split.
    + unfold ref_key, first_truthy. cbn [find].
      now destruct (Py.truthy (JStr s)).
    + intros s' [= <-]. now rewrite title_replace_cased.
  - apply key_and_label_object_key in H. subst key. split; [|discriminate].
    rewrite ref_key_object. cbv zeta. now destruct (Py.truthy _).
Qed.

Lemma competency_row_names (lm : json) (dm : Py.pydict) (comp : json)
    (o : option json) :
  competency_row lm dm comp = inr o ->
  match o with
  | Some row => names_key comp = true /\ row_matches comp row
  | None => names_key comp = false
  end.
Proof.
  intros H. destruct o as [row|].
  - destruct (competency_row_inv _ _ _ _ H)
      as (key & label & sv & vd & Hkl & Hkey & _ & _ & _ & ->).
    destruct (key_and_label_names _ _ _ Hkl) as [Hname Hlabel].
    rewrite Hkey in Hname. unfold names_key, row_matches. rewrite Hname.
    split; [reflexivity|]. split.
    + exists key. split; reflexivity.
    + intros s Hs. cbn. now rewrite (Hlabel s Hs).
  - unfold competency_row in H.
    destruct (key_and_label comp) as [e|[key label]] eqn:Hkl; [discriminate|].
    cbn [ebind fst snd] in H.
    destruct (key_and_label_names _ _ _ Hkl) as [Hname _].
    destruct (Py.truthy key).
    + cbn [negb] in H. destruct (Py.lookup lm key) as [e|sv]; [discriminate|].
      cbn [ebind] in H.
      destruct sv; cbn [ebind] in H; try discriminate;
        (destruct (Py.as_dict _); discriminate).
    + unfold names_key. now rewrite Hname.
Qed.

(** The rows of a loop that ran to the end: one for each reference that
    names a key, in the order of the references. *)
Lemma competency_rows_names (lm : json) (dm : Py.pydict) (comps items : list json) :
  competency_rows lm dm comps [] = inr items ->
  Forall2 row_matches (filter names_key comps) items.
Proof.
  intros H. destruct (competency_rows_inv _ _ _ _ H) as (outs & HF & ->).
  clear H. induction HF as [|c o comps outs Hc _ IH]; [constructor|].
  apply competency_row_names in Hc. cbn [filter somes].
  destruct o as [row|].
  - destruct Hc as [-> Hrow]. now constructor.
  - now rewrite Hc.
Qed.

(** ** When the loop runs to the end *)

Lemma key_and_label_runs (comp : json) :
  match key_and_label comp with
  | inr (key, _) =>
      if Py.truthy key then ref_runs comp = Py.hashable key
      else ref_runs comp = true
  | inl _ => ref_runs comp = false
  end.
Proof.
  destruct comp as [|b|z|s|l|c]; try reflexivity.
  - cbn. now destruct (negb _).
  - unfold ref_runs. rewrite ref_key_object. cbv zeta. unfold key_and_label.
    set (key := Py.or (Py.or (Py.get c "key") (Py.get c "id")) (Py.get c "name")).
    destruct (Py.truthy (Py.get c "label")) eqn:Hl.
    { destruct (Py.truthy key); [|reflexivity].
      rewrite orb_true_r. cbn [orb]. now rewrite andb_true_r. }
    destruct (Py.truthy (Py.get c "name")) eqn:Hn.
    { destruct (Py.truthy key); [|reflexivity].
      now rewrite orb_true_r, andb_true_r. }
    clearbody key. destruct (Py.truthy key) eqn:Hk.
    + destruct key; cbn [label_of_key ebind Py.hashable is_string andb orb];
        rewrite ?Hk; reflexivity.
    + now rewrite Hk.
Qed.

Lemma competency_row_runs (lm : dict) (dm : Py.pydict) (comp : json) :
  lm = [] \/ values_are_objects dm ->
  if ref_runs comp
  then exists o, competency_row (JDict lm) dm comp = inr o
  else exists e, competency_row (JDict lm) dm comp = inl e.
Proof.
  intros Hjoin. pose proof (key_and_label_runs comp) as Hkl.
  unfold competency_row.
  destruct (key_and_label comp) as [e|[key label]].
  - rewrite Hkl. now exists e.
  - cbn [ebind fst snd]. destruct (Py.truthy key).
    + rewrite Hkl. cbn [negb]. unfold Py.lookup.
      destruct (Py.hashable key); [|now exists TypeError].
      cbn [ebind].
      assert (Hv : (match key with JStr k => Py.get lm k | _ => JNull end) = JNull
                   \/ exists vm,
                        Py.or (Py.get (Py.pydict_get dm key []) "values") (JDict [])
                        = JDict vm).
      { destruct Hjoin as [->|Hdm].
        - left. now destruct key.
        - right.
          apply (pydict_get_Forall
                   (fun defn => exists vm,
                      Py.or (Py.get defn "values") (JDict []) = JDict vm)
                   dm key [] Hdm).
          now exists []. }
      destruct Hv as [->|[vm ->]]; [cbn [ebind]; eauto|].
      cbn [Py.as_dict ebind].
      destruct (match key with JStr k => Py.get lm k | _ => JNull end);
        cbn [ebind]; eauto.
    + rewrite Hkl. cbn [negb]. eauto.
Qed.

Lemma competency_rows_runs (lm : dict) (dm : Py.pydict) (comps acc : list json) :
  lm = [] \/ values_are_objects dm ->
  if forallb ref_runs comps
  then exists items, competency_rows (JDict lm) dm comps acc = inr items
  else exists e, competency_rows (JDict lm) dm comps acc = inl e.
Proof.
  intros Hjoin. revert acc.
  induction comps as [|c comps IH]; intros acc; cbn [forallb competency_rows].
  - now exists acc.
  - pose proof (competency_row_runs lm dm c Hjoin) as Hc.
    destruct (ref_runs c); cbn [andb].
    + destruct Hc as [[row|] ->]; apply IH.
    + destruct Hc as [e ->]. now exists e.
Qed.

Lemma build_defs_map_runs (docs : list dict) (acc : Py.pydict) :
  if forallb (fun d => Py.hashable (Py.get d "key")) docs
  then exists defs_map, build_defs_map docs acc = inr defs_map
  else build_defs_map docs acc = inl TypeError.
Proof.
  revert acc. induction docs as [|d docs IH]; intros acc;
    cbn [forallb build_defs_map].
  - now exists acc.
  - destruct (Py.hashable (Py.get d "key")); cbn [andb]; [apply IH | reflexivity].
Qed.

Lemma build_defs_map_joins (docs : list dict) (acc : Py.pydict) :
  forallb (fun d => Py.hashable (Py.get d "key")
                    && object_or_falsy (Py.get d "values")) docs = true ->
  values_are_objects acc ->
  exists defs_map,
    build_defs_map docs acc = inr defs_map /\ values_are_objects defs_map.
Proof.
  revert acc. induction docs as [|d docs IH]; intros acc Hd Hacc;
    cbn [forallb build_defs_map] in *.
  - now exists acc.
  - apply andb_prop in Hd as [Hd Hdocs]. apply andb_prop in Hd as [-> Hvalues].
    apply IH; [exact Hdocs|].
    apply (pydict_set_Forall
             (fun defn => exists vm,
                Py.or (Py.get defn "values") (JDict []) = JDict vm)); [exact Hacc|].
    change (Py.get [("label", Py.get d "label");
                    ("description", Py.get d "description");
                    ("values", Py.or (Py.get d "values") (JDict []))] "values")
      with (Py.or (Py.get d "values") (JDict [])).
    unfold Py.or at 2.
    destruct (Py.truthy (Py.get d "values")) eqn:Ht; [|now exists []].
    unfold object_or_falsy in Hvalues. rewrite Ht in Hvalues.
    destruct (Py.get d "values") as [| | | | |vm]; try discriminate Hvalues.
    unfold Py.or. rewrite Ht. now exists vm.
Qed.

Lemma level_mapping_joins (s : store) (title : string) (level : option string) :
  forallb (fun d => object_or_falsy (Py.get d "standards")) (standards_docs s)
  = true ->
  exists lm, level_mapping_of s title level = JDict lm.
Proof.
  intros H. unfold level_mapping_of.
  destruct (Py.truthy (json_of_level level)); [|now exists []].
  destruct (find _ (standards_docs s)) as [st_doc|] eqn:Hf; [|now exists []].
  destruct (Py.truthy (JDict st_doc)); [|now exists []].
  apply find_some in Hf as [Hin _].
  rewrite forallb_forall in H. specialize (H st_doc Hin). cbv beta in H.
  unfold Py.or. destruct (Py.truthy (Py.get st_doc "standards")) eqn:Ht;
    [|now exists []].
  unfold object_or_falsy in H. rewrite Ht in H.
  destruct (Py.get st_doc "standards") as [| | | | |lm]; try discriminate H.
  now exists lm.
Qed.

Lemma chars_run (s : string) : forallb ref_runs (Py.chars s) = true.
Proof. induction s as [|c s IH]; [reflexivity | exact IH]. Qed.

Lemma keys_run (d : dict) :
  forallb ref_runs (map (fun kv => JStr (fst kv)) d) = true.
Proof. induction d as [|kv d IH]; [reflexivity | exact IH]. Qed.

Lemma iter_runs (competencies : json) :
  match Py.iter competencies with
  | inr comps => forallb ref_runs comps = competencies_run competencies
  | inl _ => competencies_run competencies = false
  end.
Proof.
  destruct competencies as [|b|z|s|l|d]; try reflexivity.
  - apply chars_run.
  - apply keys_run.
Qed.

(** The query for a title that has an entry ends with the store as it
    was, whatever the outcome. *)
Lemma get_competencies_found_store (s : store) (title : string)
    (level : option string) (matrix_entry : dict) :
  List.find (matches [("job_title", _normalize_title title)]) (matrix_docs s)
  = Some matrix_entry ->
  get_competencies db_up title level s
  = (fst (get_competencies db_up title level s), s).
Proof.
  intros Hfind. now rewrite (get_competencies_found s title level matrix_entry Hfind).
Qed.

(** ** The claims on the outcome of a query *)

(** C5. Query error and null behaviour: on every store, a query whose
    normalised title has no matrix entry ends with [HTTPException] 404.
    When the title has an entry and either no level is given or no
    standards record has the title and the level, the query returns, with
    a null standard and a null standard definition in every item, exactly
    when every definition key is hashable and the entry's competencies can
    be walked (each reference a string, an object naming no key, or an
    object whose key is hashable and is a string unless the object brings
    a label or a name); on every other store it raises [AttributeError] or
    [TypeError]. *)
Theorem C5_not_found_and_nulls (s : store) (title : string)
    (level : option string) :
  ((forall d, In d (matrix_docs s) ->
      Py.dict_get d "job_title" <> Some (JStr (_normalize_title title))) ->
   get_competencies db_up title level s
   = (inl (HTTPException 404 "Title not found"), s))
  /\ (forall matrix_entry,
        List.find (matches [("job_title", _normalize_title title)]) (matrix_docs s)
        = Some matrix_entry ->
        level = None
        \/ (forall d, In d (standards_docs s) ->
              ~ (Py.dict_get d "job_title" = Some (JStr (_normalize_title title))
                 /\ Py.dict_get d "level" = option_map JStr level)) ->
        (runs_without_level s matrix_entry = true ->
         exists items,
           get_competencies db_up title level s
           = (inr (JDict [("title", JStr (_normalize_title title));
                          ("level", json_of_level level);
                          ("items", JList items)]), s)
           /\ Forall (fun row =>
                        item_field row "standard" = Some JNull
                        /\ item_field row "standard_definition" = Some JNull)
                     items)
        /\ (runs_without_level s matrix_entry = false ->
            exists e,
              get_competencies db_up title level s = (inl e, s)
              /\ (e = AttributeError \/ e = TypeError))).
Proof.
  split.
  - intros H. apply get_competencies_not_found. now apply find_job_title_none.
  - intros matrix_entry Hfind Hlevel.
    pose proof (get_competencies_found_error s title level matrix_entry) as Herr.
    specialize (fun e => Herr e Hfind).
    rewrite (get_competencies_found s title level matrix_entry Hfind) in *.
    rewrite (level_mapping_of_empty s _ level Hlevel) in *.
    cbn [fst] in Herr. unfold runs_without_level.
    pose proof (build_defs_map_runs (defs_docs s) []) as Hdm.
    pose proof (iter_runs (Py.get_default matrix_entry "competencies" (JList [])))
      as Hiter.
    destruct (forallb _ (defs_docs s)); cbn [andb].
    + destruct Hdm as [dm Hdm]. rewrite Hdm in *. cbn [ebind] in *.
      destruct (Py.iter _) as [e|comps].
      * rewrite Hiter. split; [discriminate|]. intros _. exists e.
        split; [reflexivity | now apply Herr].
      * rewrite <- Hiter. cbn [ebind] in *.
        pose proof (competency_rows_runs [] dm comps [] (or_introl eq_refl)) as Hrows.
        destruct (forallb ref_runs comps).
        -- destruct Hrows as [items Hrows]. split; [|discriminate]. intros _.
           exists items. rewrite Hrows. split; [reflexivity|].
           exact (rows_without_standard _ _ _ Hrows).
        -- destruct Hrows as [e Hrows]. split; [discriminate|]. intros _.
           exists e. rewrite Hrows in *. split; [reflexivity | now apply Herr].
    + rewrite Hdm. split; [discriminate|]. intros _. exists TypeError.
      split; [reflexivity | now right].
Qed.

Lemma C5_not_found_and_nulls_witness :
  get_competencies db_up "Ops" (Some "Senior") scenario_store
  = (inl (HTTPException 404 "Title not found"), scenario_store)
  /\ (exists items,
        get_competencies db_up "Dev" (Some "Junior") scenario_store
        = (inr (JDict [("title", JStr (_normalize_title "Dev"));
                       ("level", json_of_level (Some "Junior"));
                       ("items", JList items)]), scenario_store)
        /\ Forall (fun row =>
                     item_field row "standard" = Some JNull
                     /\ item_field row "standard_definition" = Some JNull)
                  items)
  /\ exists e,
       get_competencies db_up "Dev" None numeric_ref_store
       = (inl e, numeric_ref_store)
       /\ (e = AttributeError \/ e = TypeError).
Proof.
  split; [|split].
  - apply (proj1 (C5_not_found_and_nulls scenario_store "Ops" (Some "Senior"))).
    intros d Hin. vm_compute in Hin. destruct Hin as [<-|[]]. vm_compute. discriminate.
  - assert (Hlevel : Some "Junior" = None
                     \/ (forall d, In d (standards_docs scenario_store) ->
                           ~ (Py.dict_get d "job_title"
                              = Some (JStr (_normalize_title "Dev"))
                              /\ Py.dict_get d "level"
                                 = option_map JStr (Some "Junior")))).
    { right. intros d Hin. vm_compute in Hin. destruct Hin as [<-|[]].
      vm_compute. intros [_ Hl]. discriminate Hl. }
    apply (proj1 (proj2 (C5_not_found_and_nulls scenario_store "Dev" (Some "Junior"))
                    [("job_title", JStr "Dev");
                     ("competencies", JList [JStr "coaching"])]
                    eq_refl Hlevel)).
    reflexivity.
  - apply (proj2 (proj2 (C5_not_found_and_nulls numeric_ref_store "Dev" None)
                    [("job_title", JStr "Dev"); ("competencies", JList [JInt 5])]
                    eq_refl (or_introl eq_refl))).
    reflexivity.
Defined.

(** The claim as it was stated fails on a store ingest itself writes: the
    matrix [{"Dev": [5]}] is acknowledged and stored, the title [Dev] then
    has an entry, and the query with no level raises instead of returning
    items. *)
Lemma C5_counterexample :
  ingest db_up
    (mkIngestPayload (JDict [("Dev", JList [JInt 5])]) JNull JNull true)
    empty_store
  = (inr (JDict [("status", JStr "ok")]), numeric_ref_store)
  /\ matrix_docs numeric_ref_store
     = [[("job_title", JStr (_normalize_title "Dev"));
         ("competencies", JList [JInt 5])]]
  /\ get_competencies db_up "Dev" None numeric_ref_store
     = (inl AttributeError, numeric_ref_store).
Proof. repeat split; vm_compute; reflexivity. Qed.

(** C8. Item order and silent drop: for an entry whose competencies are a
    list, whenever the query returns, its items are one row for each
    reference that names a key, in the order of the list, each row with
    the key its reference names; a reference that names no key (an object
    with none of key, id and name, or with falsy ones, and the empty
    string) gets no row; the row of a bare string has for label the string
    with underscores turned into spaces and every word title-cased.  On a
    store whose standards and definitions can be joined, the query returns
    exactly when every reference is a string, an object naming no key, or
    an object whose key is hashable and is a string unless the object
    brings a label or a name; otherwise it raises [AttributeError] or
    [TypeError]. *)
Theorem C8_rows_in_order (s : store) (title : string) (level : option string)
    (matrix_entry : dict) (refs : list json) :
  List.find (matches [("job_title", _normalize_title title)]) (matrix_docs s)
  = Some matrix_entry ->
  Py.get_default matrix_entry "competencies" (JList []) = JList refs ->
  (forall response s',
     get_competencies db_up title level s = (inr response, s') ->
     exists items,
       response = JDict [("title", JStr (_normalize_title title));
                         ("level", json_of_level level);
                         ("items", JList items)]
       /\ s' = s
       /\ Forall2 row_matches (filter names_key refs) items)
  /\ (joins_ok s = true ->
      (forallb ref_runs refs = true ->
       exists items,
         get_competencies db_up title level s
         = (inr (JDict [("title", JStr (_normalize_title title));
                        ("level", json_of_level level);
                        ("items", JList items)]), s)
         /\ Forall2 row_matches (filter names_key refs) items)
      /\ (forallb ref_runs refs = false ->
          exists e,
            get_competencies db_up title level s = (inl e, s)
            /\ (e = AttributeError \/ e = TypeError)))
  /\ (forall c,
        Py.dict_get c "key" = None -> Py.dict_get c "id" = None ->
        Py.dict_get c "name" = None ->
        names_key (JDict c) = false /\ ref_runs (JDict c) = true).
Proof.
  intros Hfind Hrefs.
  assert (Hshape : forall response s',
            get_competencies db_up title level s = (inr response, s') ->
            exists items,
              response = JDict [("title", JStr (_normalize_title title));
                                ("level", json_of_level level);
                                ("items", JList items)]
              /\ s' = s
              /\ Forall2 row_matches (filter names_key refs) items).
  { intros response s' Hq.
    destruct (get_competencies_inv _ _ _ _ _ Hq)
      as (matrix_entry' & dm & comps & items & Hfind' & _ & Hiter & Hrows & -> & ->).
    rewrite Hfind in Hfind'. injection Hfind' as <-.
    rewrite Hrefs in Hiter. injection Hiter as <-.
    exists items. repeat apply conj; trivial.
    exact (competency_rows_names _ _ _ _ Hrows). }
  split; [exact Hshape|]. split.
  - intros Hjoin. unfold joins_ok in Hjoin. apply andb_prop in Hjoin as [Hstd Hdefs].
    destruct (build_defs_map_joins (defs_docs s) [] Hdefs (Forall_nil _))
      as (dm & Hdm & Hvalues).
    destruct (level_mapping_joins s (_normalize_title title) level Hstd) as [lm Hlm].
    pose proof (competency_rows_runs lm dm refs [] (or_intror Hvalues)) as Hrows.
    pose proof (get_competencies_found_error s title level matrix_entry) as Herr.
    specialize (fun e => Herr e Hfind).
    assert (Hq : get_competencies db_up title level s
                 = ((result_items <- competency_rows (JDict lm) dm refs [] ;;
                     inr (JDict [("title", JStr (_normalize_title title));
                                 ("level", json_of_level level);
                                 ("items", JList result_items)]))%exn, s)).
    { rewrite (get_competencies_found s title level matrix_entry Hfind).
      rewrite Hdm, Hrefs, Hlm. reflexivity. }
    destruct (forallb ref_runs refs).
    + destruct Hrows as [items Hrows]. split; [|discriminate]. intros _.
      rewrite Hrows in Hq. cbn [ebind] in Hq. exists items. split; [exact Hq|].
      destruct (Hshape _ _ Hq) as (items' & [= <-] & _ & HF). exact HF.
    + destruct Hrows as [e Hrows]. split; [discriminate|]. intros _.
      rewrite Hrows in Hq. cbn [ebind] in Hq. exists e. split; [exact Hq|].
      apply Herr. now rewrite Hq.
  - intros c Hk Hi Hn.
    assert (Hkey : ref_key (JDict c) = None).
    { unfold ref_key, Py.get, Py.get_default. now rewrite Hk, Hi, Hn. }
    unfold names_key, ref_runs. now rewrite Hkey.
Qed.

Lemma C8_rows_in_order_witness :
  get_competencies db_up "Dev" (Some "Senior") loose_refs_store
  = (inr (JDict [("title", JStr (_normalize_title "Dev"));
                 ("level", json_of_level (Some "Senior"));
                 ("items", JList loose_refs_items)]), loose_refs_store)
  /\ Forall2 row_matches
       [JStr "team_coaching";
        JDict [("key", JInt 5); ("label", JStr "Five")];
        JDict [("id", JStr "comm"); ("label", JStr "Communication")]]
       loose_refs_items
  /\ item_field (nth 0 loose_refs_items JNull) "label"
     = Some (JStr "Team Coaching").
Proof.
  assert (Hq : get_competencies db_up "Dev" (Some "Senior") loose_refs_store
               = (inr (JDict [("title", JStr (_normalize_title "Dev"));
                              ("level", json_of_level (Some "Senior"));
                              ("items", JList loose_refs_items)]),
                  loose_refs_store))
    by (vm_compute; reflexivity).
  split; [exact Hq|].
  destruct (C8_rows_in_order loose_refs_store "Dev" (Some "Senior")
              [("job_title", JStr "Dev");
               ("competencies",
                 JList [JStr "team_coaching";
                        JDict [("label", JInt 5)];
                        JDict [("weight", JInt 3)];
                        JDict [("key", JInt 5); ("label", JStr "Five")];
                        JStr EmptyString;
                        JDict [("id", JStr "comm");
                               ("label", JStr "Communication")]])]
              [JStr "team_coaching";
               JDict [("label", JInt 5)];
               JDict [("weight", JInt 3)];
               JDict [("key", JInt 5); ("label", JStr "Five")];
               JStr EmptyString;
               JDict [("id", JStr "comm"); ("label", JStr "Communication")]]
              eq_refl eq_refl) as (_ & Hruns & _).
  destruct (proj1 (Hruns eq_refl) eq_refl) as (items & Hq' & HF).
  rewrite Hq in Hq'. injection Hq' as <-.
  split; [exact HF | reflexivity].
Defined.

(** The claim as it was stated fails on stores ingest itself writes.  The
    matrix [{"Dev": ["coaching", {"key": 7}]}] is acknowledged and stored;
    both references name a key, yet the query raises instead of returning
    two rows.  And with the standards [{"Dev": {"Senior": [1]}}] the query
    for that level raises although the only reference is the bare string
    [coaching]. *)
Lemma C8_counterexample :
  (ingest db_up numeric_key_payload empty_store
   = (inr (JDict [("status", JStr "ok")]), numeric_key_store)
   /\ matrix_docs numeric_key_store
      = [[("job_title", JStr "Dev");
          ("competencies", JList [JStr "coaching"; JDict [("key", JInt 7)]])]]
   /\ map ref_key [JStr "coaching"; JDict [("key", JInt 7)]]
      = [Some (JStr "coaching"); Some (JInt 7)]
   /\ get_competencies db_up "Dev" None numeric_key_store
      = (inl AttributeError, numeric_key_store))
  /\ (ingest db_up listed_standards_payload empty_store
      = (inr (JDict [("status", JStr "ok")]), listed_standards_store)
      /\ matrix_docs listed_standards_store
         = [[("job_title", JStr "Dev"); ("competencies", JList [JStr "coaching"])]]
      /\ get_competencies db_up "Dev" (Some "Senior") listed_standards_store
         = (inl AttributeError, listed_standards_store)).
Proof. repeat split; vm_compute; reflexivity. Qed.
